(** * Tracker Sync Board: the state store, the message workflow and the board actions

    A shallow embedding of [src/extension.ts] (the document store, the
    normalizer, the message workflow, the seed operation, the save path, the
    message dispatch) and of [media/dashboard.js] (the click handlers, the
    two forms, [saveState], the counters and the grouping of its rendering),
    with the properties the specification states about them and further
    properties of the same code.

    Modelling choices, all local to this file:
    - a JavaScript value is a tree ([Js.value]); an object is an ordered list
      of properties, as [JSON.stringify] sees it;
    - a number is an integer-valued double, [NaN] or an infinity. The only
      arithmetic the program does is [revision + 1], which is rounded as a
      double rounds it ([Js.nearest_double]): exact up to 2^53, to the nearest
      double with an even significand above; fractional doubles are outside
      the model;
    - the world the extension runs in ([Host.World]) holds the workspace
      folder with the backing file, the wall clock as the sequence of its
      readings, whether the sidebar view has been resolved, and logs of what
      was written, shown and posted;
    - the backing file is kept as the JSON value its text denotes; a text
      that [JSON.parse] rejects is [Malformed];
    - the operator's answers to prompts are arguments of the operations;
    - the operations run one at a time (no interleaving of awaits). *)

From Stdlib Require Import ZArith String List Bool Lia.
From stdpp Require Import base tactics option list strings pretty.

Local Open Scope string_scope.
Local Open Scope Z_scope.

(** ** JavaScript values and the primitives the program uses *)

Module Js.

Inductive number :=
| Finite (z : Z)
| NaN
| Infinity (negative : bool).

#[warnings="-register-all"]
Inductive value :=
| VUndefined
| VNull
| VBool (b : bool)
| VNum (n : number)
| VStr (s : string)
| VArr (items : list value)
| VObj (props : list (string * value)).

Inductive error :=
| TypeError
| SyntaxError
| FileSystemError.

(** The result of an expression that may throw. *)
Inductive outcome (A : Type) :=
| Return (a : A)
| Throw (e : error).
Arguments Return {A} a.
Arguments Throw {A} e.

#[global] Instance outcome_ret : MRet outcome := λ A a, Return a.
#[global] Instance outcome_bind : MBind outcome := λ A B f m,
  match m with
  | Return a => f a
  | Throw e => Throw e
  end.

(** [typeof v] *)
Definition typeof (v : value) : string :=
  match v with
  | VUndefined => "undefined"
  | VNull => "object"
  | VBool _ => "boolean"
  | VNum _ => "number"
  | VStr _ => "string"
  | VArr _ => "object"
  | VObj _ => "object"
  end.

(** [Number.isFinite(v)] *)
Definition Number_isFinite (v : value) : bool :=
  match v with
  | VNum (Finite _) => true
  | _ => false
  end.

(** [Array.isArray(v)] *)
Definition Array_isArray (v : value) : bool :=
  match v with
  | VArr _ => true
  | _ => false
  end.

(** [a ?? b] *)
Definition nullish (a b : value) : value :=
  match a with
  | VUndefined | VNull => b
  | _ => a
  end.

(** ToBoolean, as used by [!v], [v || w] and [if (v)]. *)
Definition truthy (v : value) : bool :=
  match v with
  | VUndefined | VNull => false
  | VBool b => b
  | VNum (Finite z) => negb (z =? 0)
  | VNum NaN => false
  | VNum (Infinity _) => true
  | VStr s => negb (String.eqb s "")
  | VArr _ | VObj _ => true
  end.

(** [a === b]. Two arrays or two objects are equal when they are the same
    object; [same] says whether the two operands are the same reference. *)
Definition strict_equal (same : bool) (a b : value) : bool :=
  match a, b with
  | VUndefined, VUndefined => true
  | VNull, VNull => true
  | VBool x, VBool y => Bool.eqb x y
  | VNum (Finite x), VNum (Finite y) => x =? y
  | VNum (Infinity x), VNum (Infinity y) => Bool.eqb x y
  | VStr x, VStr y => String.eqb x y
  | VArr _, VArr _ => same
  | VObj _, VObj _ => same
  | _, _ => false
  end.

(** SameValueZero, the equality of [Map] keys: [===] except that [NaN] is
    equal to itself. *)
Definition same_value_zero (same : bool) (a b : value) : bool :=
  match a, b with
  | VNum NaN, VNum NaN => true
  | _, _ => strict_equal same a b
  end.

(** Comparison with a string literal: [v === "lit"]. *)
Definition is_literal (v : value) (lit : string) : bool :=
  strict_equal false v (VStr lit).

(** The own property [k] of a property list. *)
Fixpoint own (props : list (string * value)) (k : string) : option value :=
  match props with
  | [] => None
  | (k', v) :: rest => if String.eqb k' k then Some v else own rest k
  end.

(** [v.k] for the property names the program reads ([revision],
    [updatedAt], [tasks], [messages], [from], [to], [resolved], [id],
    [title], [type], [body], [lane], [status]): none of them is inherited
    from a prototype, so a boolean, number, string or array answers
    [undefined], and [undefined] and [null] throw. *)
Definition get (v : value) (k : string) : outcome value :=
  match v with
  | VUndefined | VNull => Throw TypeError
  | VObj props => Return (default VUndefined (own props k))
  | _ => Return VUndefined
  end.

(** [o.k = v] on a property list: an existing property keeps its place,
    a new one goes last. *)
Fixpoint assign (props : list (string * value)) (k : string) (v : value)
  : list (string * value) :=
  match props with
  | [] => [(k, v)]
  | (k', v') :: rest =>
      if String.eqb k' k then (k, v) :: rest else (k', v') :: assign rest k v
  end.

(** [o.k = v] in strict-mode code (the compiled extension): assignment to a
    property of a primitive throws. The program only ever assigns to
    objects; an array target is not represented. *)
Definition set (o : value) (k : string) (v : value) : outcome value :=
  match o with
  | VObj props => Return (VObj (assign props k v))
  | _ => Throw TypeError
  end.

(** The integer [z] rounded to a double: itself up to 2^53 in magnitude, and
    above that the nearest multiple of the spacing of the doubles around it,
    a tie going to the even significand. *)
Definition nearest_double (z : Z) : Z :=
  let a := Z.abs z in
  if a <? 9007199254740992 then z
  else
    let ulp := 2 ^ (Z.log2 a - 52) in
    let q := a / ulp in
    let rest := a mod ulp in
    let q := if 2 * rest <? ulp then q
             else if ulp <? 2 * rest then q + 1
             else if Z.even q then q else q + 1 in
    Z.sgn z * (q * ulp).

(** The decimal numeral with the fewest significant digits that denotes the
    double [v] (that is, rounds to it): the candidates with [k] digits are
    [v] cut after [k] digits and the next one up, [p] is the weight of the
    last digit kept, and [k] grows until a candidate denotes [v]. Of two
    candidates that denote [v] the closer one is taken. *)
Fixpoint shortest (fuel : nat) (p v : Z) : Z :=
  match fuel with
  | O => v
  | S fuel =>
      let lo := v / p * p in
      let hi := lo + p in
      let denotes c := nearest_double c =? v in
      if denotes lo && denotes hi then
        if v - lo <? hi - v then lo
        else if hi - v <? v - lo then hi
        else if Z.even (lo / p) then lo else hi
      else if denotes lo then lo
      else if denotes hi then hi
      else shortest fuel (p / 10) v
  end.

(** [c] without its trailing zeros. *)
Fixpoint significand (fuel : nat) (c : Z) : Z :=
  match fuel with
  | O => c
  | S fuel =>
      if (0 <? c) && (c mod 10 =? 0) then significand fuel (c / 10) else c
  end.

(** Number::toString of a double [v >= 0] with an integer value: the
    shortest digits followed by zeros up to 21 digits, and beyond that the
    exponent form [d.ddde+n]. *)
Definition numeral (v : Z) : string :=
  let n := String.length (pretty v) in
  let c := shortest n (10 ^ (Z.of_nat n - 1)) v in
  let digits := pretty c in
  let m := String.length digits in
  if (m <=? 21)%nat then digits
  else
    let exponent := "e+" ++ pretty (Z.of_nat m - 1) in
    match pretty (significand m c) with
    | String d EmptyString => String d exponent
    | String d more => String d ("." ++ more ++ exponent)
    | EmptyString => digits
    end.

(** ToString of a number with an integer value. *)
Definition number_to_string (z : Z) : string :=
  if z <? 0 then "-" ++ numeral (- z) else numeral z.

(** ToString, as used by a template literal. *)
Fixpoint to_string (v : value) : string :=
  match v with
  | VUndefined => "undefined"
  | VNull => "null"
  | VBool true => "true"
  | VBool false => "false"
  | VNum (Finite z) => number_to_string z
  | VNum NaN => "NaN"
  | VNum (Infinity false) => "Infinity"
  | VNum (Infinity true) => "-Infinity"
  | VStr s => s
  | VArr items =>
      (fix join (l : list value) : string :=
         match l with
         | [] => ""
         | x :: rest =>
             let shown :=
               match x with
               | VUndefined | VNull => ""
               | _ => to_string x
               end in
             match rest with
             | [] => shown
             | _ :: _ => shown ++ "," ++ join rest
             end
         end) items
  | VObj _ => "[object Object]"
  end.

(** [JSON.parse(JSON.stringify(v))]: what survives serialization. A property
    whose value is [undefined] is left out, [undefined] in an array and a
    number that is not finite become [null]. *)
Fixpoint to_json (v : value) : value :=
  match v with
  | VUndefined => VNull
  | VNum (Finite z) => VNum (Finite z)
  | VNum _ => VNull
  | VArr items => VArr (map to_json items)
  | VObj props =>
      VObj ((fix keep (ps : list (string * value)) : list (string * value) :=
               match ps with
               | [] => []
               | (k, VUndefined) :: rest => keep rest
               | (k, x) :: rest => (k, to_json x) :: keep rest
               end) props)
  | _ => v
  end.

(** [a + 1] on numbers: the sum is rounded to a double, so from 2^53 on it
    need not be the next integer. It never overflows: the largest double
    plus 1 rounds back to it. *)
Definition succ (n : number) : number :=
  match n with
  | Finite z => Finite (nearest_double (z + 1))
  | _ => n
  end.

End Js.

(** ** The data model of [extension.ts] *)

Module Model.
Import Js.

Inductive TaskLane := LaneTodo | LaneProgress | LaneDone.
Inductive TaskOwner := Human | Ai.
Inductive TaskStatus := StatusTodo | StatusProgress | StatusDone | StatusBlocked.
Inductive TaskPriority := P0 | P1 | P2.

Definition lane_name (l : TaskLane) : string :=
  match l with
  | LaneTodo => "todo"
  | LaneProgress => "progress"
  | LaneDone => "done"
  end.

Definition owner_name (o : TaskOwner) : string :=
  match o with
  | Human => "human"
  | Ai => "ai"
  end.

Definition status_name (s : TaskStatus) : string :=
  match s with
  | StatusTodo => "todo"
  | StatusProgress => "progress"
  | StatusDone => "done"
  | StatusBlocked => "blocked"
  end.

Definition priority_name (p : TaskPriority) : string :=
  match p with
  | P0 => "p0"
  | P1 => "p1"
  | P2 => "p2"
  end.

(** [interface TrackerTask] *)
Record TrackerTask := {
  task_id : string;
  task_title : string;
  task_note : option string;
  task_owner : TaskOwner;
  task_lane : TaskLane;
  task_status : TaskStatus;
  task_effort : option string;
  task_milestone : option string;
  task_priority : option TaskPriority;
  task_createdAt : option string
}.

(** [interface TrackerMessage]. [inReplyTo] holds whatever the [id] of the
    answered message is, so it is a value. *)
Record TrackerMessage := {
  msg_id : string;
  msg_from : TaskOwner;
  msg_to : TaskOwner;
  msg_type : string;
  msg_title : string;
  msg_body : string;
  msg_createdAt : string;
  msg_resolved : bool;
  msg_inReplyTo : option value
}.

(** [interface TrackerState]. The two arrays hold whatever the file or the
    view put in them: [normalize] checks the containers, not the elements. *)
Record TrackerState := {
  revision : number;
  updatedAt : string;
  tasks : list value;
  messages : list value
}.

Definition optional (k : string) (v : option value) : list (string * value) :=
  match v with
  | Some x => [(k, x)]
  | None => []
  end.

(** The object a task literal evaluates to. *)
Definition task_object (t : TrackerTask) : value :=
  VObj ([("id", VStr (task_id t)); ("title", VStr (task_title t))]
        ++ optional "note" (VStr <$> task_note t)
        ++ [("owner", VStr (owner_name (task_owner t)));
            ("lane", VStr (lane_name (task_lane t)));
            ("status", VStr (status_name (task_status t)))]
        ++ optional "effort" (VStr <$> task_effort t)
        ++ optional "milestone" (VStr <$> task_milestone t)
        ++ optional "priority" ((λ p, VStr (priority_name p)) <$> task_priority t)
        ++ optional "createdAt" (VStr <$> task_createdAt t)).

(** The object a message literal evaluates to. *)
Definition message_object (m : TrackerMessage) : value :=
  VObj ([("id", VStr (msg_id m));
         ("from", VStr (owner_name (msg_from m)));
         ("to", VStr (owner_name (msg_to m)));
         ("type", VStr (msg_type m));
         ("title", VStr (msg_title m));
         ("body", VStr (msg_body m));
         ("createdAt", VStr (msg_createdAt m));
         ("resolved", VBool (msg_resolved m))]
        ++ optional "inReplyTo" (msg_inReplyTo m)).

(** The object a state is at run time: the four properties, in the order
    of the literals in [defaultState] and [normalize]. *)
Definition state_object (s : TrackerState) : value :=
  VObj [("revision", VNum (revision s));
        ("updatedAt", VStr (updatedAt s));
        ("tasks", VArr (tasks s));
        ("messages", VArr (messages s))].

Definition with_updatedAt (s : TrackerState) (now : string) : TrackerState :=
  {| revision := revision s; updatedAt := now;
     tasks := tasks s; messages := messages s |}.

Definition with_revision (s : TrackerState) (r : number) : TrackerState :=
  {| revision := r; updatedAt := updatedAt s;
     tasks := tasks s; messages := messages s |}.

Definition with_messages (s : TrackerState) (ms : list value) : TrackerState :=
  {| revision := revision s; updatedAt := updatedAt s;
     tasks := tasks s; messages := ms |}.

(** The seed content of [defaultState()], built at the clock reading [now]. *)
Definition seedTasks (now : string) : list TrackerTask :=
  [ {| task_id := "task-m1-ui-shell";
       task_title := "Stabilize dashboard shell and state flow";
       task_note := Some "Polish webview rendering, persistence, and task interactions.";
       task_owner := Ai; task_lane := LaneProgress; task_status := StatusProgress;
       task_effort := Some "1d"; task_milestone := Some "M1 Foundation";
       task_priority := Some P0; task_createdAt := Some now |};
    {| task_id := "task-m1-devloop";
       task_title := "Set up dev loop (run, build, package)";
       task_note := Some "Add scripts + docs for quick extension development.";
       task_owner := Human; task_lane := LaneTodo; task_status := StatusTodo;
       task_effort := Some "0.5d"; task_milestone := Some "M1 Foundation";
       task_priority := Some P1; task_createdAt := Some now |};
    {| task_id := "task-m2-sync";
       task_title := "Implement robust file-watch merge strategy";
       task_note := Some "Handle concurrent edits and conflict messaging.";
       task_owner := Ai; task_lane := LaneTodo; task_status := StatusTodo;
       task_effort := Some "1.5d"; task_milestone := Some "M2 Collaboration";
       task_priority := Some P0; task_createdAt := Some now |};
    {| task_id := "task-m2-aiops";
       task_title := "Create message processing workflow";
       task_note := Some "Support human -> ai -> human cycle directly in dashboard.";
       task_owner := Human; task_lane := LaneProgress; task_status := StatusProgress;
       task_effort := Some "1d"; task_milestone := Some "M2 Collaboration";
       task_priority := Some P1; task_createdAt := Some now |};
    {| task_id := "task-m3-release";
       task_title := "Add VSIX packaging and release CI";
       task_note := Some "Prepare publish-ready pipeline and versioning.";
       task_owner := Human; task_lane := LaneTodo; task_status := StatusTodo;
       task_effort := Some "1d"; task_milestone := Some "M3 Release";
       task_priority := Some P1; task_createdAt := Some now |} ].

Definition seedMessages (now : string) : list TrackerMessage :=
  [ {| msg_id := "msg-start"; msg_from := Ai; msg_to := Human;
       msg_type := "note"; msg_title := "Tracker v1 is ready";
       msg_body := "Use this board to drive the extension roadmap. Start by finishing M1 Foundation tasks.";
       msg_createdAt := now; msg_resolved := false; msg_inReplyTo := None |} ].

(** The document [defaultState()] returns when the clock reads [now]. *)
Definition seed (now : string) : TrackerState :=
  {| revision := Finite 1;
     updatedAt := now;
     tasks := task_object <$> seedTasks now;
     messages := message_object <$> seedMessages now |}.

End Model.

(** ** The host: workspace folder, backing file, clock, prompts and logs *)

Module Host.
Import Js Model.

(** One reading of the wall clock: [Date.now()] and
    [new Date().toISOString()] of the same instant. *)
Record Instant := { millis : Z; iso : string }.

(** What [workspace.fs.readFile] followed by [JSON.parse] finds at
    [.tracker/state.json]. *)
Inductive File :=
| Absent
| Unreadable
| Malformed (text : string)
| Json (content : value).

(** The first workspace folder: its state file, and whether
    [createDirectory] and [writeFile] succeed in it. *)
Record Folder := { stateFile : File; writable : bool }.

(** A message posted to the webview. *)
Inductive ViewMessage :=
| StateMessage (payload : TrackerState)
| InfoMessage (message : string).

Record World := {
  workspaceFolder : option Folder;
  clock : nat → Instant;      (* the n-th reading of the wall clock *)
  ticks : nat;                (* readings taken so far *)
  writes : list value;        (* every [writeFile], latest first *)
  notices : list string;      (* messages shown to the operator, latest first *)
  posted : list ViewMessage;  (* messages posted to the view, latest first *)
  viewResolved : bool         (* [this.view] is set: the sidebar view was opened *)
}.

(** An asynchronous method: it runs in a world, changes it, and returns or
    rejects. *)
Definition M (A : Type) : Type := World → outcome A * World.

#[global] Instance M_ret : MRet M := λ A a w, (Return a, w).
#[global] Instance M_bind : MBind M := λ A B f m w,
  match m w with
  | (Return a, w') => f a w'
  | (Throw e, w') => (Throw e, w')
  end.

Definition throw {A} (e : error) : M A := λ w, (Throw e, w).

(** An expression that may throw, inside a method. *)
Definition lift {A} (o : outcome A) : M A := λ w, (o, w).

(** [try { body } catch { handler }] *)
Definition try_catch {A} (body handler : M A) : M A := λ w,
  match body w with
  | (Return a, w') => (Return a, w')
  | (Throw _, w') => handler w'
  end.

(** [new Date().toISOString()] *)
Definition now_iso : M string := λ w,
  (Return (iso (clock w (ticks w))),
   {| workspaceFolder := workspaceFolder w; clock := clock w;
      ticks := S (ticks w); writes := writes w;
      notices := notices w; posted := posted w;
     viewResolved := viewResolved w |}).

(** [Date.now()] *)
Definition now_millis : M Z := λ w,
  (Return (millis (clock w (ticks w))),
   {| workspaceFolder := workspaceFolder w; clock := clock w;
      ticks := S (ticks w); writes := writes w;
      notices := notices w; posted := posted w;
     viewResolved := viewResolved w |}).

(** [JSON.parse(decoder.decode(await workspace.fs.readFile(uri)))] *)
Definition readFile_parse : M value := λ w,
  match workspaceFolder w with
  | Some {| stateFile := Json v |} => (Return v, w)
  | Some {| stateFile := Malformed _ |} => (Throw SyntaxError, w)
  | _ => (Throw FileSystemError, w)
  end.

(** [await workspace.fs.createDirectory(dirUri)] *)
Definition createDirectory : M unit := λ w,
  match workspaceFolder w with
  | Some {| writable := true |} => (Return (), w)
  | _ => (Throw FileSystemError, w)
  end.

(** [await workspace.fs.writeFile(stateUri, encode(JSON.stringify(v, null, 2) + "\n"))] *)
Definition writeFile_json (v : value) : M unit := λ w,
  match workspaceFolder w with
  | Some {| writable := true |} =>
      (Return (),
       {| workspaceFolder := Some {| stateFile := Json (to_json v); writable := true |};
          clock := clock w; ticks := ticks w;
          writes := to_json v :: writes w;
          notices := notices w; posted := posted w;
     viewResolved := viewResolved w |})
  | _ => (Throw FileSystemError, w)
  end.

(** [window.showWarningMessage(text)] and [window.showInformationMessage(text)]
    without buttons. *)
Definition showMessage (text : string) : M unit := λ w,
  (Return (),
   {| workspaceFolder := workspaceFolder w; clock := clock w;
      ticks := ticks w; writes := writes w;
      notices := text :: notices w; posted := posted w;
     viewResolved := viewResolved w |}).

(** [this.view?.webview.postMessage(msg)]: nothing is posted before the
    sidebar view has been resolved. *)
Definition postMessage (msg : ViewMessage) : M unit := λ w,
  (Return (),
   {| workspaceFolder := workspaceFolder w; clock := clock w;
      ticks := ticks w; writes := writes w;
      notices := notices w;
      posted := if viewResolved w then msg :: posted w else posted w;
      viewResolved := viewResolved w |}).

(** The content of the backing file, when there is one that decodes. *)
Definition stored (w : World) : option value :=
  match workspaceFolder w with
  | Some {| stateFile := Json v |} => Some v
  | _ => None
  end.

End Host.

(** ** [class TrackerStateStore] *)

Module TrackerStateStore.
Import Js Model Host.

(** The casts of [normalize]: a value read at the type its test established. *)
Definition as_number (v : value) : number :=
  match v with
  | VNum n => n
  | _ => NaN
  end.

Definition as_string (v : value) : string :=
  match v with
  | VStr s => s
  | _ => ""
  end.

Definition as_array (v : value) : list value :=
  match v with
  | VArr items => items
  | _ => []
  end.

(** [function defaultState()] *)
Definition defaultState : M TrackerState :=
  now ← now_iso;
  mret (seed now).

(** [private normalize(raw: unknown)] *)
Definition normalize (raw : value) : M TrackerState :=
  let value := nullish raw (VObj []) in
  r ← lift (get value "revision");
  let revision :=
    if String.eqb (typeof r) "number" && Number_isFinite r
    then as_number r else Finite 1 in
  u ← lift (get value "updatedAt");
  updatedAt ← (if String.eqb (typeof u) "string"
                then mret (as_string u) else now_iso);
  t ← lift (get value "tasks");
  let tasks := if Array_isArray t then as_array t else [] in
  m ← lift (get value "messages");
  let messages := if Array_isArray m then as_array m else [] in
  mret {| revision := revision; updatedAt := updatedAt;
          tasks := tasks; messages := messages |}.

(** [public async write(state)] *)
Definition write (state : value) : M TrackerState :=
  normalized ← normalize state;
  now ← now_iso;
  let normalized := with_updatedAt normalized now in
  createDirectory;;
  writeFile_json (state_object normalized);;
  mret normalized.

(** [public async read()] *)
Definition read : M TrackerState :=
  try_catch
    (parsed ← readFile_parse;
     normalize parsed)
    (created ← defaultState;
     write (state_object created);;
     mret created).

End TrackerStateStore.

(** ** [class TrackerDashboardProvider] *)

Module TrackerDashboardProvider.
Import Js Model Host TrackerStateStore.

(** The answers of the operator to the prompts of one command. *)
Record Operator := {
  quickPick : option nat;     (* index of the picked item, or dismissed *)
  inputBox : option string;   (* the text typed, or dismissed *)
  confirm : option string     (* the button pressed, or dismissed *)
}.

(** An item offered by [showQuickPick]. [origin] is the message the item was
    made from: it identifies the [id] when that is an object. *)
Record QuickPickItem := {
  label : value;
  description : value;
  detail : value;
  id : value;
  origin : nat
}.

(** [ensureWorkspaceBinding()], answering whether [this.store] is set. *)
Definition ensureWorkspaceBinding : M bool := λ w,
  (Return (bool_decide (is_Some (workspaceFolder w))), w).

Definition postState (state : TrackerState) : M unit :=
  postMessage (StateMessage state).

Definition postInfo (message : string) : M unit :=
  postMessage (InfoMessage message).

(** [private async pushState()] *)
Definition pushState : M unit :=
  bound ← ensureWorkspaceBinding;
  if negb bound then
    postInfo "Open a workspace folder to use Tracker Sync Board."
  else
    state ← read;
    postState state.

(** [m => m.from === "human" && m.to === "ai" && !m.resolved] *)
Definition isPending (m : value) : outcome bool :=
  from ← get m "from";
  if is_literal from "human" then
    to ← get m "to";
    if is_literal to "ai" then
      resolved ← get m "resolved";
      mret (negb (truthy resolved))
    else mret false
  else mret false.

(** [messages.filter(isPending)]: the elements kept, each with its position
    in [messages]. The position stands for the reference the filtered array
    shares with [state.messages]: every element of a parsed array is an
    object of its own. *)
Fixpoint filterPending (messages : list value) (i : nat)
  : outcome (list (nat * value)) :=
  match messages with
  | [] => mret []
  | m :: rest =>
      keep ← isPending m;
      kept ← filterPending rest (S i);
      mret (if keep : bool then (i, m) :: kept else kept)
  end.

(** [m => ({ label: m.title, description: m.type, detail: m.body, id: m.id })] *)
Definition itemOf (entry : nat * value) : outcome QuickPickItem :=
  let '(ref, m) := entry in
  title ← get m "title";
  type ← get m "type";
  body ← get m "body";
  i ← get m "id";
  mret {| label := title; description := type; detail := body;
          id := i; origin := ref |}.

(** [pending.map(itemOf)] *)
Fixpoint itemsOf (pending : list (nat * value)) : outcome (list QuickPickItem) :=
  match pending with
  | [] => mret []
  | entry :: rest =>
      item ← itemOf entry;
      items ← itemsOf rest;
      mret (item :: items)
  end.

(** [pending.find(m => m.id === pick.id)] *)
Fixpoint findSource (pending : list (nat * value)) (pick : QuickPickItem)
  : outcome (option (nat * value)) :=
  match pending with
  | [] => mret None
  | (ref, m) :: rest =>
      i ← get m "id";
      if strict_equal (Nat.eqb ref (origin pick)) i (id pick)
      then mret (Some (ref, m))
      else findSource rest pick
  end.

(** The reply literal pushed by [processHumanMessages]. *)
Definition replyTo (source : value) (response : string) : M TrackerMessage :=
  ms ← now_millis;
  title ← lift (get source "title");
  createdAt ← now_iso;
  i ← lift (get source "id");
  mret {| msg_id := "msg-" ++ number_to_string ms;
          msg_from := Ai; msg_to := Human; msg_type := "response";
          msg_title := "Re: " ++ to_string title;
          msg_body := response;
          msg_createdAt := createdAt;
          msg_resolved := false;
          msg_inReplyTo := Some i |}.

(** [public async processHumanMessages()] *)
Definition processHumanMessages (op : Operator) : M unit :=
  bound ← ensureWorkspaceBinding;
  if negb bound then
    showMessage "Open a workspace folder to use Tracker Sync Board."
  else
    state ← read;
    pending ← lift (filterPending (messages state) 0);
    if (length pending =? 0)%nat then
      showMessage "No unresolved messages from human to AI."
    else
      items ← lift (itemsOf pending);
      match quickPick op ≫= (λ k, items !! k) with
      | None => mret ()
      | Some pick =>
          found ← lift (findSource pending pick);
          match found with
          | None => mret ()
          | Some (ref, source) =>
              match inputBox op with
              | None => mret ()
              | Some response =>
                  if String.eqb response "" then mret ()
                  else
                    resolved ← lift (set source "resolved" (VBool true));
                    reply ← replyTo resolved response;
                    let state :=
                      with_messages state
                        (<[ref := resolved]> (messages state)
                           ++ [message_object reply]) in
                    let state := with_revision state (succ (revision state)) in
                    write (state_object state);;
                    pushState
              end
          end
      end.

(** [public async seedRoadmap()] *)
Definition seedRoadmap (op : Operator) : M unit :=
  bound ← ensureWorkspaceBinding;
  if negb bound then
    showMessage "Open a workspace folder to use Tracker Sync Board."
  else
    match confirm op with
    | Some "Replace" =>
        seeded ← defaultState;
        write (state_object seeded);;
        pushState;;
        showMessage "Tracker roadmap initialized."
    | _ => mret ()
    end.

(** [private async saveFromWebview(payload)] *)
Definition saveFromWebview (payload : value) : M unit :=
  bound ← ensureWorkspaceBinding;
  if negb bound then
    postInfo "Open a workspace folder to persist tracker state."
  else if negb (truthy payload) then
    postInfo "Invalid state payload from dashboard."
  else
    saved ← write payload;
    postState saved.

(** [public async openStateFile()]; showing the file in an editor changes
    nothing in the world. *)
Definition openStateFile : M unit :=
  bound ← ensureWorkspaceBinding;
  if negb bound then
    showMessage "Open a workspace folder to use Tracker Sync Board."
  else
    state ← read;
    write (state_object state);;
    mret ().

(** [private async handleMessage(msg)] *)
Definition handleMessage (msg : value) (op : Operator) : M unit :=
  let message := nullish msg (VObj []) in
  type ← lift (get message "type");
  if negb (truthy type) then mret ()
  else if is_literal type "requestState" then pushState
  else if is_literal type "saveState" then
    payload ← lift (get message "payload");
    saveFromWebview payload
  else if is_literal type "openStateFile" then openStateFile
  else if is_literal type "processHumanMessages" then processHumanMessages op
  else if is_literal type "seedRoadmap" then seedRoadmap op
  else mret ().

End TrackerDashboardProvider.

(** ** The view: [media/dashboard.js] *)

Module Dashboard.
Import Js Model Host.

(** The view's own copy of the state before the first push. *)
Definition initialState (now : string) : TrackerState :=
  {| revision := Finite 1; updatedAt := now; tasks := []; messages := [] |}.

(** [o.k = v] in the view's sloppy-mode script: assignment to a property of
    a primitive is ignored. *)
Definition put (o : value) (k : string) (v : value) : value :=
  match o with
  | VObj props => VObj (assign props k v)
  | _ => o
  end.

(** [function nextLane(current)] *)
Definition nextLane (current : value) : value :=
  if is_literal current "todo" then VStr "progress"
  else if is_literal current "progress" then VStr "done"
  else VStr "done".

(** [if (action === 'advance') { ... }] *)
Definition advance (task : value) : outcome value :=
  lane ← get task "lane";
  let task := put task "lane" (nextLane lane) in
  lane ← get task "lane";
  mret (put task "status"
          (if is_literal lane "done" then VStr "done" else VStr "progress")).

(** [if (action === 'owner') { ... }] *)
Definition swapOwner (task : value) : outcome value :=
  owner ← get task "owner";
  mret (put task "owner"
          (if is_literal owner "human" then VStr "ai" else VStr "human")).

(** [if (action === 'block') { ... }] *)
Definition toggleBlock (task : value) : outcome value :=
  status ← get task "status";
  if is_literal status "blocked" then
    lane ← get task "lane";
    mret (put task "status"
            (if is_literal lane "done" then VStr "done" else VStr "progress"))
  else
    mret (put task "status" (VStr "blocked")).

(** [state.tasks.find(t => t.id === id)], as the position of the task. *)
Fixpoint findTask (tasks : list value) (id : string) (i : nat)
  : outcome (option nat) :=
  match tasks with
  | [] => mret None
  | t :: rest =>
      tid ← get t "id";
      if is_literal tid id then mret (Some i) else findTask rest id (S i)
  end.

(** [state.tasks.filter(t => t.id !== id)] *)
Fixpoint withoutTask (tasks : list value) (id : string) : outcome (list value) :=
  match tasks with
  | [] => mret []
  | t :: rest =>
      tid ← get t "id";
      kept ← withoutTask rest id;
      mret (if is_literal tid id then kept else t :: kept)
  end.

(** [function saveState()]: the view's state after it, which is also the
    payload of the [saveState] message it posts. *)
Definition saveState (now : string) (state : TrackerState) : TrackerState :=
  let state := with_updatedAt state now in
  with_revision state
    (succ (if truthy (VNum (revision state)) then revision state else Finite 0)).

(** The message [saveState] posts: [{ type: 'saveState', payload: state }]. *)
Definition saveMessage (state : TrackerState) : value :=
  VObj [("type", VStr "saveState"); ("payload", state_object state)].

(** The click handler of a task button: [None] when it returns before
    [saveState], else the state it saves. *)
Definition clickTask (action id : string) (now : string) (state : TrackerState)
  : outcome (option TrackerState) :=
  if String.eqb id "" then mret None
  else
    found ← findTask (tasks state) id 0;
    match found with
    | None => mret None
    | Some i =>
        let task := default VUndefined (tasks state !! i) in
        task ← (if String.eqb action "advance" then advance task else mret task);
        task ← (if String.eqb action "owner" then swapOwner task else mret task);
        task ← (if String.eqb action "block" then toggleBlock task else mret task);
        let tasks1 := <[i := task]> (tasks state) in
        tasks2 ← (if String.eqb action "del" then withoutTask tasks1 id
                  else mret tasks1);
        mret (Some (saveState now
                      {| revision := revision state; updatedAt := updatedAt state;
                         tasks := tasks2; messages := messages state |}))
    end.

(** The [message] listener: a [state] message replaces the view's copy. *)
Definition receive (msg : ViewMessage) (state : TrackerState) : TrackerState :=
  match msg with
  | StateMessage payload => payload
  | InfoMessage _ => state
  end.

(** The loop of [function groupedMilestones(tasks)] (lines 36 to 41): the
    entries of the [Map] it fills, in insertion order. The sort of line 42
    is not part of [milestoneGroups]: when it returns, its result is these
    entries in another order, which depends on the collation of the host;
    and it throws a TypeError when it calls [localeCompare] on a key that is
    a truthy milestone other than a string, which depends on the order in
    which the engine compares the entries. *)

(** [task.milestone || 'Unassigned'] *)
Definition milestoneKey (task : value) : outcome value :=
  m ← get task "milestone";
  mret (if truthy m then m else VStr "Unassigned").

(** [if (!groups.has(key)) groups.set(key, []); groups.get(key).push(task)];
    the keys of two tasks are never the same object. *)
Fixpoint addToGroup (groups : list (value * list value)) (key : value)
  (task : value) : list (value * list value) :=
  match groups with
  | [] => [(key, [task])]
  | (k, members) :: rest =>
      if same_value_zero false k key then (k, (members ++ [task])%list) :: rest
      else (k, members) :: addToGroup rest key task
  end.

Fixpoint groupInto (groups : list (value * list value)) (tasks : list value)
  : outcome (list (value * list value)) :=
  match tasks with
  | [] => mret groups
  | task :: rest =>
      key ← milestoneKey task;
      groupInto (addToGroup groups key task) rest
  end.

Definition milestoneGroups (tasks : list value)
  : outcome (list (value * list value)) :=
  groupInto [] tasks.

(** [tasks.filter(t => t.lane === 'done').length] of [renderMilestones]. *)
Fixpoint doneCount (tasks : list value) : outcome nat :=
  match tasks with
  | [] => mret 0%nat
  | t :: rest =>
      lane ← get t "lane";
      n ← doneCount rest;
      mret (if is_literal lane "done" then S n else n)
  end.

(** The counters [renderStats] shows. *)
Record Counts := {
  countDone : nat;
  countProgress : nat;
  countTodo : nat;
  countBlocked : nat
}.

(** The reducer of [renderStats]: one task added to the counters. *)
Definition countTask (acc : Counts) (t : value) : outcome Counts :=
  status ← get t "status";
  if is_literal status "blocked" then
    mret {| countDone := countDone acc; countProgress := countProgress acc;
            countTodo := countTodo acc; countBlocked := S (countBlocked acc) |}
  else
    lane ← get t "lane";
    if is_literal lane "done" then
      mret {| countDone := S (countDone acc); countProgress := countProgress acc;
              countTodo := countTodo acc; countBlocked := countBlocked acc |}
    else if is_literal lane "progress" then
      mret {| countDone := countDone acc; countProgress := S (countProgress acc);
              countTodo := countTodo acc; countBlocked := countBlocked acc |}
    else
      mret {| countDone := countDone acc; countProgress := countProgress acc;
              countTodo := S (countTodo acc); countBlocked := countBlocked acc |}.

(** [state.tasks.reduce(countTask, acc)] *)
Fixpoint countTasks (acc : Counts) (tasks : list value) : outcome Counts :=
  match tasks with
  | [] => mret acc
  | t :: rest =>
      acc ← countTask acc t;
      countTasks acc rest
  end.

(** The [counts] of [renderStats]. *)
Definition taskCounts (tasks : list value) : outcome Counts :=
  countTasks {| countDone := 0; countProgress := 0;
                countTodo := 0; countBlocked := 0 |} tasks.

(** [state.messages.filter(m => !m.resolved).length] of [renderStats]. *)
Fixpoint openMessages (messages : list value) : outcome nat :=
  match messages with
  | [] => mret 0%nat
  | m :: rest =>
      resolved ← get m "resolved";
      n ← openMessages rest;
      mret (if truthy resolved then n else S n)
  end.

(** [state.tasks.filter(t => t.lane === lane.id && t.owner === owner)] of
    [renderBoard]: the cards of one lane and owner. *)
Fixpoint boardCell (lane owner : string) (tasks : list value)
  : outcome (list value) :=
  match tasks with
  | [] => mret []
  | t :: rest =>
      l ← get t "lane";
      keep ← (if is_literal l lane then
                o ← get t "owner";
                mret (is_literal o owner)
              else mret false);
      kept ← boardCell lane owner rest;
      mret (if keep : bool then t :: kept else kept)
  end.

(** What the task form holds when Add is clicked: the trimmed text fields
    ([text(id)]) and the values of the three selects. *)
Record TaskForm := {
  taskTitle : string;
  taskNote : string;
  taskOwner : string;
  taskLane : string;
  taskEffort : string;
  taskMilestone : string;
  taskPriority : string
}.

(** The click handler of [addTaskBtn]: [None] when it returns before
    [saveState], else the state it saves. [suffix] is the random part of
    [uid('task')], [created] the clock reading of [createdAt], [now] the
    one of [saveState]. *)
Definition addTask (form : TaskForm) (suffix created now : string)
    (state : TrackerState) : option TrackerState :=
  if String.eqb (taskTitle form) "" then None
  else
    let lane := taskLane form in
    let task :=
      VObj [("id", VStr ("task-" ++ suffix));
            ("title", VStr (taskTitle form));
            ("note", VStr (taskNote form));
            ("owner", VStr (taskOwner form));
            ("lane", VStr lane);
            ("status", if String.eqb lane "done"
                       then VStr "done" else VStr "todo");
            ("effort", VStr (taskEffort form));
            ("milestone", VStr (taskMilestone form));
            ("priority", VStr (taskPriority form));
            ("createdAt", VStr created)] in
    Some (saveState now
            {| revision := revision state; updatedAt := updatedAt state;
               tasks := (tasks state ++ [task])%list;
               messages := messages state |}).

(** The message a click on [sendMsgBtn] pushes. *)
Definition composedMessage (type title body suffix created : string) : value :=
  VObj [("id", VStr ("msg-" ++ suffix));
        ("from", VStr "human");
        ("to", VStr "ai");
        ("type", VStr type);
        ("title", VStr title);
        ("body", VStr body);
        ("createdAt", VStr created);
        ("resolved", VBool false)].

(** The click handler of [sendMsgBtn]: [title] and [body] are the trimmed
    text fields, [type] the value of the select. *)
Definition sendMessage (type title body : string) (suffix created now : string)
    (state : TrackerState) : option TrackerState :=
  if String.eqb title "" || String.eqb body "" then None
  else
    Some (saveState now
            {| revision := revision state; updatedAt := updatedAt state;
               tasks := tasks state;
               messages :=
                 (messages state
                    ++ [composedMessage type title body suffix created])%list |}).

(** The click handler of a message button: [None] when it returns before
    [saveState], else the state it saves. *)
Definition clickMessage (msgAction id : string) (now : string)
    (state : TrackerState) : outcome (option TrackerState) :=
  if String.eqb id "" then mret None
  else
    found ← findTask (messages state) id 0;
    match found with
    | None => mret None
    | Some i =>
        let message := default VUndefined (messages state !! i) in
        message ← (if String.eqb msgAction "resolve" then
                     resolved ← get message "resolved";
                     mret (put message "resolved" (VBool (negb (truthy resolved))))
                   else mret message);
        let messages1 := <[i := message]> (messages state) in
        messages2 ← (if String.eqb msgAction "del" then withoutTask messages1 id
                     else mret messages1);
        mret (Some (saveState now
                      {| revision := revision state; updatedAt := updatedAt state;
                         tasks := tasks state; messages := messages2 |}))
    end.

(** The [data-id], [data-act] and [data-msg-act] attributes of the element
    clicked. *)
Record Dataset := {
  data_id : option string;
  data_act : option string;
  data_msgAct : option string
}.

(** Truthiness of a dataset attribute: present and not empty. *)
Definition attribute (a : option string) : option string :=
  match a with
  | Some text => if String.eqb text "" then None else Some text
  | None => None
  end.

(** The click listener of [document.body] on an element with this dataset. *)
Definition click (target : Dataset) (now : string) (state : TrackerState)
  : outcome (option TrackerState) :=
  match attribute (data_id target) with
  | None => mret None
  | Some id =>
      match attribute (data_act target) with
      | Some action => clickTask action id now state
      | None =>
          match attribute (data_msgAct target) with
          | Some msgAction => clickMessage msgAction id now state
          | None => mret None
          end
      end
  end.

End Dashboard.

(** ** Vocabulary of the specification *)

Module Spec.
Import Js Model Host.

(** "The input's [k]": the own property of an object, [undefined] for
    anything else. *)
Definition property (raw : value) (k : string) : value :=
  match raw with
  | VObj props => default VUndefined (own props k)
  | _ => VUndefined
  end.

(** The world after one reading of the clock. *)
Definition tick (w : World) : World :=
  {| workspaceFolder := workspaceFolder w; clock := clock w;
     ticks := S (ticks w); writes := writes w;
     notices := notices w; posted := posted w;
     viewResolved := viewResolved w |}.

(** "The current time": what the next reading of the clock gives. *)
Definition reading (w : World) : string := iso (clock w (ticks w)).

(** The document the specification asks of [normalize], at clock reading
    [now]. *)
Definition normalized (raw : value) (now : string) : TrackerState :=
  {| revision := match property raw "revision" with
                 | VNum (Finite z) => Finite z
                 | _ => Finite 1
                 end;
     updatedAt := match property raw "updatedAt" with
                  | VStr s => s
                  | _ => now
                  end;
     tasks := match property raw "tasks" with
              | VArr items => items
              | _ => []
              end;
     messages := match property raw "messages" with
                 | VArr items => items
                 | _ => []
                 end |}.

(** The clock is read by [normalize] only when [updatedAt] is missing. *)
Definition afterNormalize (raw : value) (w : World) : World :=
  match property raw "updatedAt" with
  | VStr _ => w
  | _ => tick w
  end.

(** A workspace folder is open and accepts writes. *)
Definition canWrite (w : World) : bool :=
  match workspaceFolder w with
  | Some {| writable := true |} => true
  | _ => false
  end.

(** The world once [doc] has been serialized to the backing file. *)
Definition committed (doc : value) (w : World) : World :=
  {| workspaceFolder := Some {| stateFile := Json (to_json doc); writable := true |};
     clock := clock w; ticks := ticks w;
     writes := to_json doc :: writes w;
     notices := notices w; posted := posted w;
     viewResolved := viewResolved w |}.

(** The document [write] stamps and serializes for the input [raw]. *)
Definition written (raw : value) (w : World) : TrackerState :=
  with_updatedAt (normalized raw (reading w)) (reading (afterNormalize raw w)).

(** Timestamps are compared as the view compares them: as strings. *)
Definition notAfter (a b : string) : Prop := String.leb a b = true.

(** A clock that never runs backwards. *)
Definition monotone (clk : nat → Instant) : Prop :=
  ∀ i j : nat, (i ≤ j)%nat → notAfter (iso (clk i)) (iso (clk j)).

(** The lane order [todo < progress < done]. *)
Definition laneRank (lane : value) : option nat :=
  if is_literal lane "todo" then Some 0%nat
  else if is_literal lane "progress" then Some 1%nat
  else if is_literal lane "done" then Some 2%nat
  else None.

(** The status a lane implies: the one the seed content pairs with it. *)
Definition laneStatus (l : TaskLane) : TaskStatus :=
  match l with
  | LaneTodo => StatusTodo
  | LaneProgress => StatusProgress
  | LaneDone => StatusDone
  end.

(** The [id] properties of a list of referenced messages. *)
Definition idsOf (entries : list (nat * value)) : list value :=
  (λ e, property e.2 "id") <$> entries.

(** A message from the human to the AI that is not resolved. *)
Definition pendingMessage (m : value) : Prop :=
  property m "from" = VStr "human"
  ∧ property m "to" = VStr "ai"
  ∧ truthy (property m "resolved") = false.

(** The messages of a stored document, as [normalize] reads them. *)
Definition messagesOf (doc : value) : list value :=
  match property doc "messages" with
  | VArr items => items
  | _ => []
  end.

(** The revision held by the backing file, when it holds a finite one. *)
Definition storedRevision (w : World) : option Z :=
  match stored w with
  | Some doc =>
      match property doc "revision" with
      | VNum (Finite z) => Some z
      | _ => None
      end
  | None => None
  end.

(** The world once [text] has been shown to the operator. *)
Definition showing (text : string) (w : World) : World :=
  {| workspaceFolder := workspaceFolder w; clock := clock w;
     ticks := ticks w; writes := writes w;
     notices := text :: notices w; posted := posted w;
     viewResolved := viewResolved w |}.

(** The world once [msg] has been handed to [postMessage]: the view gets it
    when it has been resolved, and nothing happens before. *)
Definition posting (msg : ViewMessage) (w : World) : World :=
  {| workspaceFolder := workspaceFolder w; clock := clock w;
     ticks := ticks w; writes := writes w;
     notices := notices w;
     posted := if viewResolved w then msg :: posted w else posted w;
     viewResolved := viewResolved w |}.

(** *** Vocabulary of the further properties *)

Import TrackerDashboardProvider Dashboard.

(** A value whose properties can be read: anything but [undefined] and
    [null]. *)
Definition readable (v : value) : Prop := v ≠ VUndefined ∧ v ≠ VNull.

(** An element whose [id] is the string [id]. *)
Definition hasId (id : string) (v : value) : Prop := property v "id" = VStr id.

(** A message object after [source.resolved = true]. *)
Definition resolvedMessage (props : list (string * value)) : value :=
  VObj (assign props "resolved" (VBool true)).

(** The reply to [source], built when the world is [w0]. *)
Definition replyMessage (w0 : World) (source : value) (response : string)
  : TrackerMessage :=
  {| msg_id := "msg-" ++ number_to_string (millis (clock w0 (ticks w0)));
     msg_from := Ai; msg_to := Human; msg_type := "response";
     msg_title := "Re: " ++ to_string (property source "title");
     msg_body := response;
     msg_createdAt := reading (tick w0);
     msg_resolved := false;
     msg_inReplyTo := Some (property source "id") |}.

(** The document the workflow writes when it resolves the message at [ref]
    of [state]. *)
Definition repliedDocument (state : TrackerState) (w0 : World) (ref : nat)
    (props : list (string * value)) (response : string) : TrackerState :=
  {| revision := succ (revision state);
     updatedAt := reading (tick (tick w0));
     tasks := tasks state;
     messages :=
       (<[ref := resolvedMessage props]> (messages state)
          ++ [message_object (replyMessage w0 (resolvedMessage props) response)])%list |}.

(** The quick-pick item offered for a pending message. *)
Definition itemFor (entry : nat * value) : QuickPickItem :=
  {| label := property entry.2 "title";
     description := property entry.2 "type";
     detail := property entry.2 "body";
     id := property entry.2 "id";
     origin := entry.1 |}.

(** The advisory shown when no workspace folder is open. *)
Definition noFolderAdvice : string :=
  "Open a workspace folder to use Tracker Sync Board.".

(** The message types [handleMessage] knows. *)
Definition knownTypes : list string :=
  ["requestState"; "saveState"; "openStateFile"; "processHumanMessages";
   "seedRoadmap"].

(** An integer that the doubles count exactly: its magnitude is below 2^53,
    so adding 1 to it gives the next integer. *)
Definition safeInteger (z : Z) : Prop :=
  -9007199254740992 < z < 9007199254740992.

(** The sum of the four counters. *)
Definition total (c : Counts) : nat :=
  (countDone c + countProgress c + countTodo c + countBlocked c)%nat.

(** The number of tasks held by a list of groups. *)
Definition grouped (groups : list (value * list value)) : nat :=
  sum_list (length <$> groups.*2).

(** A task the board has a cell for: its lane is one of the three lanes and
    its owner one of the two owners. *)
Definition onBoard (t : value) : bool :=
  (is_literal (property t "lane") "todo"
   || is_literal (property t "lane") "progress"
   || is_literal (property t "lane") "done")
  && (is_literal (property t "owner") "human"
      || is_literal (property t "owner") "ai").

(** The number of tasks in lane [done], as [renderMilestones] counts them. *)
Definition doneOf (tasks : list value) : nat :=
  length (filter (λ t, is_literal (property t "lane") "done" = true) tasks).

(** The tasks in lane [done] held by a list of groups. *)
Definition doneIn (groups : list (value * list value)) : nat :=
  sum_list ((λ g, doneOf g.2) <$> groups).

End Spec.

(** ** Concrete worlds and documents *)

Module Examples.
Import Js Model Host TrackerDashboardProvider.

(** A clock that advances by a millisecond at each of its first readings. *)
Definition exampleClock (n : nat) : Instant :=
  {| millis := 1771437600000 + Z.of_nat n;
     iso := match n with
            | 0%nat => "2026-02-18T18:00:00.000Z"
            | 1%nat => "2026-02-18T18:00:00.001Z"
            | _ => "2026-02-18T18:00:00.002Z"
            end |}.

(** A fresh session over [folder], after [n] readings of the clock. *)
Definition worldAt (n : nat) (folder : option Folder) : World :=
  {| workspaceFolder := folder; clock := exampleClock; ticks := n;
     writes := []; notices := []; posted := []; viewResolved := true |}.

Definition worldWith (folder : option Folder) : World := worldAt 0 folder.

(** The same world before the sidebar view has been opened. *)
Definition beforeView (w : World) : World :=
  {| workspaceFolder := workspaceFolder w; clock := clock w;
     ticks := ticks w; writes := writes w;
     notices := notices w; posted := posted w; viewResolved := false |}.

Definition emptyFolder : Folder := {| stateFile := Absent; writable := true |}.

Definition readOnlyFolder : Folder := {| stateFile := Absent; writable := false |}.

Definition folderWith (doc : value) : Folder :=
  {| stateFile := Json doc; writable := true |}.

(** A hand-edited document stamped in the future. *)
Definition futureDocument : value :=
  VObj [("revision", VNum (Finite 3));
        ("updatedAt", VStr "2999-01-01T00:00:00.000Z");
        ("tasks", VArr []);
        ("messages", VArr [])].

(** A document stamped at the first reading of [exampleClock]. *)
Definition earlierDocument : value :=
  VObj [("revision", VNum (Finite 3));
        ("updatedAt", VStr "2026-02-18T18:00:00.000Z");
        ("tasks", VArr []);
        ("messages", VArr [])].

(** A question from the human, waiting for the AI. *)
Definition question (i title : string) : value :=
  VObj [("id", VStr i); ("from", VStr "human"); ("to", VStr "ai");
        ("type", VStr "note"); ("title", VStr title);
        ("body", VStr "Which milestone comes first?");
        ("createdAt", VStr "2026-02-18T17:00:00.000Z");
        ("resolved", VBool false)].

(** A stored document at revision 5 with one pending question. *)
Definition pendingDocument : value :=
  VObj [("revision", VNum (Finite 5));
        ("updatedAt", VStr "2026-02-18T17:00:00.000Z");
        ("tasks", VArr []);
        ("messages", VArr [question "msg-q1" "Order of work"])].

Definition cancelling : Operator :=
  {| quickPick := None; inputBox := None; confirm := None |}.

Definition answering (k : nat) (text : string) : Operator :=
  {| quickPick := Some k; inputBox := Some text; confirm := None |}.

Definition confirming : Operator :=
  {| quickPick := None; inputBox := None; confirm := Some "Replace" |}.

(** A task in lane [todo], as the view holds it. *)
Definition todoTask : value :=
  VObj [("id", VStr "task-1"); ("title", VStr "Write the parser");
        ("owner", VStr "human"); ("lane", VStr "todo"); ("status", VStr "todo")].

(** A task the AI is working on. *)
Definition progressTask : value :=
  VObj [("id", VStr "task-2"); ("title", VStr "Review the parser");
        ("owner", VStr "ai"); ("lane", VStr "progress");
        ("status", VStr "progress")].

(** A stored document whose messages array holds a [null]. *)
Definition nullDocument : value :=
  VObj [("revision", VNum (Finite 5));
        ("updatedAt", VStr "2026-02-18T17:00:00.000Z");
        ("tasks", VArr []);
        ("messages", VArr [VNull])].

(** A stored document with two pending questions that share an id. *)
Definition duplicateDocument : value :=
  VObj [("revision", VNum (Finite 5));
        ("updatedAt", VStr "2026-02-18T17:00:00.000Z");
        ("tasks", VArr []);
        ("messages", VArr [question "msg-q" "First"; question "msg-q" "Second"])].

(** The view's copy of a board at revision 7: three tasks, two of them with
    the same id, and one pending question. *)
Definition boardState : TrackerState :=
  {| revision := Finite 7;
     updatedAt := "2026-02-18T17:00:00.000Z";
     tasks := [todoTask; progressTask; progressTask];
     messages := [question "msg-q1" "Order of work"] |}.

(** The task form, filled in for lane [progress]. *)
Definition exampleForm : Dashboard.TaskForm :=
  {| Dashboard.taskTitle := "Write the printer";
     Dashboard.taskNote := "";
     Dashboard.taskOwner := "human";
     Dashboard.taskLane := "progress";
     Dashboard.taskEffort := "M";
     Dashboard.taskMilestone := "M1";
     Dashboard.taskPriority := "P2" |}.

End Examples.

(** * Properties *)

Import Js Model Host TrackerStateStore TrackerDashboardProvider Dashboard Spec Examples.

(** ** The primitives *)

Lemma strict_equal_strings (same : bool) (a b : string) :
  strict_equal same (VStr a) (VStr b) = bool_decide (a = b).
Proof.
  cbn. destruct (String.eqb_spec a b);
    [by rewrite bool_decide_true | by rewrite bool_decide_false].
Qed.

Lemma is_literal_true (v : value) (lit : string) :
  is_literal v lit = true → v = VStr lit.
Proof.
  destruct v as [| | |[]| s | |]; try discriminate.
  unfold is_literal. rewrite strict_equal_strings.
  intros H. apply bool_decide_eq_true in H. by subst.
Qed.

Lemma is_literal_false (v : value) (lit : string) :
  v ≠ VStr lit → is_literal v lit = false.
Proof.
  destruct v as [| | |[]| s | |]; try reflexivity.
  intros Hne. unfold is_literal.
  rewrite strict_equal_strings, bool_decide_false; congruence.
Qed.

Lemma assign_same (props : list (string * value)) (k : string) (x : value) :
  own (assign props k x) k = Some x.
Proof.
  induction props as [|[k' v'] rest IH]; cbn.
  - by rewrite String.eqb_refl.
  - destruct (String.eqb k' k) eqn:E; cbn; [by rewrite String.eqb_refl|].
    by rewrite E.
Qed.

Lemma assign_other (props : list (string * value)) (k k' : string) (x : value) :
  k' ≠ k → own (assign props k x) k' = own props k'.
Proof.
  intros Hne. induction props as [|[k0 v0] rest IH]; cbn.
  - destruct (String.eqb_spec k k'); [congruence|reflexivity].
  - destruct (String.eqb_spec k0 k) as [->|Hk]; cbn.
    + destruct (String.eqb_spec k k'); [congruence|reflexivity].
    + by rewrite IH.
Qed.

Lemma assign_id (props : list (string * value)) (k : string) (x : value) :
  own props k = Some x → assign props k x = props.
Proof.
  induction props as [|[k' v'] rest IH]; cbn; [discriminate|].
  destruct (String.eqb_spec k' k) as [->|Hk].
  - by intros [= ->].
  - intros H. by rewrite IH.
Qed.

Lemma succ_safe (r : Z) :
  safeInteger r → succ (Finite r) = Finite (r + 1).
Proof.
  intros [Hlo Hhi]. unfold succ, nearest_double.
  destruct (Z.ltb_spec (Z.abs (r + 1)) 9007199254740992) as [_|Hge];
    [reflexivity|].
  assert (r = 9007199254740991) as -> by lia.
  vm_compute. reflexivity.
Qed.

(** From 2^53 on, adding 1 to a revision need not change it. *)
Lemma succ_at_limit :
  succ (Finite 9007199254740992) = Finite 9007199254740992
  ∧ succ (Finite 9007199254740994) = Finite 9007199254740996.
Proof. split; vm_compute; reflexivity. Qed.

(** A number prints with its shortest digits, in exponent form from 10^21. *)
Lemma to_string_numbers :
  to_string (VNum (Finite 42)) = "42"
  ∧ to_string (VNum (Finite (-7))) = "-7"
  ∧ to_string (VNum (Finite 1152921504606846976)) = "1152921504606847000"
  ∧ to_string (VNum (Finite 1000000000000000000000)) = "1e+21"
  ∧ to_string (VNum (Finite 1180591620717411303424))
    = "1.1805916207174113e+21".
Proof. repeat split; vm_compute; reflexivity. Qed.

Lemma message_object_properties (m : TrackerMessage) :
  property (message_object m) "id" = VStr (msg_id m)
  ∧ property (message_object m) "from" = VStr (owner_name (msg_from m))
  ∧ property (message_object m) "to" = VStr (owner_name (msg_to m))
  ∧ property (message_object m) "type" = VStr (msg_type m)
  ∧ property (message_object m) "title" = VStr (msg_title m)
  ∧ property (message_object m) "body" = VStr (msg_body m)
  ∧ property (message_object m) "createdAt" = VStr (msg_createdAt m)
  ∧ property (message_object m) "resolved" = VBool (msg_resolved m)
  ∧ property (message_object m) "inReplyTo"
    = default VUndefined (msg_inReplyTo m).
Proof.
  repeat split; try reflexivity.
  unfold message_object. destruct (msg_inReplyTo m); reflexivity.
Qed.

(** ** Running the store *)

Lemma bind_run {A B} (m : M A) (f : A → M B) (w : World) :
  (m ≫= f) w
  = match m w with
    | (Return a, w') => f a w'
    | (Throw e, w') => (Throw e, w')
    end.
Proof. reflexivity. Qed.

Lemma get_nullish (raw : value) (k : string) :
  get (nullish raw (VObj [])) k = Return (property raw k).
Proof. destruct raw; reflexivity. Qed.

Lemma normalize_run (raw : value) (w : World) :
  normalize raw w = (Return (normalized raw (reading w)), afterNormalize raw w).
Proof.
  unfold normalize, normalized, afterNormalize, mbind, M_bind, lift.
  rewrite !get_nullish.
  destruct (property raw "revision") as [| | |[]| | |];
  destruct (property raw "updatedAt"); cbn;
  destruct (property raw "tasks"); cbn;
  destruct (property raw "messages"); cbn; try reflexivity.
Qed.

Lemma ticks_afterNormalize (raw : value) (w : World) :
  ticks (afterNormalize raw w) = ticks w
  ∨ ticks (afterNormalize raw w) = S (ticks w).
Proof. unfold afterNormalize. destruct (property raw "updatedAt"); cbn; auto. Qed.

Lemma clock_afterNormalize (raw : value) (w : World) :
  clock (afterNormalize raw w) = clock w.
Proof. unfold afterNormalize. destruct (property raw "updatedAt"); reflexivity. Qed.

Lemma folder_afterNormalize (raw : value) (w : World) :
  workspaceFolder (afterNormalize raw w) = workspaceFolder w.
Proof. unfold afterNormalize. destruct (property raw "updatedAt"); reflexivity. Qed.

Lemma writes_afterNormalize (raw : value) (w : World) :
  writes (afterNormalize raw w) = writes w.
Proof. unfold afterNormalize. destruct (property raw "updatedAt"); reflexivity. Qed.

Lemma notices_afterNormalize (raw : value) (w : World) :
  notices (afterNormalize raw w) = notices w.
Proof. unfold afterNormalize. destruct (property raw "updatedAt"); reflexivity. Qed.

Lemma posted_afterNormalize (raw : value) (w : World) :
  posted (afterNormalize raw w) = posted w.
Proof. unfold afterNormalize. destruct (property raw "updatedAt"); reflexivity. Qed.

Lemma revision_normalized (raw : value) (now : string) :
  ∃ z : Z, revision (normalized raw now) = Finite z.
Proof.
  unfold normalized; cbn.
  destruct (property raw "revision") as [| | |[]| | |]; eauto.
Qed.

Lemma normalized_state_object (s : TrackerState) (z : Z) (now : string) :
  revision s = Finite z → normalized (state_object s) now = s.
Proof. destruct s as [r u t m]; cbn. intros ->. reflexivity. Qed.

Lemma to_json_state (d : TrackerState) (z : Z) :
  revision d = Finite z →
  to_json (state_object d)
  = VObj [("revision", VNum (Finite z)); ("updatedAt", VStr (updatedAt d));
          ("tasks", VArr (to_json <$> tasks d));
          ("messages", VArr (to_json <$> messages d))].
Proof. destruct d as [r u t m]; cbn. intros ->. reflexivity. Qed.

Lemma to_json_seed (t0 t1 : string) :
  to_json (state_object (with_updatedAt (seed t0) t1))
  = state_object (with_updatedAt (seed t0) t1).
Proof. reflexivity. Qed.

Lemma stored_committed (doc : value) (w : World) :
  stored (committed doc w) = Some (to_json doc).
Proof. reflexivity. Qed.

Lemma write_run (raw : value) (w : World) :
  write raw w =
    if canWrite w
    then (Return (written raw w),
          committed (state_object (written raw w)) (tick (afterNormalize raw w)))
    else (Throw FileSystemError, tick (afterNormalize raw w)).
Proof.
  unfold write, mbind, M_bind. rewrite normalize_run.
  unfold written, canWrite, afterNormalize.
  destruct w as [[[file [|]]|] clk n ws ns ps];
    destruct (property raw "updatedAt"); reflexivity.
Qed.

Lemma write_state (s : TrackerState) (z : Z) (w : World) :
  revision s = Finite z → canWrite w = true →
  write (state_object s) w
  = (Return (with_updatedAt s (reading w)),
     committed (state_object (with_updatedAt s (reading w))) (tick w)).
Proof.
  intros Hz Hw. rewrite write_run, Hw. unfold written.
  change (afterNormalize (state_object s) w) with w.
  rewrite (normalized_state_object _ z) by done.
  reflexivity.
Qed.

Lemma read_stored (w : World) (v : value) :
  stored w = Some v →
  read w = (Return (normalized v (reading w)), afterNormalize v w).
Proof.
  intros Hs. unfold read, try_catch, mbind, M_bind.
  assert (Hp : readFile_parse w = (Return v, w)).
  { unfold readFile_parse, stored in *.
    destruct (workspaceFolder w) as [[[] ?]|]; congruence. }
  rewrite Hp, normalize_run. reflexivity.
Qed.

Lemma read_recovery (w : World) :
  stored w = None →
  read w =
    if canWrite w
    then (Return (seed (reading w)),
          committed
            (state_object (with_updatedAt (seed (reading w)) (reading (tick w))))
            (tick (tick w)))
    else (Throw FileSystemError, tick (tick w)).
Proof.
  intros Hs. unfold read, try_catch, mbind, M_bind.
  assert (Hp : ∃ e, readFile_parse w = (Throw e, w)).
  { unfold readFile_parse, stored in *.
    destruct (workspaceFolder w) as [[[] ?]|]; try congruence; eauto. }
  destruct Hp as [e ->].
  unfold defaultState, mbind, M_bind, mret, M_ret.
  change (now_iso w) with (Return (reading w), tick w).
  cbv beta iota. rewrite write_run.
  change (canWrite (tick w)) with (canWrite w).
  destruct (canWrite w); reflexivity.
Qed.

Lemma stored_bound (w : World) (v : value) :
  stored w = Some v → is_Some (workspaceFolder w).
Proof. unfold stored. destruct (workspaceFolder w); [eauto|discriminate]. Qed.

Lemma canWrite_bound (w : World) :
  canWrite w = true → is_Some (workspaceFolder w).
Proof. unfold canWrite. destruct (workspaceFolder w); [eauto|discriminate]. Qed.

Lemma ensure_bound (w : World) :
  is_Some (workspaceFolder w) →
  ensureWorkspaceBinding w = (Return true, w).
Proof.
  intros H. unfold ensureWorkspaceBinding. by rewrite bool_decide_true.
Qed.

Lemma pushState_stored (w : World) (v : value) :
  stored w = Some v →
  pushState w
  = (Return (),
     posting (StateMessage (normalized v (reading w))) (afterNormalize v w)).
Proof.
  intros Hs. unfold pushState.
  rewrite bind_run, ensure_bound by (by eapply stored_bound).
  cbv beta iota. cbn [negb]. rewrite bind_run, (read_stored _ _ Hs).
  reflexivity.
Qed.

(** ** The normalizer and the store *)

(** C1. For every input value (undefined, null, a primitive, an array, an
    object of any shape) [normalize] returns, without throwing, a document
    that is an object with exactly the four properties [revision],
    [updatedAt], [tasks] and [messages], of the right kinds: [revision] is
    the input's when that is a finite number and 1 otherwise, [updatedAt]
    the input's when that is a string and the current time otherwise,
    [tasks] and [messages] the input's arrays, untouched, and empty arrays
    otherwise. Nothing is written. *)
Theorem normalize_total (raw : value) (w : World) :
  ∃ (d : TrackerState) (w' : World),
    normalize raw w = (Return d, w')
    ∧ (∃ r u t m : value,
         state_object d
         = VObj [("revision", r); ("updatedAt", u); ("tasks", t); ("messages", m)]
         ∧ typeof r = "number" ∧ Number_isFinite r = true
         ∧ typeof u = "string"
         ∧ Array_isArray t = true ∧ Array_isArray m = true)
    ∧ revision d = match property raw "revision" with
                   | VNum (Finite z) => Finite z
                   | _ => Finite 1
                   end
    ∧ updatedAt d = match property raw "updatedAt" with
                    | VStr s => s
                    | _ => reading w
                    end
    ∧ tasks d = match property raw "tasks" with
                | VArr items => items
                | _ => []
                end
    ∧ messages d = match property raw "messages" with
                   | VArr items => items
                   | _ => []
                   end
    ∧ workspaceFolder w' = workspaceFolder w
    ∧ writes w' = writes w.
Proof.
  exists (normalized raw (reading w)), (afterNormalize raw w).
  split; [apply normalize_run|].
  split.
  - eexists _, _, _, _. split; [reflexivity|].
    cbn. destruct (property raw "revision") as [| | |[]| | |]; auto.
  - repeat split; unfold afterNormalize;
      destruct (property raw "updatedAt"); reflexivity.
Qed.

(** C8. For an input state whose [revision] is a finite number, whose
    [updatedAt] is a string and whose [tasks] and [messages] are arrays,
    the document [write] returns has the input's revision, tasks and
    messages; only [updatedAt] is replaced, by the clock reading. [write]
    never increments the revision. The file then holds that document. *)
Theorem write_keeps_content (raw : value) (w : World)
    (r : Z) (u : string) (ts ms : list value) :
  property raw "revision" = VNum (Finite r) →
  property raw "updatedAt" = VStr u →
  property raw "tasks" = VArr ts →
  property raw "messages" = VArr ms →
  canWrite w = true →
  ∃ w' : World,
    write raw w
    = (Return {| revision := Finite r; updatedAt := reading w;
                 tasks := ts; messages := ms |}, w')
    ∧ stored w'
      = Some (VObj [("revision", VNum (Finite r));
                    ("updatedAt", VStr (reading w));
                    ("tasks", VArr (to_json <$> ts));
                    ("messages", VArr (to_json <$> ms))]).
Proof.
  intros Hr Hu Ht Hm Hw. rewrite write_run, Hw.
  eexists. split.
  - unfold written, normalized, afterNormalize. rewrite Hr, Hu, Ht, Hm.
    reflexivity.
  - rewrite stored_committed. reflexivity.
Qed.

Lemma write_keeps_content_witness :
  ∃ w' : World,
    write futureDocument (worldWith (Some emptyFolder))
    = (Return {| revision := Finite 3; updatedAt := "2026-02-18T18:00:00.000Z";
                 tasks := []; messages := [] |}, w').
Proof.
  destruct (write_keeps_content futureDocument (worldWith (Some emptyFolder))
              3 "2999-01-01T00:00:00.000Z" [] []
              eq_refl eq_refl eq_refl eq_refl eq_refl) as [w' [H _]].
  exists w'. exact H.
Defined.

(** C4, as stated, fails: a document stamped in the future is written with
    the earlier clock reading, so the written [updatedAt] is below the one
    passed in. *)
Lemma write_not_after_supplied_counterexample :
  ∃ (d : TrackerState) (w' : World),
    write futureDocument (worldWith (Some emptyFolder)) = (Return d, w')
    ∧ property futureDocument "updatedAt" = VStr "2999-01-01T00:00:00.000Z"
    ∧ updatedAt d = "2026-02-18T18:00:00.000Z"
    ∧ ¬ notAfter "2999-01-01T00:00:00.000Z" (updatedAt d).
Proof.
  eexists _, _. split; [rewrite write_run; reflexivity|].
  split; [reflexivity|]. split; [reflexivity|].
  unfold notAfter. cbn. discriminate.
Qed.

(** C4, amended. For every input, a [write] into a writable folder returns
    a document whose [updatedAt] is the last clock reading [write] took,
    whatever [updatedAt] the caller supplied, and the file holds the same
    stamp. The stamp is not before the supplied value whenever that value
    is an earlier reading of a clock that does not run backwards. *)
Theorem write_stamps_clock (raw : value) (w : World) :
  canWrite w = true →
  ∃ (d : TrackerState) (w' : World) (doc : value) (k : nat),
    write raw w = (Return d, w')
    ∧ (ticks w ≤ k)%nat ∧ ticks w' = S k
    ∧ updatedAt d = iso (clock w k)
    ∧ stored w' = Some doc
    ∧ property doc "updatedAt" = VStr (iso (clock w k))
    ∧ (∀ n : nat,
         monotone (clock w) → (n ≤ ticks w)%nat →
         property raw "updatedAt" = VStr (iso (clock w n)) →
         notAfter (iso (clock w n)) (updatedAt d)).
Proof.
  intros Hw. rewrite write_run, Hw.
  destruct (revision_normalized raw (reading w)) as [z Hz].
  eexists _, _, _, (ticks (afterNormalize raw w)).
  split; [reflexivity|].
  assert (Hu : updatedAt (written raw w)
               = iso (clock w (ticks (afterNormalize raw w)))).
  { unfold written, reading. cbn. by rewrite clock_afterNormalize. }
  split; [destruct (ticks_afterNormalize raw w); lia|].
  split; [reflexivity|].
  split; [exact Hu|].
  split; [apply stored_committed|].
  split.
  - rewrite (to_json_state _ z) by exact Hz. rewrite <- Hu. reflexivity.
  - intros n Hmono Hn _. rewrite Hu. apply Hmono.
    destruct (ticks_afterNormalize raw w); lia.
Qed.

Lemma write_stamps_clock_witness :
  ∃ (d : TrackerState) (w' : World),
    write earlierDocument (worldAt 1 (Some emptyFolder)) = (Return d, w')
    ∧ notAfter "2026-02-18T18:00:00.000Z" (updatedAt d).
Proof.
  destruct (write_stamps_clock earlierDocument (worldAt 1 (Some emptyFolder))
              eq_refl) as (d & w' & doc & k & Hrun & _ & _ & _ & _ & _ & Hafter).
  exists d, w'. split; [exact Hrun|].
  apply (Hafter 0%nat).
  - intros [|[|i]] [|[|j]] Hij; try reflexivity; lia.
  - cbn. lia.
  - reflexivity.
Defined.

(** C3, as stated, fails twice: when the folder refuses the recovery write
    [read] rejects, and when the clock advances between building the seed
    and stamping it the document returned differs from the one on disk. *)
Lemma read_recovery_counterexample :
  (∃ w' : World,
     read (worldWith (Some readOnlyFolder)) = (Throw FileSystemError, w'))
  ∧ (∃ (d : TrackerState) (w' : World) (doc : value),
       read (worldWith (Some {| stateFile := Malformed "{"; writable := true |}))
       = (Return d, w')
       ∧ stored w' = Some doc
       ∧ updatedAt d = "2026-02-18T18:00:00.000Z"
       ∧ property doc "updatedAt" = VStr "2026-02-18T18:00:00.001Z"
       ∧ state_object d ≠ doc).
Proof.
  split.
  - eexists. rewrite read_recovery by reflexivity. reflexivity.
  - eexists _, _, _.
    split; [rewrite read_recovery by reflexivity; reflexivity|].
    split; [reflexivity|]. split; [reflexivity|]. split; [reflexivity|].
    cbn. discriminate.
Qed.

(** C3, amended. When the backing file is missing, unreadable or malformed,
    [read] builds the seed document and persists it with [write]. If that
    write succeeds, [read] returns the seed document without error, the file
    now holds a document with the same revision, tasks and messages, and
    that is the only write. If the write fails, its error propagates and
    nothing was written. *)
Theorem read_recovers (w : World) :
  stored w = None →
  (canWrite w = true →
   ∃ (d : TrackerState) (w' : World) (doc : value),
     read w = (Return d, w')
     ∧ d = seed (reading w)
     ∧ stored w' = Some doc
     ∧ writes w' = doc :: writes w
     ∧ property doc "revision" = VNum (revision d)
     ∧ property doc "tasks" = VArr (tasks d)
     ∧ property doc "messages" = VArr (messages d))
  ∧ (canWrite w = false →
     ∃ w' : World,
       read w = (Throw FileSystemError, w')
       ∧ workspaceFolder w' = workspaceFolder w
       ∧ writes w' = writes w).
Proof.
  intros Hs. rewrite (read_recovery w Hs). split; intros ->.
  - eexists _, _, _. split; [reflexivity|]. split; [reflexivity|].
    split; [apply stored_committed|]. rewrite to_json_seed.
    repeat split.
  - eexists. repeat split.
Qed.

Lemma read_recovers_witness :
  ∃ (d : TrackerState) (w' : World),
    read (worldWith (Some emptyFolder)) = (Return d, w')
    ∧ d = seed "2026-02-18T18:00:00.000Z".
Proof.
  destruct (read_recovers (worldWith (Some emptyFolder)) eq_refl) as [H _].
  destruct (H eq_refl) as (d & w' & doc & Hrun & Hd & _).
  exists d, w'. split; [exact Hrun | exact Hd].
Defined.

(** ** The message workflow *)

Lemma isPending_object (m : value) :
  isPending m = Return true → (∃ props, m = VObj props) ∧ pendingMessage m.
Proof.
  destruct m as [| | | | | |props]; cbn; try discriminate.
  intros H. split; [eauto|]. unfold pendingMessage. cbn.
  destruct (is_literal (default VUndefined (own props "from")) "human") eqn:Hf;
    [|discriminate].
  destruct (is_literal (default VUndefined (own props "to")) "ai") eqn:Ht;
    [|discriminate].
  apply is_literal_true in Hf, Ht. cbn in H.
  split; [exact Hf|]. split; [exact Ht|].
  injection H as H. by apply negb_true_iff in H.
Qed.

(** What [filterPending] keeps: pending objects of [messages], each with
    its position counted from [i]. *)
Lemma filterPending_sound (msgs : list value) :
  ∀ (i : nat) (pending : list (nat * value)),
    filterPending msgs i = Return pending →
    Forall (λ e, (i ≤ e.1)%nat ∧ msgs !! (e.1 - i)%nat = Some e.2
                 ∧ (∃ props, e.2 = VObj props) ∧ pendingMessage e.2) pending.
Proof.
  induction msgs as [|m rest IH]; intros i pending; cbn.
  - intros [= <-]. constructor.
  - destruct (isPending m) as [keep|] eqn:Hkeep; cbn; [|discriminate].
    destruct (filterPending rest (S i)) as [kept|] eqn:Hkept; cbn; [|discriminate].
    intros [= <-]. specialize (IH _ _ Hkept).
    assert (Hall : Forall (λ e, (i ≤ e.1)%nat
                                ∧ (m :: rest) !! (e.1 - i)%nat = Some e.2
                                ∧ (∃ props, e.2 = VObj props)
                                ∧ pendingMessage e.2) kept).
    { eapply Forall_impl; [exact IH|]. intros [r x] (Hle & Hlk & Hobj); cbn in *.
      split; [lia|]. split; [|exact Hobj].
      replace (r - i)%nat with (S (r - S i)) by lia. exact Hlk. }
    destruct keep; [|exact Hall].
    constructor; [|exact Hall]. cbn. rewrite Nat.sub_diag.
    split; [lia|]. split; [reflexivity|]. by apply isPending_object.
Qed.

Lemma filterPending_objects (msgs : list value) (pending : list (nat * value)) :
  filterPending msgs 0 = Return pending →
  Forall (λ e, ∃ props, e.2 = VObj props) pending.
Proof.
  intros Hp. eapply Forall_impl; [exact (filterPending_sound _ _ _ Hp)|].
  by intros ? (_ & _ & ? & _).
Qed.

(** ... and it keeps every pending object: when the filter returns nothing,
    no message is pending. *)
Lemma filterPending_complete (msgs : list value) :
  ∀ (i : nat) (pending : list (nat * value)),
    filterPending msgs i = Return pending →
    ∀ m : value, m ∈ msgs → isPending m = Return true → m ∈ pending.*2.
Proof.
  induction msgs as [|m0 rest IH]; intros i pending Hp m Hin Hm.
  - by apply elem_of_nil in Hin.
  - cbn in Hp.
    destruct (isPending m0) as [keep|] eqn:Hkeep; cbn in Hp; [|discriminate].
    destruct (filterPending rest (S i)) as [kept|] eqn:Hkept; cbn in Hp;
      [|discriminate].
    injection Hp as <-.
    apply elem_of_cons in Hin as [->|Hin].
    + rewrite Hm in Hkeep. injection Hkeep as <-. cbn. apply list_elem_of_here.
    + specialize (IH _ _ Hkept m Hin Hm).
      destruct keep; [cbn; by apply list_elem_of_further | exact IH].
Qed.

Lemma isPending_complete (props : list (string * value)) :
  pendingMessage (VObj props) → isPending (VObj props) = Return true.
Proof.
  intros (Hf & Ht & Hr). unfold isPending.
  cbn [get mbind outcome_bind]. cbn in Hf, Ht, Hr. rewrite Hf, Ht, Hr.
  reflexivity.
Qed.

Lemma itemsOf_objects (pending : list (nat * value)) :
  Forall (λ e, ∃ props, e.2 = VObj props) pending →
  itemsOf pending
  = Return ((λ e, {| label := property e.2 "title";
                     description := property e.2 "type";
                     detail := property e.2 "body";
                     id := property e.2 "id";
                     origin := e.1 |}) <$> pending).
Proof.
  induction 1 as [|[ref m] rest [props Hm] _ IH]; [reflexivity|].
  cbn in Hm; subst m. cbn. rewrite IH. reflexivity.
Qed.

Lemma findSource_objects (pending : list (nat * value)) (pick : QuickPickItem) :
  Forall (λ e, ∃ props, e.2 = VObj props) pending →
  ∃ found, findSource pending pick = Return found.
Proof.
  induction 1 as [|[ref m] rest [props Hm] _ IH]; [eexists; reflexivity|].
  cbn in Hm; subst m. cbn.
  destruct (strict_equal _ _ _); [eexists; reflexivity|exact IH].
Qed.

(** When the pending ids are distinct strings, the lookup by id finds the
    picked message itself. *)
Lemma findSource_unique (pending : list (nat * value)) (ids : list string) :
  Forall (λ e, ∃ props, e.2 = VObj props) pending →
  idsOf pending = VStr <$> ids → NoDup ids →
  ∀ (k : nat) (entry : nat * value) (pick : QuickPickItem),
    pending !! k = Some entry →
    id pick = property entry.2 "id" →
    findSource pending pick = Return (Some entry).
Proof.
  intros Hobj. revert ids.
  induction Hobj as [|[ref m] rest [props Hm] _ IH];
    intros ids Hids Hnd k entry pick Hk Hid.
  - discriminate.
  - cbn in Hm; subst m.
    destruct ids as [|i ids]; [discriminate|].
    unfold idsOf in Hids. rewrite !fmap_cons in Hids.
    injection Hids as Hi Hrest. cbn in Hi.
    apply NoDup_cons in Hnd as [Hnotin Hnd].
    cbn [findSource get mbind outcome_bind].
    rewrite Hid, Hi.
    destruct k as [|k]; cbn in Hk.
    + injection Hk as <-. cbn [snd property]. rewrite Hi.
      rewrite strict_equal_strings, bool_decide_true by done. reflexivity.
    + assert (Hin : property entry.2 "id" ∈ idsOf rest).
      { unfold idsOf. apply list_elem_of_fmap. exists entry. split; [done|].
        by eapply list_elem_of_lookup_2. }
      unfold idsOf in Hin. rewrite Hrest in Hin.
      apply list_elem_of_fmap in Hin as (j & Hj & Hjin).
      rewrite Hj, strict_equal_strings, bool_decide_false by (intros ->; done).
      eapply IH; eauto.
Qed.

(** The workflow up to the test on [pending], when the file decodes. *)
Lemma process_after_read (op : Operator) (w : World) (v : value)
    (pending : list (nat * value)) :
  stored w = Some v →
  filterPending (messagesOf v) 0 = Return pending →
  processHumanMessages op w
  = (let state := normalized v (reading w) in
     if (length pending =? 0)%nat then
       showMessage "No unresolved messages from human to AI."
     else
       items ← lift (itemsOf pending);
       match quickPick op ≫= (λ k, items !! k) with
       | None => mret ()
       | Some pick =>
           found ← lift (findSource pending pick);
           match found with
           | None => mret ()
           | Some (ref, source) =>
               match inputBox op with
               | None => mret ()
               | Some response =>
                   if String.eqb response "" then mret ()
                   else
                     resolved ← lift (set source "resolved" (VBool true));
                     reply ← replyTo resolved response;
                     let state :=
                       with_messages state
                         (<[ref := resolved]> (messages state)
                            ++ [message_object reply]) in
                     let state := with_revision state (succ (revision state)) in
                     write (state_object state);;
                     pushState
               end
           end
       end) (afterNormalize v w).
Proof.
  intros Hs Hp. unfold processHumanMessages.
  rewrite bind_run, ensure_bound by (by eapply stored_bound).
  cbv beta iota. cbn [negb]. rewrite bind_run, (read_stored _ _ Hs).
  cbv beta iota. rewrite bind_run.
  change (messages (normalized v (reading w))) with (messagesOf v).
  rewrite Hp. reflexivity.
Qed.

(** The workflow on a file that does not decode: [read] recovers by writing
    the seed, which has nothing pending. *)
Lemma process_recovery (op : Operator) (w : World) :
  stored w = None → canWrite w = true →
  processHumanMessages op w
  = (Return (),
     showing "No unresolved messages from human to AI."
       (committed
          (state_object (with_updatedAt (seed (reading w)) (reading (tick w))))
          (tick (tick w)))).
Proof.
  intros Hs Hw. unfold processHumanMessages.
  rewrite bind_run, ensure_bound by (by apply canWrite_bound).
  cbv beta iota. cbn [negb]. rewrite bind_run, (read_recovery _ Hs), Hw.
  reflexivity.
Qed.

Lemma idsOf_lookup (pending : list (nat * value)) (ids : list string)
    (k : nat) (entry : nat * value) (i : string) :
  idsOf pending = VStr <$> ids →
  pending !! k = Some entry → ids !! k = Some i →
  property entry.2 "id" = VStr i.
Proof.
  intros Hids Hk Hi.
  assert (H : idsOf pending !! k = Some (property entry.2 "id")).
  { unfold idsOf. by rewrite list_lookup_fmap, Hk. }
  rewrite Hids, list_lookup_fmap, Hi in H. by injection H.
Qed.

(** The workflow once the lookup by id has found [(ref, source)]. *)
Lemma process_reply_run (op : Operator) (w : World) (v : value)
    (pending : list (nat * value)) (k : nat) (picked : nat * value)
    (ref : nat) (props : list (string * value)) (response : string) :
  stored w = Some v →
  canWrite w = true →
  filterPending (messagesOf v) 0 = Return pending →
  quickPick op = Some k →
  pending !! k = Some picked →
  findSource pending (itemFor picked) = Return (Some (ref, VObj props)) →
  inputBox op = Some response →
  response ≠ "" →
  let w0 := afterNormalize v w in
  let d := repliedDocument (normalized v (reading w)) w0 ref props response in
  let wc := committed (state_object d) (tick (tick (tick w0))) in
  let doc := to_json (state_object d) in
  processHumanMessages op w
  = (Return (),
     posting (StateMessage (normalized doc (reading wc))) (afterNormalize doc wc)).
Proof.
  intros Hs Hw Hp Hq Hk Hfind Hin Hne w0 d wc doc.
  pose proof (filterPending_objects _ _ Hp) as Hobj.
  destruct (revision_normalized v (reading w)) as [z Hz].
  assert (Hw0 : canWrite w0 = true).
  { unfold canWrite, w0. by rewrite folder_afterNormalize. }
  rewrite (process_after_read _ _ _ _ Hs Hp). cbv zeta. fold w0.
  set (state := normalized v (reading w)) in *.
  assert (Hlen : (length pending =? 0)%nat = false).
  { apply Nat.eqb_neq. apply lookup_lt_Some in Hk. lia. }
  rewrite Hlen, bind_run. unfold lift at 1.
  rewrite (itemsOf_objects _ Hobj). cbv beta iota.
  rewrite Hq. cbn [mbind option_bind]. rewrite list_lookup_fmap, Hk.
  cbn [fmap option_fmap option_map].
  rewrite bind_run. unfold lift at 1.
  change (findSource pending _) with (findSource pending (itemFor picked)).
  rewrite Hfind. cbv beta iota. rewrite Hin.
  assert (String.eqb response "" = false) as -> by (by apply String.eqb_neq).
  rewrite bind_run. unfold lift at 1. cbn [set]. cbv beta iota.
  rewrite bind_run.
  change (replyTo (VObj (assign props "resolved" (VBool true))) response w0)
    with (Return (replyMessage w0 (resolvedMessage props) response),
          tick (tick w0)).
  cbv beta iota. rewrite bind_run.
  rewrite (write_state _ (nearest_double (z + 1)));
    [| cbn [revision with_revision with_messages]; by rewrite Hz | exact Hw0 ].
  change (with_updatedAt _ (reading (tick (tick w0)))) with d.
  cbv beta iota.
  rewrite (pushState_stored _ doc) by reflexivity.
  reflexivity.
Qed.

Lemma isPending_nullish (m : value) :
  m = VNull ∨ m = VUndefined → isPending m = Throw TypeError.
Proof. by intros [-> | ->]. Qed.

Lemma isPending_total (m : value) :
  (∃ b, isPending m = Return b) ∨ isPending m = Throw TypeError.
Proof.
  destruct m as [| | | | | |props]; cbn; eauto.
  unfold isPending. cbn [get mbind outcome_bind].
  destruct (is_literal _ "human"); [|eauto].
  destruct (is_literal _ "ai"); eauto.
Qed.

Lemma filterPending_nullish (msgs : list value) (i : nat) :
  VNull ∈ msgs ∨ VUndefined ∈ msgs →
  filterPending msgs i = Throw TypeError.
Proof.
  revert i. induction msgs as [|m rest IH]; intros i H.
  - destruct H as [H|H]; by apply elem_of_nil in H.
  - cbn. destruct (isPending_total m) as [[b Hb]| ->]; [|reflexivity].
    rewrite Hb. cbn.
    assert (Hrest : VNull ∈ rest ∨ VUndefined ∈ rest).
    { destruct H as [H|H]; apply elem_of_cons in H as [<-|H]; auto;
        discriminate. }
    by rewrite (IH (S i) Hrest).
Qed.

Lemma isPending_readable (m : value) :
  readable m → ∃ b, isPending m = Return b.
Proof.
  intros [Hu Hn]. destruct (isPending_total m) as [H|H]; [exact H|].
  destruct m; try done; cbn in H; try discriminate.
  unfold isPending in H. cbn [get mbind outcome_bind] in H.
  destruct (is_literal _ "human"); [|discriminate].
  destruct (is_literal _ "ai"); discriminate.
Qed.

Lemma filterPending_readable (msgs : list value) :
  Forall readable msgs →
  ∀ i : nat, ∃ pending, filterPending msgs i = Return pending.
Proof.
  induction 1 as [|m rest Hm _ IH]; intros i; [by eexists|].
  destruct (isPending_readable m Hm) as [b Hb].
  destruct (IH (S i)) as [kept Hkept].
  cbn [filterPending]. rewrite Hb. cbn [mbind outcome_bind]. rewrite Hkept.
  by eexists.
Qed.

(** The workflow on a file that does not decode, in a folder that refuses
    the recovery write: [read] rejects and so does the workflow. *)
Lemma process_refused (op : Operator) (w : World) :
  is_Some (workspaceFolder w) → stored w = None → canWrite w = false →
  processHumanMessages op w = (Throw FileSystemError, tick (tick w)).
Proof.
  intros Hb Hs Hw. unfold processHumanMessages.
  rewrite bind_run, ensure_bound by exact Hb.
  cbv beta iota. cbn [negb]. rewrite bind_run, (read_recovery _ Hs), Hw.
  reflexivity.
Qed.

(** C5, as stated, fails: on a workspace without a state file the workflow
    stops with "none pending", yet the file has been created by the
    recovery write of [read]. *)
Lemma processHumanMessages_no_write_counterexample :
  ∃ w' : World,
    processHumanMessages cancelling (worldWith (Some emptyFolder)) = (Return (), w')
    ∧ notices w' = ["No unresolved messages from human to AI."]
    ∧ stored (worldWith (Some emptyFolder)) = None
    ∧ writes (worldWith (Some emptyFolder)) = []
    ∧ writes w' ≠ []
    ∧ stored w' ≠ None.
Proof.
  eexists. split; [by rewrite process_recovery|].
  split; [reflexivity|]. split; [reflexivity|]. split; [reflexivity|].
  split; discriminate.
Qed.

(** C5, amended. When the backing file loads and decodes and none of its
    messages is [null] or [undefined], [processHumanMessages] writes nothing
    and leaves the folder as it was on every early exit: when no message
    has from=human, to=ai and a falsy [resolved] (it then shows the "none
    pending" advisory), when the selection prompt is dismissed, and when the
    reply prompt is dismissed or returns the empty string. When the file is
    missing or does not decode, the read at the start of the workflow writes
    the seed document if the folder accepts the write, and the workflow then
    stops with "none pending"; if the folder refuses the write, the workflow
    fails with the file-system error, having written and shown nothing. *)
Theorem processHumanMessages_early_exit (w : World) (op : Operator) :
  (∀ v : value,
     stored w = Some v →
     Forall readable (messagesOf v) →
     (∀ m : value, m ∈ messagesOf v → ¬ pendingMessage m)
     ∨ quickPick op = None
     ∨ inputBox op = None ∨ inputBox op = Some "" →
     ∃ w' : World,
       processHumanMessages op w = (Return (), w')
       ∧ workspaceFolder w' = workspaceFolder w
       ∧ writes w' = writes w
       ∧ ((∀ m : value, m ∈ messagesOf v → ¬ pendingMessage m) →
          notices w' = "No unresolved messages from human to AI." :: notices w))
  ∧ (stored w = None →
     canWrite w = true →
     ∃ (w' : World) (doc : value),
       processHumanMessages op w = (Return (), w')
       ∧ doc = to_json (state_object
                          (with_updatedAt (seed (reading w)) (reading (tick w))))
       ∧ writes w' = doc :: writes w
       ∧ stored w' = Some doc
       ∧ notices w' = "No unresolved messages from human to AI." :: notices w)
  ∧ (is_Some (workspaceFolder w) →
     stored w = None →
     canWrite w = false →
     ∃ w' : World,
       processHumanMessages op w = (Throw FileSystemError, w')
       ∧ workspaceFolder w' = workspaceFolder w
       ∧ writes w' = writes w
       ∧ notices w' = notices w).
Proof.
  split; [|split].
  2:{ intros Hs Hw. rewrite (process_recovery op w Hs Hw).
      eexists _, _. split; [reflexivity|]. by repeat split. }
  2:{ intros Hb Hs Hw. rewrite (process_refused op w Hb Hs Hw).
      eexists. split; [reflexivity|]. by repeat split. }
  intros v Hs Hread Hexit.
  destruct (filterPending_readable _ Hread 0%nat) as [pending Hp].
  assert (Hnone : (∀ m : value, m ∈ messagesOf v → ¬ pendingMessage m) →
                  pending = []).
  { intros Hno. destruct pending as [|[ref m] rest]; [reflexivity|].
    pose proof (filterPending_sound _ _ _ Hp) as Hsound.
    apply Forall_cons in Hsound as [(_ & Hat & _ & Hm) _]. cbn in Hat, Hm.
    exfalso. apply (Hno m); [|exact Hm]. by eapply list_elem_of_lookup_2. }
  assert (Hexit' : pending = [] ∨ quickPick op = None
                   ∨ inputBox op = None ∨ inputBox op = Some "").
  { destruct Hexit as [Hno|Hexit]; [left; by apply Hnone | by right]. }
  clear Hexit. rename Hexit' into Hexit.
  rewrite (process_after_read _ _ _ _ Hs Hp). cbv zeta.
  pose proof (folder_afterNormalize v w) as Hf.
  pose proof (writes_afterNormalize v w) as Hw.
  pose proof (notices_afterNormalize v w) as Hn.
  set (w0 := afterNormalize v w) in *.
  destruct pending as [|entry rest].
  { eexists. split; [reflexivity|]. cbn. rewrite Hf, Hw, Hn. by repeat split. }
  destruct Hexit as [?|Hexit]; [discriminate|].
  pose proof (filterPending_objects _ _ Hp) as Hobj.
  assert (Hsome : (∀ m : value, m ∈ messagesOf v → ¬ pendingMessage m) →
                  notices w0 = "No unresolved messages from human to AI."
                               :: notices w) by (intros Hno; by apply Hnone in Hno).
  clear Hnone.
  cbn [length Nat.eqb]. rewrite bind_run. unfold lift at 1.
  rewrite (itemsOf_objects _ Hobj). cbv beta iota.
  destruct (quickPick op ≫= _) as [pick|] eqn:Hpick.
  2:{ eexists. split; [reflexivity|]. by repeat split. }
  destruct Hexit as [Hq|Hexit]; [by rewrite Hq in Hpick|].
  rewrite bind_run. unfold lift at 1.
  destruct (findSource_objects _ pick Hobj) as [found ->]. cbv beta iota.
  destruct found as [[ref source]|].
  2:{ eexists. split; [reflexivity|]. by repeat split. }
  destruct Hexit as [-> | ->]; eexists; (split; [reflexivity|]); by repeat split.
Qed.

Lemma processHumanMessages_early_exit_witness :
  (∃ w' : World,
     processHumanMessages (answering 0 "")
       (worldWith (Some (folderWith pendingDocument)))
     = (Return (), w')
     ∧ workspaceFolder w' = Some (folderWith pendingDocument)
     ∧ writes w' = [])
  ∧ (∃ w' : World,
       processHumanMessages (answering 0 "") (worldWith (Some readOnlyFolder))
       = (Throw FileSystemError, w')
       ∧ writes w' = []
       ∧ notices w' = []).
Proof.
  split.
  - destruct (processHumanMessages_early_exit
                (worldWith (Some (folderWith pendingDocument))) (answering 0 ""))
      as (Hexit & _ & _).
    destruct (Hexit pendingDocument eq_refl
                ltac:(repeat constructor; discriminate)
                (or_intror (or_intror (or_intror eq_refl))))
      as (w' & Hrun & Hf & Hw & _).
    exists w'. split; [exact Hrun|]. split; [exact Hf | exact Hw].
  - destruct (processHumanMessages_early_exit
                (worldWith (Some readOnlyFolder)) (answering 0 ""))
      as (_ & _ & Hrefused).
    destruct (Hrefused ltac:(by eexists) eq_refl eq_refl)
      as (w' & Hrun & _ & Hw & Hn).
    exists w'. split; [exact Hrun|]. split; [exact Hw | exact Hn].
Defined.

(** C2, as stated, fails: the selected message is looked up by its id among
    the pending messages, and the first message with that id is the one
    resolved. With two pending messages that share an id and the second one
    selected, the written document has the first message resolved, and the
    selected message as it was, unresolved. *)
Lemma processHumanMessages_selected_counterexample :
  ∃ (w' : World) (doc first second : value),
    processHumanMessages (answering 1 "Start with M1")
      (worldWith (Some (folderWith duplicateDocument)))
    = (Return (), w')
    ∧ messagesOf duplicateDocument !! 1%nat = Some (question "msg-q" "Second")
    ∧ stored w' = Some doc
    ∧ messagesOf doc !! 0%nat = Some first
    ∧ messagesOf doc !! 1%nat = Some second
    ∧ property first "title" = VStr "First"
    ∧ property first "resolved" = VBool true
    ∧ property second "title" = VStr "Second"
    ∧ property second "resolved" = VBool false.
Proof.
  rewrite (process_reply_run (answering 1 "Start with M1")
             (worldWith (Some (folderWith duplicateDocument))) duplicateDocument
             [(0%nat, question "msg-q" "First"); (1%nat, question "msg-q" "Second")]
             1 (1%nat, question "msg-q" "Second") 0
             [("id", VStr "msg-q"); ("from", VStr "human"); ("to", VStr "ai");
              ("type", VStr "note"); ("title", VStr "First");
              ("body", VStr "Which milestone comes first?");
              ("createdAt", VStr "2026-02-18T17:00:00.000Z");
              ("resolved", VBool false)]
             "Start with M1")
    by (reflexivity || discriminate).
  eexists _, _, _, _. split; [reflexivity|]. split; [reflexivity|].
  split; [reflexivity|]. split; [reflexivity|]. split; [reflexivity|].
  by repeat split.
Qed.

(** C2, amended. After a successful run of [processHumanMessages] (the file
    decodes and the folder accepts the write, a pending human-to-ai message
    exists, the operator selects one and types a non-empty reply), when the
    ids of the pending messages are distinct strings, the document written
    is the one read with: the selected message's [resolved] set to true and
    its other properties untouched; exactly one message appended, with
    from=ai, to=human, type "response", title "Re: " followed by the
    original title (converted to a string when it is not one), the reply as
    body, resolved=false and inReplyTo the selected message's id; every
    other message as it was; the same tasks; and the revision read plus 1
    when that revision is an integer of magnitude below 2^53 (in general the
    double that [revision + 1] rounds to). The file holds the JSON image of
    these messages, and the appended message is its own JSON image. *)
Theorem processHumanMessages_replies (w : World) (op : Operator) (v : value)
    (pending : list (nat * value)) (ids : list string)
    (k ref : nat) (source : value) (response : string) :
  stored w = Some v →
  canWrite w = true →
  filterPending (messagesOf v) 0 = Return pending →
  idsOf pending = VStr <$> ids →
  NoDup ids →
  quickPick op = Some k →
  pending !! k = Some (ref, source) →
  inputBox op = Some response →
  response ≠ "" →
  ∃ (state d : TrackerState) (w0 w' : World) (resolved reply : value),
    read w = (Return state, w0)
    ∧ processHumanMessages op w = (Return (), w')
    ∧ writes w' = to_json (state_object d) :: writes w
    ∧ stored w' = Some (to_json (state_object d))
    ∧ messagesOf (to_json (state_object d)) = to_json <$> messages d
    ∧ revision d = succ (revision state)
    ∧ (∀ r : Z,
         revision state = Finite r → safeInteger r →
         revision d = Finite (r + 1))
    ∧ tasks d = tasks state
    ∧ messages state !! ref = Some source
    ∧ pendingMessage source
    ∧ messages d = (<[ref := resolved]> (messages state) ++ [reply])%list
    ∧ property resolved "resolved" = VBool true
    ∧ (∀ key : string,
         key ≠ "resolved" → property resolved key = property source key)
    ∧ property reply "from" = VStr "ai"
    ∧ property reply "to" = VStr "human"
    ∧ property reply "type" = VStr "response"
    ∧ property reply "title"
      = VStr ("Re: " ++ to_string (property source "title"))
    ∧ (∀ t : string,
         property source "title" = VStr t →
         property reply "title" = VStr ("Re: " ++ t))
    ∧ property reply "body" = VStr response
    ∧ property reply "resolved" = VBool false
    ∧ property reply "inReplyTo" = property source "id"
    ∧ to_json reply = reply
    ∧ length (messages d) = S (length (messages state))
    ∧ (∀ j : nat,
         j ≠ ref → (j < length (messages state))%nat →
         messages d !! j = messages state !! j).
Proof.
  intros Hs Hw Hp Hids Hnd Hq Hk Hin Hne.
  pose proof (filterPending_sound _ _ _ Hp) as Hsound.
  pose proof (filterPending_objects _ _ Hp) as Hobj.
  destruct (proj1 (Forall_lookup _ _) Hsound _ _ Hk)
    as (_ & Hat & (props & Hprops) & Hpending).
  cbn in Hat, Hprops, Hpending. rewrite Nat.sub_0_r in Hat. subst source.
  assert (Hi : ∃ i : string, property (VObj props) "id" = VStr i).
  { destruct (ids !! k) as [i|] eqn:Hik.
    - exists i. exact (idsOf_lookup pending ids k _ i Hids Hk Hik).
    - exfalso. apply lookup_ge_None in Hik. apply lookup_lt_Some in Hk.
      assert (Hlen : length (idsOf pending) = length (VStr <$> ids))
        by (by rewrite Hids).
      unfold idsOf in Hlen. rewrite !length_fmap in Hlen. lia. }
  destruct Hi as [i Hi].
  assert (Hfind : findSource pending (itemFor (ref, VObj props))
                  = Return (Some (ref, VObj props))).
  { by apply (findSource_unique pending ids Hobj Hids Hnd k). }
  pose proof (process_reply_run op w v pending k (ref, VObj props) ref props
                response Hs Hw Hp Hq Hk Hfind Hin Hne) as Hrun.
  cbv zeta in Hrun.
  destruct (revision_normalized v (reading w)) as [z Hz].
  set (state := normalized v (reading w)) in *.
  set (w0 := afterNormalize v w) in *.
  set (d := repliedDocument state w0 ref props response) in *.
  set (reply := replyMessage w0 (resolvedMessage props) response).
  assert (Hd : revision d = Finite (nearest_double (z + 1))).
  { unfold d. cbn [revision repliedDocument]. by rewrite Hz. }
  assert (Hid : property (resolvedMessage props) "id" = VStr i).
  { unfold resolvedMessage. cbn [property]. by rewrite assign_other. }
  assert (Htitle : property (message_object reply) "title"
                   = VStr ("Re: " ++ to_string (property (VObj props) "title"))).
  { destruct (message_object_properties reply) as (_ & _ & _ & _ & -> & _).
    unfold reply, resolvedMessage. cbn [msg_title replyMessage property].
    by rewrite assign_other. }
  destruct (message_object_properties reply)
    as (_ & Hfrom & Hto & Htype & _ & Hbody & _ & Hres & Hreply).
  eexists state, d, w0, _, (resolvedMessage props), (message_object reply).
  split; [by apply read_stored|].
  split; [exact Hrun|].
  split.
  { cbn [writes posting].
    rewrite (writes_afterNormalize (to_json (state_object d))).
    cbn [writes committed tick]. unfold w0.
    by rewrite (writes_afterNormalize v w). }
  split.
  { unfold stored. cbn [workspaceFolder posting].
    rewrite (folder_afterNormalize (to_json (state_object d))). reflexivity. }
  split; [by rewrite (to_json_state d _ Hd)|].
  split; [reflexivity|].
  split.
  { intros r Hr Hsafe. change (revision d) with (succ (revision state)).
    rewrite Hr. by apply succ_safe. }
  split; [reflexivity|].
  split; [exact Hat|]. split; [exact Hpending|]. split; [reflexivity|].
  split; [unfold resolvedMessage; cbn [property]; by rewrite assign_same|].
  split.
  { intros key Hkey. unfold resolvedMessage. cbn [property].
    by rewrite assign_other. }
  split; [exact Hfrom|]. split; [exact Hto|]. split; [exact Htype|].
  split; [exact Htitle|].
  split; [intros t Ht; by rewrite Htitle, Ht|].
  split; [exact Hbody|]. split; [exact Hres|].
  split.
  { rewrite Hreply. unfold reply. cbn [msg_inReplyTo replyMessage default].
    rewrite Hid. symmetry. exact Hi. }
  split.
  { unfold message_object, reply.
    cbn [msg_inReplyTo replyMessage optional]. rewrite Hid. reflexivity. }
  split.
  { unfold d. cbn [messages repliedDocument].
    rewrite length_app, length_insert. cbn [length]. lia. }
  intros j Hj Hlt. unfold d. cbn [messages repliedDocument].
  rewrite lookup_app_l by (by rewrite length_insert).
  by rewrite list_lookup_insert_ne.
Qed.

Lemma processHumanMessages_replies_witness :
  ∃ (d : TrackerState) (w' : World) (reply : value),
    processHumanMessages (answering 0 "Start with M1")
      (worldWith (Some (folderWith pendingDocument)))
    = (Return (), w')
    ∧ stored w' = Some (to_json (state_object d))
    ∧ revision d = Finite 6
    ∧ messages d !! 1%nat = Some reply
    ∧ property reply "title" = VStr "Re: Order of work"
    ∧ property reply "inReplyTo" = VStr "msg-q1".
Proof.
  destruct (processHumanMessages_replies
              (worldWith (Some (folderWith pendingDocument)))
              (answering 0 "Start with M1") pendingDocument
              [(0%nat, question "msg-q1" "Order of work")] ["msg-q1"]
              0 0 (question "msg-q1" "Order of work") "Start with M1"
              eq_refl eq_refl eq_refl eq_refl (NoDup_singleton "msg-q1")
              eq_refl eq_refl eq_refl ltac:(discriminate))
    as (state & d & w0 & w' & resolved & reply & Hread & Hrun & _ & Hst & _
        & _ & Hrev & _ & _ & _ & Hmsgs & _ & _ & _ & _ & _ & _ & Htitle & _
        & _ & Hreply & _).
  exists d, w', reply. split; [exact Hrun|]. split; [exact Hst|].
  rewrite read_stored with (v := pendingDocument) in Hread by reflexivity.
  injection Hread as <- <-.
  split; [apply (Hrev 5 eq_refl); split; reflexivity|].
  split; [by rewrite Hmsgs|].
  split; [exact (Htitle "Order of work" eq_refl) | exact Hreply].
Defined.

(** ** The seed operation *)

Lemma seedRoadmap_run (op : Operator) (w : World) :
  canWrite w = true →
  confirm op = Some "Replace" →
  let doc := state_object (with_updatedAt (seed (reading w)) (reading (tick w))) in
  let wc := committed doc (tick (tick w)) in
  seedRoadmap op w
  = (Return (),
     showing "Tracker roadmap initialized."
       (posting (StateMessage (normalized doc (reading wc))) wc)).
Proof.
  intros Hw Hc doc wc. unfold seedRoadmap.
  rewrite bind_run, ensure_bound by (by apply canWrite_bound).
  cbv beta iota. cbn [negb]. rewrite Hc.
  rewrite bind_run.
  change (defaultState w) with (Return (seed (reading w)), tick w).
  cbv beta iota. rewrite bind_run.
  rewrite (write_state (seed (reading w)) 1) by done.
  cbv beta iota. rewrite bind_run.
  rewrite (pushState_stored _ doc) by reflexivity.
  reflexivity.
Qed.

(** C7, as stated, fails on the seed content: the milestone M1 holds two
    tasks, and none of them is done. *)
Lemma seed_done_in_M1_counterexample :
  ∃ (m1 : list value) (others : list (value * list value)),
    milestoneGroups (tasks (seed "2026-02-18T18:00:00.000Z"))
    = Return ((VStr "M1 Foundation", m1) :: others)
    ∧ length m1 = 2%nat
    ∧ doneCount m1 = Return 0%nat
    ∧ doneCount m1 ≠ Return 2%nat.
Proof.
  eexists _, _. split; [reflexivity|]. split; [reflexivity|].
  split; [reflexivity|]. discriminate.
Qed.

(** C7, amended. The seed roadmap operation, once the operator confirms,
    replaces whatever the folder held: the stored tasks and messages are
    exactly the seed arrays and the stored revision is 1. The seed content
    has 5 tasks across 3 milestones, with 2 tasks in M1, none done in M1 and
    none done in M2, and one message, from ai to human, with resolved=false. *)
Theorem seedRoadmap_replaces (op : Operator) (w : World) :
  canWrite w = true →
  confirm op = Some "Replace" →
  ∃ (w' : World) (doc : value),
    seedRoadmap op w = (Return (), w')
    ∧ stored w' = Some doc
    ∧ property doc "revision" = VNum (Finite 1)
    ∧ property doc "tasks" = VArr (task_object <$> seedTasks (reading w))
    ∧ property doc "messages" = VArr (message_object <$> seedMessages (reading w))
    ∧ length (seedTasks (reading w)) = 5%nat
    ∧ (∃ m1 m2 m3 : list value,
         milestoneGroups (task_object <$> seedTasks (reading w))
         = Return [(VStr "M1 Foundation", m1); (VStr "M2 Collaboration", m2);
                   (VStr "M3 Release", m3)]
         ∧ length m1 = 2%nat
         ∧ doneCount m1 = Return 0%nat
         ∧ doneCount m2 = Return 0%nat)
    ∧ (∃ m : TrackerMessage,
         seedMessages (reading w) = [m]
         ∧ msg_from m = Ai ∧ msg_to m = Human ∧ msg_resolved m = false)
    ∧ (∃ message : value,
         property doc "messages" = VArr [message]
         ∧ property message "from" = VStr "ai"
         ∧ property message "to" = VStr "human"
         ∧ property message "resolved" = VBool false).
Proof.
  intros Hw Hc. rewrite (seedRoadmap_run op w Hw Hc).
  eexists _, _. split; [reflexivity|].
  split; [reflexivity|].
  split; [reflexivity|]. split; [reflexivity|]. split; [reflexivity|].
  split; [reflexivity|].
  split; [|split].
  - eexists _, _, _. split; [reflexivity|]. by repeat split.
  - eexists. split; [reflexivity|]. by repeat split.
  - eexists. split; [reflexivity|]. by repeat split.
Qed.

Lemma seedRoadmap_replaces_witness :
  ∃ (w' : World) (doc : value),
    seedRoadmap confirming (worldWith (Some (folderWith pendingDocument)))
    = (Return (), w')
    ∧ stored w' = Some doc
    ∧ property doc "revision" = VNum (Finite 1).
Proof.
  destruct (seedRoadmap_replaces confirming
              (worldWith (Some (folderWith pendingDocument))) eq_refl eq_refl)
    as (w' & doc & Hrun & Hs & Hr & _).
  exists w', doc. split; [exact Hrun|]. split; [exact Hs | exact Hr].
Defined.

(** ** The save path: [saveState] in the view, [saveFromWebview] in the
    extension *)

(** The revision [saveState] computes is the view's revision plus 1, rounded
    as a double rounds it. *)
Lemma saveState_rounds (now : string) (view : TrackerState) (r : Z) :
  revision view = Finite r →
  revision (saveState now view) = Finite (nearest_double (r + 1)).
Proof.
  intros Hr. unfold saveState.
  cbn [revision with_revision with_updatedAt]. rewrite Hr. cbn [truthy].
  destruct (Z.eqb_spec r 0) as [->|_]; reflexivity.
Qed.

Lemma saveState_revision (now : string) (view : TrackerState) (r : Z) :
  revision view = Finite r →
  safeInteger r →
  revision (saveState now view) = Finite (r + 1).
Proof.
  intros Hr Hsafe. rewrite (saveState_rounds now view r Hr).
  pose proof (succ_safe r Hsafe) as H. cbn [succ] in H. exact H.
Qed.

Lemma save_run (view : TrackerState) (now : string) (op : Operator)
    (w : World) (r : Z) :
  canWrite w = true →
  revision view = Finite r →
  let d := with_updatedAt (saveState now view) (reading w) in
  handleMessage (saveMessage (saveState now view)) op w
  = (Return (), posting (StateMessage d) (committed (state_object d) (tick w))).
Proof.
  intros Hw Hr d.
  change (handleMessage (saveMessage (saveState now view)) op w)
    with (saveFromWebview (state_object (saveState now view)) w).
  unfold saveFromWebview.
  rewrite bind_run, ensure_bound by (by apply canWrite_bound).
  cbv beta iota. cbn [negb truthy state_object]. rewrite bind_run.
  rewrite (write_state (saveState now view) (nearest_double (r + 1)))
    by (by try apply saveState_rounds).
  reflexivity.
Qed.

Lemma storedRevision_save (view : TrackerState) (now : string) (w : World)
    (r : Z) :
  revision view = Finite r →
  safeInteger r →
  let d := with_updatedAt (saveState now view) (reading w) in
  storedRevision (posting (StateMessage d) (committed (state_object d) (tick w)))
  = Some (r + 1).
Proof.
  intros Hr Hsafe d. unfold storedRevision, stored.
  cbn [workspaceFolder posting committed].
  rewrite (to_json_state d (r + 1)) by (by apply saveState_revision).
  reflexivity.
Qed.

(** C6, as stated, fails: the save path stores the revision of the view's
    own copy plus 1 and never looks at the stored one. A view that has not
    received the stored state yet (its copy is still the initial one, at
    revision 1) saves revision 2 over a stored revision 5. *)
Lemma save_revision_counterexample :
  ∃ w' : World,
    handleMessage
      (saveMessage (saveState "2026-02-18T18:00:00.000Z"
                      (initialState "2026-02-18T17:59:00.000Z")))
      cancelling (worldWith (Some (folderWith pendingDocument)))
    = (Return (), w')
    ∧ storedRevision (worldWith (Some (folderWith pendingDocument))) = Some 5
    ∧ storedRevision w' = Some 2
    ∧ ¬ (5 < 2).
Proof.
  eexists. split; [by rewrite (save_run _ _ _ _ 1)|].
  split; [reflexivity|]. split; [reflexivity|]. lia.
Qed.

(** C6, amended. The seed document and the view's initial copy start at
    revision 1. A successful write that originates from a save operation
    stores the revision of the view's copy plus 1 when that revision is an
    integer of magnitude below 2^53 (at 2^53 the view's increment leaves
    the revision as it is); the store does not compare it with the stored
    revision. When the view's copy is a state pushed from the store and the
    stored revision is still the pushed one at the time of the save, the
    stored revision after the save is the previously stored revision plus 1,
    strictly greater. *)
Theorem save_increments_revision (w : World) (v : value) (r : Z) :
  stored w = Some v →
  property v "revision" = VNum (Finite r) →
  safeInteger r →
  (∀ now : string,
     revision (seed now) = Finite 1 ∧ revision (initialState now) = Finite 1)
  ∧ (∀ (view : TrackerState) (rv : Z) (now : string) (op : Operator)
       (wv : World),
       canWrite wv = true →
       revision view = Finite rv →
       safeInteger rv →
       ∃ w2 : World,
         handleMessage (saveMessage (saveState now view)) op wv = (Return (), w2)
         ∧ storedRevision w2 = Some (rv + 1))
  ∧ (∀ (view : TrackerState) (now : string),
       revision view = Finite 9007199254740992 →
       revision (saveState now view) = Finite 9007199254740992)
  ∧ (∃ (w1 : World) (pushed : TrackerState),
       pushState w = (Return (), w1)
       ∧ (viewResolved w = true → posted w1 = StateMessage pushed :: posted w)
       ∧ revision pushed = Finite r
       ∧ storedRevision w1 = Some r
       ∧ ∀ (old : TrackerState) (now : string) (op : Operator) (wl : World),
           canWrite wl = true →
           storedRevision wl = Some r →
           ∃ w2 : World,
             handleMessage
               (saveMessage (saveState now (receive (StateMessage pushed) old)))
               op wl
             = (Return (), w2)
             ∧ storedRevision w2 = Some (r + 1)
             ∧ r < r + 1).
Proof.
  intros Hs Hr Hsafe. split; [by split|]. split; [|split].
  - intros view rv now op wv Hw Hrv Hsafev. eexists.
    split; [by apply (save_run _ _ _ _ rv)|].
    by apply storedRevision_save.
  - intros view now Hv. by rewrite (saveState_rounds now view _ Hv).
  - rewrite (pushState_stored _ _ Hs). eexists _, _.
    split; [reflexivity|].
    split.
    { intros Hview. cbn [posted posting].
      rewrite posted_afterNormalize.
      assert (viewResolved (afterNormalize v w) = true) as ->; [|reflexivity].
      unfold afterNormalize. by destruct (property v "updatedAt"). }
    assert (Hrv : revision (normalized v (reading w)) = Finite r).
    { cbn. by rewrite Hr. }
    split; [exact Hrv|].
    split.
    { unfold storedRevision, stored. cbn [workspaceFolder posting].
      rewrite folder_afterNormalize. unfold stored in Hs.
      destruct (workspaceFolder w) as [[[] ?]|]; try discriminate.
      injection Hs as ->. by rewrite Hr. }
    intros old now op wl Hwl _.
    eexists. split; [by apply (save_run _ _ _ _ r)|].
    split; [by apply storedRevision_save | lia].
Qed.

Lemma save_increments_revision_witness :
  ∃ w2 : World,
    handleMessage
      (saveMessage (saveState "2026-02-18T18:00:00.000Z"
                      (normalized pendingDocument "")))
      cancelling (worldWith (Some (folderWith pendingDocument)))
    = (Return (), w2)
    ∧ storedRevision w2 = Some 6.
Proof.
  destruct (save_increments_revision
              (worldWith (Some (folderWith pendingDocument))) pendingDocument 5
              eq_refl eq_refl ltac:(split; reflexivity)) as (_ & Hsave & _).
  exact (Hsave (normalized pendingDocument "") 5
           "2026-02-18T18:00:00.000Z" cancelling
           (worldWith (Some (folderWith pendingDocument)))
           eq_refl eq_refl ltac:(split; reflexivity)).
Defined.

(** ** The board actions of the view *)

Lemma advance_run (props : list (string * value)) :
  let lane := nextLane (property (VObj props) "lane") in
  advance (VObj props)
  = Return (VObj (assign (assign props "lane" lane) "status"
                    (if is_literal lane "done"
                     then VStr "done" else VStr "progress"))).
Proof.
  intros lane. unfold advance.
  cbn [get put mbind outcome_bind]. rewrite assign_same. reflexivity.
Qed.

Lemma nextLane_cases (current : value) :
  (current = VStr "todo" ∧ nextLane current = VStr "progress")
  ∨ (current ≠ VStr "todo" ∧ nextLane current = VStr "done").
Proof.
  unfold nextLane, is_literal.
  destruct current as [| | |[]| s | |];
    try (right; split; [discriminate|reflexivity]).
  rewrite !strict_equal_strings.
  destruct (decide (s = "todo")) as [->|Hs]; [left; by split|].
  right. split; [congruence|].
  rewrite bool_decide_false by done. by destruct (bool_decide (s = "progress")).
Qed.

(** A task in lane [done] with status [done] is a fixed point of the
    advance action. *)
Lemma advance_done_fixed (props : list (string * value)) :
  own props "lane" = Some (VStr "done") →
  own props "status" = Some (VStr "done") →
  advance (VObj props) = Return (VObj props).
Proof.
  intros Hl Hs. rewrite advance_run. cbn [property]. rewrite Hl. cbn.
  rewrite (assign_id props "lane") by done.
  by rewrite (assign_id props "status").
Qed.

(** C9. For every task the advance action moves the lane forward along
    todo, progress, done and never back: the new lane is [nextLane] of the
    old, a lane of rank at least that of the old one, and no property other
    than [lane] and [status] changes. A task in lane todo advanced twice
    ends at lane done with status done, and a third advance leaves the task
    as it is. *)
Theorem advance_forward (props : list (string * value)) :
  ∃ t1 : value,
    advance (VObj props) = Return t1
    ∧ property t1 "lane" = nextLane (property (VObj props) "lane")
    ∧ (∃ n' : nat,
         laneRank (property t1 "lane") = Some n'
         ∧ ∀ n : nat,
             laneRank (property (VObj props) "lane") = Some n → (n ≤ n')%nat)
    ∧ (∀ key : string,
         key ≠ "lane" → key ≠ "status" →
         property t1 key = property (VObj props) key)
    ∧ (property (VObj props) "lane" = VStr "todo" →
       property t1 "lane" = VStr "progress"
       ∧ property t1 "status" = VStr "progress"
       ∧ ∃ t2 : value,
           advance t1 = Return t2
           ∧ property t2 "lane" = VStr "done"
           ∧ property t2 "status" = VStr "done"
           ∧ advance t2 = Return t2).
Proof.
  eexists. split; [apply advance_run|].
  assert (Hlane : ∀ ps l x,
            property (VObj (assign (assign ps "lane" l) "status" x)) "lane" = l).
  { intros ps l x. cbn. rewrite assign_other by done. by rewrite assign_same. }
  assert (Hstatus : ∀ ps l x,
            property (VObj (assign (assign ps "lane" l) "status" x)) "status" = x).
  { intros ps l x. cbn. by rewrite assign_same. }
  split; [apply Hlane|]. split.
  { rewrite Hlane.
    destruct (nextLane_cases (property (VObj props) "lane")) as [[-> ->]|[Hne ->]].
    - exists 1%nat. split; [reflexivity|]. intros n [= <-]. lia.
    - exists 2%nat. split; [reflexivity|]. intros n.
      unfold laneRank.
      repeat (destruct (is_literal _ _)); intros [= <-]; lia. }
  split.
  { intros key Hl Hs. cbn. by rewrite !assign_other. }
  intros Htodo. rewrite Hlane, Hstatus. rewrite Htodo.
  split; [reflexivity|]. split; [reflexivity|].
  eexists. split; [apply advance_run|].
  rewrite Hlane, Hstatus, Hlane.
  split; [reflexivity|]. split; [reflexivity|].
  apply advance_done_fixed.
  - rewrite assign_other by done. by rewrite assign_same.
  - by rewrite assign_same.
Qed.

Lemma advance_forward_witness :
  ∃ t1 t2 : value,
    advance todoTask = Return t1
    ∧ advance t1 = Return t2
    ∧ property t2 "lane" = VStr "done"
    ∧ property t2 "status" = VStr "done"
    ∧ advance t2 = Return t2.
Proof.
  destruct (advance_forward
              [("id", VStr "task-1"); ("title", VStr "Write the parser");
               ("owner", VStr "human"); ("lane", VStr "todo");
               ("status", VStr "todo")])
    as (t1 & Hrun & _ & _ & _ & Htodo).
  destruct (Htodo eq_refl) as (_ & _ & t2 & Hrun2 & Hl & Hs & Hfix).
  exists t1, t2. split; [exact Hrun|]. split; [exact Hrun2|].
  split; [exact Hl|]. split; [exact Hs | exact Hfix].
Defined.

Lemma toggleBlock_run (props : list (string * value)) :
  toggleBlock (VObj props)
  = Return (VObj (assign props "status"
                    (if is_literal (property (VObj props) "status") "blocked"
                     then (if is_literal (property (VObj props) "lane") "done"
                           then VStr "done" else VStr "progress")
                     else VStr "blocked"))).
Proof.
  unfold toggleBlock. cbn [get mbind outcome_bind property].
  by destruct (is_literal _ "blocked").
Qed.

(** What the block toggle does do: a task that is not blocked becomes
    blocked in the same lane; a blocked task gets status done in lane done
    and status progress in every other lane. *)
Lemma toggleBlock_spec (props : list (string * value)) :
  ∃ t : value,
    toggleBlock (VObj props) = Return t
    ∧ property t "lane" = property (VObj props) "lane"
    ∧ (property (VObj props) "status" ≠ VStr "blocked" →
       property t "status" = VStr "blocked")
    ∧ (property (VObj props) "status" = VStr "blocked" →
       property t "status"
       = if is_literal (property (VObj props) "lane") "done"
         then VStr "done" else VStr "progress").
Proof.
  eexists. split; [apply toggleBlock_run|].
  split; [cbn; by rewrite assign_other|].
  split.
  - intros Hne. rewrite (is_literal_false _ _ Hne). cbn. by rewrite assign_same.
  - intros Hb. cbn in Hb. cbn. rewrite assign_same, Hb. reflexivity.
Qed.

(** C10 holds for lanes progress and done but not for lane todo: a task in
    lane todo with status todo, blocked and unblocked again, ends with
    status progress while still in lane todo. *)
Theorem toggleBlock_todo_lane :
  ∃ blocked restored : value,
    toggleBlock todoTask = Return blocked
    ∧ property blocked "lane" = VStr "todo"
    ∧ property blocked "status" = VStr "blocked"
    ∧ toggleBlock blocked = Return restored
    ∧ property restored "lane" = VStr "todo"
    ∧ property restored "status" = VStr "progress"
    ∧ property restored "status" ≠ VStr (status_name (laneStatus LaneTodo)).
Proof.
  eexists _, _. split; [reflexivity|].
  split; [reflexivity|]. split; [reflexivity|]. split; [reflexivity|].
  split; [reflexivity|]. split; [reflexivity|]. discriminate.
Qed.

(** * Further properties

    Properties of the code around the specification's claims: the round
    trips of the store, the edge cases of the controller and of the message
    workflow, and the handlers and counters of the view. *)


(** Induction over values, through the arrays and the property lists. *)
Lemma value_induction (P : value → Prop) :
  P VUndefined → P VNull → (∀ b, P (VBool b)) → (∀ n, P (VNum n)) →
  (∀ s, P (VStr s)) →
  (∀ items, Forall P items → P (VArr items)) →
  (∀ props, Forall (λ kv, P kv.2) props → P (VObj props)) →
  ∀ v, P v.
Proof.
  intros Hu Hn Hb Hnum Hs Ha Ho.
  fix IH 1. intros [| | b | n | s | items | props];
    [exact Hu | exact Hn | apply Hb | apply Hnum | apply Hs | apply Ha | apply Ho].
  - induction items as [|x rest IHl]; constructor; [apply IH | exact IHl].
  - induction props as [|[k x] rest IHl]; constructor; [apply IH | exact IHl].
Qed.

Lemma to_json_defined (v : value) : to_json v ≠ VUndefined.
Proof. destruct v as [| | |[]| | |]; discriminate. Qed.

(** Serializing twice is serializing once. *)
Lemma to_json_idempotent (v : value) : to_json (to_json v) = to_json v.
Proof.
  induction v as [| | b | [] | s | items IH | props IH] using value_induction;
    try reflexivity.
  - cbn. f_equal. rewrite <- list_fmap_compose.
    apply Forall_fmap_ext_1. exact IH.
  - cbn. f_equal. induction IH as [|[k x] rest Hx _ IHrest]; [reflexivity|].
    cbn in Hx.
    destruct x as [| | |[]| | |]; cbn in *; try exact IHrest;
      rewrite IHrest; try reflexivity; congruence.
Qed.

Lemma to_json_array_idempotent (items : list value) :
  to_json <$> (to_json <$> items) = to_json <$> items.
Proof.
  rewrite <- list_fmap_compose. apply list_fmap_ext.
  intros _ x _. apply to_json_idempotent.
Qed.

Lemma normalized_to_json_state (d : TrackerState) (z : Z) (now : string) :
  revision d = Finite z →
  normalized (to_json (state_object d)) now
  = {| revision := revision d; updatedAt := updatedAt d;
       tasks := to_json <$> tasks d; messages := to_json <$> messages d |}.
Proof.
  intros Hz. rewrite (to_json_state d z Hz). unfold normalized. cbn.
  by rewrite Hz.
Qed.

Lemma read_committed (d : TrackerState) (z : Z) (w : World) :
  revision d = Finite z →
  read (committed (state_object d) w)
  = (Return {| revision := revision d; updatedAt := updatedAt d;
               tasks := to_json <$> tasks d;
               messages := to_json <$> messages d |},
     committed (state_object d) w).
Proof.
  intros Hz.
  rewrite (read_stored _ (to_json (state_object d))) by apply stored_committed.
  rewrite (normalized_to_json_state d z _ Hz).
  unfold afterNormalize. by rewrite (to_json_state d z Hz).
Qed.

Lemma revision_written (raw : value) (w : World) :
  ∃ z : Z, revision (written raw w) = Finite z.
Proof. unfold written. cbn. apply (revision_normalized raw (reading w)). Qed.

(** X1. [normalize] is idempotent: the document it returns for any input is returned
    unchanged when normalized again, in any world and without reading the
    clock. *)
Theorem normalize_idempotent (raw : value) (w : World) :
  ∃ (d : TrackerState) (w1 : World),
    normalize raw w = (Return d, w1)
    ∧ ∀ w2 : World, normalize (state_object d) w2 = (Return d, w2).
Proof.
  eexists _, _. split; [apply normalize_run|].
  intros w2. rewrite normalize_run.
  destruct (revision_normalized raw (reading w)) as [z Hz].
  by rewrite (normalized_state_object _ z).
Qed.

(** X2. Round trip of the store. After a successful [write], [read] returns a
    document with the revision and [updatedAt] that [write] returned and the
    JSON images of its tasks and messages, and writes nothing. Writing that
    document back keeps revision, tasks and messages, and reading it again
    returns exactly what the second [write] returned: one round trip reaches
    a fixed point up to [updatedAt]. *)
Theorem write_read_round_trip (raw : value) (w : World) :
  canWrite w = true →
  ∃ (d d' : TrackerState) (w1 : World),
    write raw w = (Return d, w1)
    ∧ read w1 = (Return d', w1)
    ∧ revision d' = revision d
    ∧ updatedAt d' = updatedAt d
    ∧ tasks d' = to_json <$> tasks d
    ∧ messages d' = to_json <$> messages d
    ∧ ∃ (d'' : TrackerState) (w2 : World),
        write (state_object d') w1 = (Return d'', w2)
        ∧ revision d'' = revision d'
        ∧ tasks d'' = tasks d'
        ∧ messages d'' = messages d'
        ∧ read w2 = (Return d'', w2).
Proof.
  intros Hw. rewrite write_run, Hw.
  destruct (revision_written raw w) as [z Hz].
  set (d := written raw w) in *.
  set (w1 := committed (state_object d) (tick (afterNormalize raw w))).
  set (d' := {| revision := revision d; updatedAt := updatedAt d;
                tasks := to_json <$> tasks d;
                messages := to_json <$> messages d |}).
  exists d, d', w1. split; [reflexivity|].
  split; [by apply (read_committed d z)|].
  do 4 (split; [reflexivity|]).
  rewrite (write_state d' z) by done.
  eexists _, _. split; [reflexivity|].
  do 3 (split; [reflexivity|]).
  rewrite (read_committed _ z) by exact Hz.
  cbn. by rewrite !to_json_array_idempotent.
Qed.

Lemma write_read_round_trip_witness :
  ∃ (d d' : TrackerState) (w1 : World),
    write pendingDocument (worldWith (Some emptyFolder)) = (Return d, w1)
    ∧ read w1 = (Return d', w1)
    ∧ revision d' = revision d.
Proof.
  destruct (write_read_round_trip pendingDocument (worldWith (Some emptyFolder))
              eq_refl) as (d & d' & w1 & Hw & Hr & Hrev & _).
  exists d, d', w1. split; [exact Hw|]. split; [exact Hr | exact Hrev].
Defined.

(** X3. When the backing file parses, whatever it parses to, [read] returns a
    document and leaves the folder and the write log as they were: the file
    is not repaired. A file that parses to something that is not an object
    reads as the empty document at revision 1. When the stored [updatedAt]
    is a string the world is unchanged and reading again gives the same
    document. *)
Theorem read_decodable_leaves_file (w : World) (v : value) :
  stored w = Some v →
  ∃ (d : TrackerState) (w' : World),
    read w = (Return d, w')
    ∧ workspaceFolder w' = workspaceFolder w
    ∧ writes w' = writes w
    ∧ ((∀ props, v ≠ VObj props) →
       revision d = Finite 1 ∧ tasks d = [] ∧ messages d = [])
    ∧ (∀ u : string, property v "updatedAt" = VStr u →
       w' = w ∧ read w' = (Return d, w')).
Proof.
  intros Hs. rewrite (read_stored _ _ Hs). eexists _, _.
  split; [reflexivity|].
  split; [apply folder_afterNormalize|].
  split; [apply writes_afterNormalize|].
  split.
  - intros Hno. destruct v; try done. by destruct (Hno props).
  - intros u Hu. unfold afterNormalize. rewrite Hu. split; [reflexivity|].
    rewrite (read_stored _ _ Hs). unfold afterNormalize, normalized.
    by rewrite Hu.
Qed.

Lemma read_decodable_leaves_file_witness :
  ∃ (d : TrackerState) (w' : World),
    read (worldWith (Some (folderWith (VArr [])))) = (Return d, w')
    ∧ workspaceFolder w' = Some (folderWith (VArr []))
    ∧ tasks d = [].
Proof.
  destruct (read_decodable_leaves_file
              (worldWith (Some (folderWith (VArr [])))) (VArr []) eq_refl)
    as (d & w' & Hrun & Hf & _ & Hshape & _).
  exists d, w'. split; [exact Hrun|]. split; [exact Hf|].
  destruct (Hshape ltac:(discriminate)) as (_ & Ht & _). exact Ht.
Defined.

(** X4. Recovery happens once. After a [read] that recovered a missing or
    malformed file, the file decodes: a second [read] returns the seed
    document with the revision, tasks and messages of the first, stamped with
    the clock reading of the recovery write, and changes nothing. *)
Theorem read_recovery_is_stable (w : World) :
  stored w = None →
  canWrite w = true →
  ∃ (d d' : TrackerState) (w1 : World),
    read w = (Return d, w1)
    ∧ read w1 = (Return d', w1)
    ∧ revision d' = revision d
    ∧ tasks d' = tasks d
    ∧ messages d' = messages d
    ∧ updatedAt d' = reading (tick w).
Proof.
  intros Hs Hw. rewrite (read_recovery _ Hs), Hw.
  eexists _, _, _. split; [reflexivity|].
  split.
  - rewrite (read_committed _ 1) by reflexivity. reflexivity.
  - by repeat split.
Qed.

Lemma read_recovery_is_stable_witness :
  ∃ (d d' : TrackerState) (w1 : World),
    read (worldWith (Some emptyFolder)) = (Return d, w1)
    ∧ read w1 = (Return d', w1)
    ∧ updatedAt d' = "2026-02-18T18:00:00.001Z".
Proof.
  destruct (read_recovery_is_stable (worldWith (Some emptyFolder))
              eq_refl eq_refl) as (d & d' & w1 & H1 & H2 & _ & _ & _ & Hu).
  exists d, d', w1. split; [exact H1|]. split; [exact H2 | exact Hu].
Defined.

Lemma openStateFile_run (w : World) (v : value) :
  stored w = Some v →
  canWrite w = true →
  let w0 := afterNormalize v w in
  let d := with_updatedAt (normalized v (reading w)) (reading w0) in
  openStateFile w = (Return (), committed (state_object d) (tick w0)).
Proof.
  intros Hs Hw w0 d. unfold openStateFile.
  rewrite bind_run, ensure_bound by (by eapply stored_bound).
  cbv beta iota. cbn [negb]. rewrite bind_run, (read_stored _ _ Hs).
  cbv beta iota. rewrite bind_run.
  destruct (revision_normalized v (reading w)) as [z Hz].
  rewrite (write_state _ z);
    [| exact Hz | unfold canWrite; by rewrite folder_afterNormalize].
  reflexivity.
Qed.

(** X5. [openStateFile] on a file that decodes writes once: the file then holds
    a document with the revision that was read (not incremented),
    the JSON images of the tasks and messages that were read, and a fresh
    [updatedAt]. *)
Theorem openStateFile_rewrites_normalized (w : World) (v : value) :
  stored w = Some v →
  canWrite w = true →
  ∃ (state : TrackerState) (w0 w' : World) (doc : value),
    read w = (Return state, w0)
    ∧ openStateFile w = (Return (), w')
    ∧ writes w' = doc :: writes w
    ∧ stored w' = Some doc
    ∧ property doc "revision" = VNum (revision state)
    ∧ property doc "tasks" = VArr (to_json <$> tasks state)
    ∧ property doc "messages" = VArr (to_json <$> messages state)
    ∧ ∃ stamp : string, property doc "updatedAt" = VStr stamp.
Proof.
  intros Hs Hw. rewrite (read_stored _ _ Hs), (openStateFile_run _ _ Hs Hw).
  destruct (revision_normalized v (reading w)) as [z Hz].
  set (d := with_updatedAt (normalized v (reading w))
              (reading (afterNormalize v w))).
  exists (normalized v (reading w)), (afterNormalize v w),
    (committed (state_object d) (tick (afterNormalize v w))),
    (to_json (state_object d)).
  split; [reflexivity|]. split; [reflexivity|].
  split; [cbn [writes committed tick]; by rewrite writes_afterNormalize|].
  split; [apply stored_committed|].
  rewrite (to_json_state d z) by exact Hz.
  split; [by rewrite Hz|].
  split; [reflexivity|]. split; [reflexivity|]. by eexists.
Qed.

Lemma openStateFile_rewrites_normalized_witness :
  ∃ (w' : World) (doc : value),
    openStateFile (worldWith (Some (folderWith pendingDocument))) = (Return (), w')
    ∧ stored w' = Some doc
    ∧ property doc "revision" = VNum (Finite 5).
Proof.
  destruct (openStateFile_rewrites_normalized
              (worldWith (Some (folderWith pendingDocument))) pendingDocument
              eq_refl eq_refl)
    as (state & w0 & w' & doc & Hread & Hrun & _ & Hs & Hrev & _).
  exists w', doc. split; [exact Hrun|]. split; [exact Hs|].
  rewrite read_stored with (v := pendingDocument) in Hread by reflexivity.
  injection Hread as <- _. exact Hrev.
Defined.

(** X6. Declining the seed operation changes nothing: when a folder is open and
    the operator dismisses the confirmation, or answers anything but
    "Replace", [seedRoadmap] leaves the world exactly as it was. *)
Theorem seedRoadmap_declined (op : Operator) (w : World) :
  is_Some (workspaceFolder w) →
  confirm op ≠ Some "Replace" →
  seedRoadmap op w = (Return (), w).
Proof.
  intros Hb Hc. unfold seedRoadmap.
  rewrite bind_run, ensure_bound by done. cbv beta iota. cbn [negb].
  destruct (confirm op) as [s|]; [|reflexivity].
  assert (Hs : s ≠ "Replace") by congruence. clear Hc.
  repeat (match goal with
          | |- context [match ?x with EmptyString => _ | String _ _ => _ end] =>
              destruct x as [|[[] [] [] [] [] [] [] []] ?]; try reflexivity
          end).
  all: by destruct Hs.
Qed.

Lemma seedRoadmap_declined_witness :
  seedRoadmap cancelling (worldWith (Some (folderWith pendingDocument)))
  = (Return (), worldWith (Some (folderWith pendingDocument))).
Proof.
  apply seedRoadmap_declined.
  - by eexists.
  - discriminate.
Defined.

Lemma ensure_unbound (w : World) :
  workspaceFolder w = None →
  ensureWorkspaceBinding w = (Return false, w).
Proof. intros H. unfold ensureWorkspaceBinding. by rewrite H. Qed.

Lemma pushState_unbound (w : World) :
  workspaceFolder w = None →
  pushState w = (Return (), posting (InfoMessage noFolderAdvice) w).
Proof.
  intros H. unfold pushState. by rewrite bind_run, ensure_unbound.
Qed.

Lemma saveFromWebview_unbound (payload : value) (w : World) :
  workspaceFolder w = None →
  saveFromWebview payload w
  = (Return (),
     posting (InfoMessage "Open a workspace folder to persist tracker state.") w).
Proof.
  intros H. unfold saveFromWebview. by rewrite bind_run, ensure_unbound.
Qed.

Lemma process_unbound (op : Operator) (w : World) :
  workspaceFolder w = None →
  processHumanMessages op w = (Return (), showing noFolderAdvice w).
Proof.
  intros H. unfold processHumanMessages. by rewrite bind_run, ensure_unbound.
Qed.

Lemma seedRoadmap_unbound (op : Operator) (w : World) :
  workspaceFolder w = None →
  seedRoadmap op w = (Return (), showing noFolderAdvice w).
Proof.
  intros H. unfold seedRoadmap. by rewrite bind_run, ensure_unbound.
Qed.

Lemma openStateFile_unbound (w : World) :
  workspaceFolder w = None →
  openStateFile w = (Return (), showing noFolderAdvice w).
Proof.
  intros H. unfold openStateFile. by rewrite bind_run, ensure_unbound.
Qed.

(** The dispatch of [handleMessage], by the [type] of the message. *)
Lemma handleMessage_dispatch (msg : value) (op : Operator) (w : World) :
  handleMessage msg op w
  = let type := property msg "type" in
    if negb (truthy type) then (Return (), w)
    else if is_literal type "requestState" then pushState w
    else if is_literal type "saveState"
         then saveFromWebview (property msg "payload") w
    else if is_literal type "openStateFile" then openStateFile w
    else if is_literal type "processHumanMessages" then processHumanMessages op w
    else if is_literal type "seedRoadmap" then seedRoadmap op w
    else (Return (), w).
Proof.
  unfold handleMessage. cbv zeta.
  rewrite bind_run. unfold lift at 1. rewrite get_nullish. cbv beta iota.
  destruct (negb (truthy (property msg "type"))); [reflexivity|].
  destruct (is_literal _ "requestState"); [reflexivity|].
  destruct (is_literal _ "saveState").
  { rewrite bind_run. unfold lift at 1. by rewrite get_nullish. }
  destruct (is_literal _ "openStateFile"); [reflexivity|].
  destruct (is_literal _ "processHumanMessages"); [reflexivity|].
  destruct (is_literal _ "seedRoadmap"); reflexivity.
Qed.

(** X7. Without a workspace folder no operation writes or throws: any message
    handled by [handleMessage] leaves the world as it was or adds one
    advisory, and the message-processing, seed and open-file commands each
    only show an advisory. The refresh hands its advisory to the view: it is
    posted when the sidebar view has been resolved and dropped before, and
    nothing else changes. *)
Theorem unbound_workspace_only_advises (msg : value) (op : Operator) (w : World) :
  workspaceFolder w = None →
  (∃ w' : World,
     handleMessage msg op w = (Return (), w')
     ∧ (w' = w
        ∨ (∃ text, w' = showing text w)
        ∨ (∃ text, w' = posting (InfoMessage text) w)))
  ∧ (∃ (text : string) (w' : World),
       pushState w = (Return (), w')
       ∧ workspaceFolder w' = None
       ∧ writes w' = writes w
       ∧ notices w' = notices w
       ∧ posted w'
         = if viewResolved w then InfoMessage text :: posted w else posted w)
  ∧ (∃ text, processHumanMessages op w = (Return (), showing text w))
  ∧ (∃ text, seedRoadmap op w = (Return (), showing text w))
  ∧ (∃ text, openStateFile w = (Return (), showing text w)).
Proof.
  intros H. split; [|split].
  2:{ rewrite pushState_unbound by done. eexists _, _.
      split; [reflexivity|]. by repeat split. }
  - rewrite handleMessage_dispatch. cbv zeta.
    destruct (negb _); [eauto|].
    destruct (is_literal _ "requestState");
      [rewrite pushState_unbound by done; eauto 6|].
    destruct (is_literal _ "saveState");
      [rewrite saveFromWebview_unbound by done; eauto 6|].
    destruct (is_literal _ "openStateFile");
      [rewrite openStateFile_unbound by done; eauto 6|].
    destruct (is_literal _ "processHumanMessages");
      [rewrite process_unbound by done; eauto 6|].
    destruct (is_literal _ "seedRoadmap");
      [rewrite seedRoadmap_unbound by done; eauto 6|eauto].
  - rewrite process_unbound, seedRoadmap_unbound,
      openStateFile_unbound by done. eauto 10.
Qed.

Lemma unbound_workspace_only_advises_witness :
  (∃ text : string,
     processHumanMessages cancelling (worldWith None)
     = (Return (), showing text (worldWith None)))
  ∧ (∃ w' : World,
       pushState (beforeView (worldWith None)) = (Return (), w')
       ∧ posted w' = []).
Proof.
  split.
  - destruct (unbound_workspace_only_advises VUndefined cancelling
                (worldWith None) eq_refl) as (_ & _ & H & _).
    exact H.
  - destruct (unbound_workspace_only_advises VUndefined cancelling
                (beforeView (worldWith None)) eq_refl)
      as (_ & (text & w' & Hrun & _ & _ & _ & Hposted) & _).
    exists w'. split; [exact Hrun | exact Hposted].
Defined.

(** X8. [handleMessage] ignores a message whose [type] is none of the five it
    knows (or is missing): the world is left exactly as it was, whatever the
    workspace. *)
Theorem handleMessage_ignores_unknown (msg : value) (op : Operator) (w : World) :
  (∀ t : string, t ∈ knownTypes → property msg "type" ≠ VStr t) →
  handleMessage msg op w = (Return (), w).
Proof.
  intros Hun. rewrite handleMessage_dispatch. cbv zeta.
  destruct (negb _); [reflexivity|].
  rewrite !is_literal_false; [reflexivity|..];
    apply Hun; unfold knownTypes; repeat constructor.
Qed.

Lemma handleMessage_ignores_unknown_witness :
  handleMessage (VObj [("type", VStr "ping")]) cancelling
    (worldWith (Some (folderWith pendingDocument)))
  = (Return (), worldWith (Some (folderWith pendingDocument))).
Proof.
  apply handleMessage_ignores_unknown.
  intros t Ht. unfold knownTypes in Ht.
  repeat (apply elem_of_cons in Ht as [-> | Ht]; [discriminate|]).
  by apply elem_of_nil in Ht.
Defined.

(** X9. A [saveState] message whose payload is missing or falsy is rejected with
    the advisory "Invalid state payload from dashboard.": nothing is written
    and nothing else changes. *)
Theorem save_without_payload (msg : value) (op : Operator) (w : World) :
  is_Some (workspaceFolder w) →
  property msg "type" = VStr "saveState" →
  truthy (property msg "payload") = false →
  handleMessage msg op w
  = (Return (), posting (InfoMessage "Invalid state payload from dashboard.") w).
Proof.
  intros Hb Ht Hp. rewrite handleMessage_dispatch. cbv zeta. rewrite Ht.
  cbn [truthy negb String.eqb]. change (is_literal (VStr "saveState") "requestState") with false.
  change (is_literal (VStr "saveState") "saveState") with true. cbv iota.
  unfold saveFromWebview. rewrite bind_run, ensure_bound by done.
  cbv beta iota. cbn [negb]. by rewrite Hp.
Qed.

Lemma save_without_payload_witness :
  handleMessage (VObj [("type", VStr "saveState")]) cancelling
    (worldWith (Some (folderWith pendingDocument)))
  = (Return (),
     posting (InfoMessage "Invalid state payload from dashboard.")
       (worldWith (Some (folderWith pendingDocument)))).
Proof.
  apply save_without_payload.
  - by eexists.
  - reflexivity.
  - reflexivity.
Defined.

Lemma saveFromWebview_run (payload : value) (w : World) :
  canWrite w = true →
  truthy payload = true →
  saveFromWebview payload w
  = (Return (),
     posting (StateMessage (written payload w))
       (committed (state_object (written payload w))
          (tick (afterNormalize payload w)))).
Proof.
  intros Hw Hp. unfold saveFromWebview.
  rewrite bind_run, ensure_bound by (by apply canWrite_bound).
  cbv beta iota. cbn [negb]. rewrite Hp. cbn [negb].
  by rewrite bind_run, write_run, Hw.
Qed.

(** X10. A save overwrites whatever is stored: for a truthy payload the file
    written by [saveFromWebview] depends on the payload and the clock only,
    not on the file it replaces. A truthy payload that is not an object is
    stored as the empty document at revision 1. *)
Theorem save_overwrites (payload : value) (w1 w2 : World) :
  canWrite w1 = true →
  canWrite w2 = true →
  clock w1 = clock w2 →
  ticks w1 = ticks w2 →
  truthy payload = true →
  ∃ (w1' w2' : World) (doc : value),
    saveFromWebview payload w1 = (Return (), w1')
    ∧ saveFromWebview payload w2 = (Return (), w2')
    ∧ stored w1' = Some doc
    ∧ stored w2' = Some doc
    ∧ ((∀ props, payload ≠ VObj props) →
       property doc "revision" = VNum (Finite 1)
       ∧ property doc "tasks" = VArr []
       ∧ property doc "messages" = VArr []).
Proof.
  intros H1 H2 Hc Ht Hp.
  rewrite !saveFromWebview_run by done.
  assert (Hsame : written payload w1 = written payload w2).
  { unfold written, reading, afterNormalize.
    destruct (property payload "updatedAt"); cbn; by rewrite Hc, Ht. }
  eexists _, _, (to_json (state_object (written payload w1))).
  split; [reflexivity|]. split; [reflexivity|].
  split; [reflexivity|].
  split; [rewrite Hsame; reflexivity|].
  intros Hno.
  assert (Hprop : ∀ k, property payload k = VUndefined).
  { intros k. destruct payload as [| | | | | |ps]; try reflexivity.
    by destruct (Hno ps). }
  unfold written, normalized. rewrite !Hprop. by repeat split.
Qed.

Lemma save_overwrites_witness :
  ∃ (w1' w2' : World) (doc : value),
    saveFromWebview (VBool true) (worldWith (Some emptyFolder)) = (Return (), w1')
    ∧ saveFromWebview (VBool true) (worldWith (Some (folderWith pendingDocument)))
      = (Return (), w2')
    ∧ stored w1' = Some doc
    ∧ stored w2' = Some doc
    ∧ property doc "messages" = VArr [].
Proof.
  destruct (save_overwrites (VBool true) (worldWith (Some emptyFolder))
              (worldWith (Some (folderWith pendingDocument)))
              eq_refl eq_refl eq_refl eq_refl eq_refl)
    as (w1' & w2' & doc & H1 & H2 & S1 & S2 & Hshape).
  exists w1', w2', doc. split; [exact H1|]. split; [exact H2|].
  split; [exact S1|]. split; [exact S2|].
  destruct (Hshape ltac:(discriminate)) as (_ & _ & Hm). exact Hm.
Defined.

(** X11. A [null] (or [undefined]) element in the stored messages array makes the
    workflow reject with a TypeError while it filters, before any prompt:
    nothing is written, shown or posted. *)
Theorem processHumanMessages_rejects_null (op : Operator) (w : World) (v : value) :
  stored w = Some v →
  VNull ∈ messagesOf v ∨ VUndefined ∈ messagesOf v →
  ∃ w' : World,
    processHumanMessages op w = (Throw TypeError, w')
    ∧ workspaceFolder w' = workspaceFolder w
    ∧ writes w' = writes w
    ∧ notices w' = notices w
    ∧ posted w' = posted w.
Proof.
  intros Hs Hnull. unfold processHumanMessages.
  rewrite bind_run, ensure_bound by (by eapply stored_bound).
  cbv beta iota. cbn [negb]. rewrite bind_run, (read_stored _ _ Hs).
  cbv beta iota. rewrite bind_run.
  change (messages (normalized v (reading w))) with (messagesOf v).
  unfold lift at 1. rewrite (filterPending_nullish _ _ Hnull).
  eexists. split; [reflexivity|].
  split; [apply folder_afterNormalize|].
  split; [apply writes_afterNormalize|].
  split; [apply notices_afterNormalize | apply posted_afterNormalize].
Qed.

Lemma processHumanMessages_rejects_null_witness :
  ∃ w' : World,
    processHumanMessages (answering 0 "Start with M1")
      (worldWith (Some (folderWith nullDocument)))
    = (Throw TypeError, w')
    ∧ writes w' = [].
Proof.
  destruct (processHumanMessages_rejects_null (answering 0 "Start with M1")
              (worldWith (Some (folderWith nullDocument))) nullDocument
              eq_refl (or_introl (list_elem_of_here VNull [])))
    as (w' & Hrun & _ & Hw & _).
  exists w'. split; [exact Hrun | exact Hw].
Defined.

(** The lookup by id stops at the first pending message with that id. *)
Lemma findSource_first (pending : list (nat * value)) :
  Forall (λ e, ∃ props, e.2 = VObj props) pending →
  ∀ (ids : list string) (i : string) (j : nat) (entry : nat * value)
    (pick : QuickPickItem),
    idsOf pending = VStr <$> ids →
    id pick = VStr i →
    ids !! j = Some i →
    (∀ j' : nat, (j' < j)%nat → ids !! j' ≠ Some i) →
    pending !! j = Some entry →
    findSource pending pick = Return (Some entry).
Proof.
  induction 1 as [|[ref m] rest [props Hm] _ IH];
    intros ids i j entry pick Hids Hid Hj Hfirst Hentry.
  - discriminate.
  - cbn in Hm; subst m.
    destruct ids as [|i0 ids]; [discriminate|].
    unfold idsOf in Hids. rewrite !fmap_cons in Hids.
    injection Hids as Hi Hrest. cbn in Hi.
    cbn [findSource get mbind outcome_bind]. rewrite Hid, Hi.
    rewrite strict_equal_strings.
    destruct j as [|j].
    + cbn in Hj, Hentry. injection Hj as ->. injection Hentry as <-.
      by rewrite bool_decide_true.
    + rewrite bool_decide_false.
      2:{ intros ->. apply (Hfirst 0%nat); [lia|reflexivity]. }
      apply (IH ids i j); try done.
      intros j' Hlt. apply (Hfirst (S j')). lia.
Qed.

(** The positions [filterPending] returns increase. *)
Lemma filterPending_increasing (msgs : list value) :
  ∀ (i : nat) (pending : list (nat * value)) (j k : nat) (a b : nat * value),
    filterPending msgs i = Return pending →
    (j < k)%nat → pending !! j = Some a → pending !! k = Some b →
    (a.1 < b.1)%nat.
Proof.
  induction msgs as [|m rest IH]; intros i pending j k a b Hp Hjk Ha Hb.
  - cbn in Hp. injection Hp as <-. discriminate.
  - cbn in Hp.
    destruct (isPending m) as [keep|] eqn:Hkeep; cbn in Hp; [|discriminate].
    destruct (filterPending rest (S i)) as [kept|] eqn:Hkept; cbn in Hp;
      [|discriminate].
    injection Hp as <-.
    destruct keep; [|by eapply IH].
    destruct j as [|j]; destruct k as [|k]; try lia; cbn in Ha, Hb.
    + injection Ha as <-. cbn.
      pose proof (filterPending_sound _ _ _ Hkept) as Hs.
      destruct (proj1 (Forall_lookup _ _) Hs _ _ Hb) as (Hle & _). lia.
    + eapply (IH (S i) kept j k); eauto. lia.
Qed.

(** X12. The workflow resolves the first pending message whose id is the id of
    the picked item. With string ids, if the first pending message carrying
    the picked id is entry [j], the written document has that message
    resolved and the reply answers that id; when [j] is not the picked entry
    the picked message itself is left as it was read, still pending. *)
Theorem processHumanMessages_resolves_first_with_id (op : Operator) (w : World)
    (v : value) (pending : list (nat * value)) (ids : list string)
    (k j : nat) (i : string) (picked : nat * value)
    (ref : nat) (source : value) (response : string) :
  stored w = Some v →
  canWrite w = true →
  filterPending (messagesOf v) 0 = Return pending →
  idsOf pending = VStr <$> ids →
  quickPick op = Some k →
  pending !! k = Some picked →
  ids !! k = Some i →
  ids !! j = Some i →
  (∀ j' : nat, (j' < j)%nat → ids !! j' ≠ Some i) →
  pending !! j = Some (ref, source) →
  inputBox op = Some response →
  response ≠ "" →
  ∃ (d : TrackerState) (w' : World) (resolved reply : value),
    processHumanMessages op w = (Return (), w')
    ∧ stored w' = Some (to_json (state_object d))
    ∧ messagesOf v !! ref = Some source
    ∧ messages d = (<[ref := resolved]> (messagesOf v) ++ [reply])%list
    ∧ property resolved "resolved" = VBool true
    ∧ property reply "inReplyTo" = VStr i
    ∧ (j ≠ k →
       messages d !! picked.1 = Some picked.2 ∧ pendingMessage picked.2).
Proof.
  intros Hs Hw Hp Hids Hq Hk Hik Hij Hfirst Hj Hin Hne.
  pose proof (filterPending_sound _ _ _ Hp) as Hsound.
  pose proof (filterPending_objects _ _ Hp) as Hobj.
  destruct (proj1 (Forall_lookup _ _) Hsound _ _ Hj)
    as (_ & Hat & (props & Hprops) & _).
  cbn in Hat, Hprops. rewrite Nat.sub_0_r in Hat. subst source.
  destruct (proj1 (Forall_lookup _ _) Hsound _ _ Hk)
    as (_ & Hpat & _ & Hppending).
  rewrite Nat.sub_0_r in Hpat.
  pose proof (idsOf_lookup _ _ _ _ _ Hids Hk Hik) as Hpid.
  pose proof (idsOf_lookup _ _ _ _ _ Hids Hj Hij) as Hsid. cbn in Hsid.
  assert (Hfind : findSource pending (itemFor picked)
                  = Return (Some (ref, VObj props))).
  { by apply (findSource_first pending Hobj ids i j). }
  rewrite (process_reply_run op w v pending k picked ref props response)
    by done.
  cbv zeta.
  set (w0 := afterNormalize v w).
  set (d := repliedDocument (normalized v (reading w)) w0 ref props response).
  eexists d, _, (resolvedMessage props),
    (message_object (replyMessage w0 (resolvedMessage props) response)).
  split; [reflexivity|].
  split.
  { unfold stored. cbn [workspaceFolder posting].
    by rewrite folder_afterNormalize. }
  split; [exact Hat|]. split; [reflexivity|].
  split; [cbn; by rewrite assign_same|].
  split.
  { cbn. rewrite assign_other by done. exact Hsid. }
  intros Hjk. split; [|exact Hppending].
  assert (Hrefs : ref ≠ picked.1).
  { destruct (decide (j < k)%nat) as [Hlt|Hge].
    - pose proof (filterPending_increasing _ _ _ _ _ _ _ Hp Hlt Hj Hk). cbn in *. lia.
    - assert (Hlt : (k < j)%nat) by lia. by destruct (Hfirst k Hlt). }
  cbn [messages d repliedDocument].
  change (messages (normalized v (reading w))) with (messagesOf v).
  rewrite lookup_app_l
    by (rewrite length_insert; by eapply lookup_lt_Some).
  by rewrite list_lookup_insert_ne.
Qed.

Lemma processHumanMessages_resolves_first_with_id_witness :
  ∃ (d : TrackerState) (w' : World),
    processHumanMessages (answering 1 "Start with M1")
      (worldWith (Some (folderWith duplicateDocument)))
    = (Return (), w')
    ∧ stored w' = Some (to_json (state_object d))
    ∧ messages d !! 1%nat = Some (question "msg-q" "Second")
    ∧ pendingMessage (question "msg-q" "Second").
Proof.
  destruct (processHumanMessages_resolves_first_with_id
              (answering 1 "Start with M1")
              (worldWith (Some (folderWith duplicateDocument))) duplicateDocument
              [(0%nat, question "msg-q" "First"); (1%nat, question "msg-q" "Second")]
              ["msg-q"; "msg-q"] 1 0 "msg-q" (1%nat, question "msg-q" "Second")
              0 (question "msg-q" "First") "Start with M1"
              eq_refl eq_refl eq_refl eq_refl eq_refl eq_refl eq_refl eq_refl
              ltac:(intros j' Hj'; lia) eq_refl eq_refl ltac:(discriminate))
    as (d & w' & resolved & reply & Hrun & Hs & _ & _ & _ & _ & Hpicked).
  exists d, w'. split; [exact Hrun|]. split; [exact Hs|].
  exact (Hpicked ltac:(discriminate)).
Defined.

Lemma isPending_resolved (props : list (string * value)) :
  isPending (resolvedMessage props) = Return false.
Proof.
  unfold isPending, resolvedMessage. cbn [get mbind outcome_bind].
  destruct (is_literal _ "human"); [|reflexivity].
  destruct (is_literal _ "ai"); [|reflexivity].
  by rewrite assign_same.
Qed.

Lemma filterPending_app_not_pending (msgs : list value) (x : value) :
  isPending x = Return false →
  ∀ i : nat, filterPending (msgs ++ [x]) i = filterPending msgs i.
Proof.
  intros Hx. induction msgs as [|m rest IH]; intros i; cbn.
  - by rewrite Hx.
  - by rewrite IH.
Qed.

(** Replacing a pending message by one that is not pending removes it, and
    only it, from what the filter returns. *)
Lemma filterPending_resolve (msgs : list value) (new : value) :
  isPending new = Return false →
  ∀ (i : nat) (pending : list (nat * value)) (k ref : nat) (source : value),
    filterPending msgs i = Return pending →
    pending !! k = Some (ref, source) →
    filterPending (<[(ref - i)%nat := new]> msgs) i = Return (delete k pending).
Proof.
  intros Hnew. induction msgs as [|m rest IH];
    intros i pending k ref source Hp Hk.
  - cbn in Hp. injection Hp as <-. discriminate.
  - cbn in Hp.
    destruct (isPending m) as [keep|] eqn:Hkeep; cbn in Hp; [|discriminate].
    destruct (filterPending rest (S i)) as [kept|] eqn:Hkept; cbn in Hp;
      [|discriminate].
    injection Hp as <-.
    pose proof (filterPending_sound _ _ _ Hkept) as Hs.
    assert (Hstep : ∀ k', kept !! k' = Some (ref, source) →
              filterPending (<[(ref - i)%nat := new]> (m :: rest)) i
              = (kept' ← Return (delete k' kept);
                 mret (if keep then (i, m) :: kept' else kept'))).
    { intros k' Hk'.
      destruct (proj1 (Forall_lookup _ _) Hs _ _ Hk') as (Hle & _). cbn in Hle.
      replace (ref - i)%nat with (S (ref - S i)) by lia.
      pose proof (IH (S i) kept k' ref source Hkept Hk') as Hrest.
      set (n := (ref - S i)%nat) in *.
      change (<[S n := new]> (m :: rest)) with (m :: <[n := new]> rest).
      cbn [filterPending]. rewrite Hkeep. cbn [mbind outcome_bind].
      by rewrite Hrest. }
    destruct keep.
    + destruct k as [|k]; cbn in Hk.
      * injection Hk as <- <-. rewrite Nat.sub_diag. cbn.
        by rewrite Hnew, Hkept.
      * by rewrite (Hstep k Hk).
    + by rewrite (Hstep k Hk).
Qed.

(** X13. A successful run consumes the picked message: in the document the
    workflow writes, the pending messages are those that were read without
    the picked one (the resolved message and the reply are not pending), so
    one fewer. *)
Theorem processHumanMessages_consumes_pending (op : Operator) (w : World)
    (v : value) (pending : list (nat * value)) (ids : list string)
    (k ref : nat) (source : value) (response : string) :
  stored w = Some v →
  canWrite w = true →
  filterPending (messagesOf v) 0 = Return pending →
  idsOf pending = VStr <$> ids →
  NoDup ids →
  quickPick op = Some k →
  pending !! k = Some (ref, source) →
  inputBox op = Some response →
  response ≠ "" →
  ∃ (d : TrackerState) (w' : World),
    processHumanMessages op w = (Return (), w')
    ∧ stored w' = Some (to_json (state_object d))
    ∧ filterPending (messages d) 0 = Return (delete k pending)
    ∧ S (length (delete k pending)) = length pending.
Proof.
  intros Hs Hw Hp Hids Hnd Hq Hk Hin Hne.
  pose proof (filterPending_sound _ _ _ Hp) as Hsound.
  pose proof (filterPending_objects _ _ Hp) as Hobj.
  destruct (proj1 (Forall_lookup _ _) Hsound _ _ Hk)
    as (_ & _ & (props & Hprops) & _).
  cbn in Hprops. subst source.
  assert (Hfind : findSource pending (itemFor (ref, VObj props))
                  = Return (Some (ref, VObj props))).
  { by apply (findSource_unique pending ids Hobj Hids Hnd k). }
  rewrite (process_reply_run op w v pending k (ref, VObj props) ref props response)
    by done.
  cbv zeta. eexists _, _. split; [reflexivity|].
  split.
  { unfold stored. cbn [workspaceFolder posting].
    by rewrite folder_afterNormalize. }
  split.
  - cbn [messages repliedDocument].
    change (messages (normalized v (reading w))) with (messagesOf v).
    rewrite filterPending_app_not_pending by reflexivity.
    pose proof (filterPending_resolve (messagesOf v) (resolvedMessage props)
                  (isPending_resolved props) 0 pending k ref (VObj props) Hp Hk)
      as H.
    by rewrite Nat.sub_0_r in H.
  - rewrite length_delete by eauto. apply lookup_lt_Some in Hk. lia.
Qed.

Lemma processHumanMessages_consumes_pending_witness :
  ∃ (d : TrackerState) (w' : World),
    processHumanMessages (answering 0 "Start with M1")
      (worldWith (Some (folderWith pendingDocument)))
    = (Return (), w')
    ∧ filterPending (messages d) 0 = Return [].
Proof.
  destruct (processHumanMessages_consumes_pending
              (answering 0 "Start with M1")
              (worldWith (Some (folderWith pendingDocument))) pendingDocument
              [(0%nat, question "msg-q1" "Order of work")] ["msg-q1"]
              0 0 (question "msg-q1" "Order of work") "Start with M1"
              eq_refl eq_refl eq_refl eq_refl (NoDup_singleton "msg-q1")
              eq_refl eq_refl eq_refl ltac:(discriminate))
    as (d & w' & Hrun & _ & Hp & _).
  exists d, w'. split; [exact Hrun | exact Hp].
Defined.

Lemma get_readable (v : value) (k : string) :
  readable v → get v k = Return (property v k).
Proof. intros [Hu Hn]. by destruct v. Qed.

Lemma get_unreadable (v : value) (k : string) :
  ¬ readable v → get v k = Throw TypeError.
Proof.
  intros H. destruct v; try reflexivity; destruct H; split; discriminate.
Qed.

Lemma readable_cases (v : value) :
  readable v ∨ (v = VUndefined ∨ v = VNull).
Proof. destruct v; auto; left; split; discriminate. Qed.

Lemma readable_object (props : list (string * value)) : readable (VObj props).
Proof. split; discriminate. Qed.

Lemma hasId_object (id : string) (v : value) :
  hasId id v → ∃ props, v = VObj props.
Proof. unfold hasId. destruct v; try discriminate. eauto. Qed.

Lemma is_literal_id (v : value) (id : string) :
  is_literal (property v "id") id = true ↔ hasId id v.
Proof.
  unfold hasId. split.
  - apply is_literal_true.
  - intros ->. unfold is_literal. by rewrite strict_equal_strings, bool_decide_true.
Qed.

Lemma assign_assign (props : list (string * value)) (k : string) (x y : value) :
  assign (assign props k x) k y = assign props k y.
Proof.
  induction props as [|[k' v'] rest IH]; cbn.
  - by rewrite String.eqb_refl.
  - destruct (String.eqb k' k) eqn:E; cbn.
    + by rewrite String.eqb_refl.
    + by rewrite E, IH.
Qed.

(** *** The owner swap *)

Lemma swapOwner_run (props : list (string * value)) :
  swapOwner (VObj props)
  = Return (VObj (assign props "owner"
                    (if is_literal (property (VObj props) "owner") "human"
                     then VStr "ai" else VStr "human"))).
Proof. reflexivity. Qed.

(** X14. The owner swap is an involution on tasks owned by human or ai: it sets
    the other owner, changes no other property, and a second swap gives back
    the task as it was. *)
Theorem swapOwner_involution (props : list (string * value)) (owner : TaskOwner) :
  own props "owner" = Some (VStr (owner_name owner)) →
  ∃ t : value,
    swapOwner (VObj props) = Return t
    ∧ property t "owner"
      = VStr (owner_name (match owner with Human => Ai | Ai => Human end))
    ∧ (∀ key : string, key ≠ "owner" → property t key = property (VObj props) key)
    ∧ swapOwner t = Return (VObj props).
Proof.
  intros Ho. rewrite swapOwner_run. eexists. split; [reflexivity|].
  cbn [property]. rewrite Ho. cbn [default from_option].
  split; [rewrite assign_same; by destruct owner|].
  split; [intros key Hk; by rewrite assign_other|].
  rewrite swapOwner_run. cbn [property]. rewrite assign_same.
  cbn [default from_option]. rewrite assign_assign.
  f_equal. f_equal. apply assign_id. rewrite Ho. by destruct owner.
Qed.

Lemma swapOwner_involution_witness :
  ∃ t : value,
    swapOwner todoTask = Return t
    ∧ property t "owner" = VStr "ai"
    ∧ swapOwner t = Return todoTask.
Proof.
  destruct (swapOwner_involution
              [("id", VStr "task-1"); ("title", VStr "Write the parser");
               ("owner", VStr "human"); ("lane", VStr "todo");
               ("status", VStr "todo")] Human eq_refl)
    as (t & Hrun & Ho & _ & Hback).
  exists t. split; [exact Hrun|]. split; [exact Ho | exact Hback].
Defined.

(** *** The block toggle *)

(** X15. Blocking and unblocking is a round trip exactly when the task's status
    was the one the unblock branch computes: done in lane done, progress in
    any other lane. The first toggle sets status blocked and keeps the lane,
    the second gives back the task as it was. *)
Theorem toggleBlock_round_trip (props : list (string * value)) (lane status : string) :
  own props "lane" = Some (VStr lane) →
  own props "status" = Some (VStr status) →
  status = (if String.eqb lane "done" then "done" else "progress") →
  ∃ blocked : value,
    toggleBlock (VObj props) = Return blocked
    ∧ property blocked "status" = VStr "blocked"
    ∧ property blocked "lane" = VStr lane
    ∧ toggleBlock blocked = Return (VObj props).
Proof.
  intros Hl Hs Hst. rewrite toggleBlock_run. eexists. split; [reflexivity|].
  assert (Hnb : is_literal (property (VObj props) "status") "blocked" = false).
  { cbn [property]. rewrite Hs. cbn [default from_option].
    apply is_literal_false. intros [= ->]. by destruct (String.eqb lane "done"). }
  rewrite Hnb.
  split; [cbn [property]; by rewrite assign_same|].
  split; [cbn [property]; rewrite assign_other by done; by rewrite Hl|].
  rewrite toggleBlock_run. cbn [property]. rewrite assign_same.
  rewrite assign_other by done. rewrite Hl.
  rewrite assign_assign. f_equal. f_equal. apply assign_id.
  rewrite Hs, Hst. cbn.
  by destruct (String.eqb lane "done").
Qed.

Lemma toggleBlock_round_trip_witness :
  ∃ blocked : value,
    toggleBlock progressTask = Return blocked
    ∧ property blocked "status" = VStr "blocked"
    ∧ toggleBlock blocked = Return progressTask.
Proof.
  destruct (toggleBlock_round_trip
              [("id", VStr "task-2"); ("title", VStr "Review the parser");
               ("owner", VStr "ai"); ("lane", VStr "progress");
               ("status", VStr "progress")] "progress" "progress"
              eq_refl eq_refl eq_refl)
    as (blocked & Hrun & Hs & _ & Hback).
  exists blocked. split; [exact Hrun|]. split; [exact Hs | exact Hback].
Defined.

(** *** Advance and the blocked status *)

(** X16. Advance overrides the status: after it the task is in lane progress
    with status progress or in lane done with status done, so a blocked task
    that is advanced is no longer blocked, and no task leaves advance with
    status todo. *)
Theorem advance_sets_status (props : list (string * value)) :
  ∃ t : value,
    advance (VObj props) = Return t
    ∧ ((property t "lane" = VStr "progress" ∧ property t "status" = VStr "progress")
       ∨ (property t "lane" = VStr "done" ∧ property t "status" = VStr "done"))
    ∧ property t "status" ≠ VStr "blocked"
    ∧ property t "status" ≠ VStr "todo".
Proof.
  rewrite advance_run. cbv zeta. eexists. split; [reflexivity|].
  assert (Hl : ∀ l x, property (VObj (assign (assign props "lane" l) "status" x)) "lane" = l).
  { intros l x. cbn. rewrite assign_other by done. by rewrite assign_same. }
  assert (Hs : ∀ l x, property (VObj (assign (assign props "lane" l) "status" x)) "status" = x).
  { intros l x. cbn. by rewrite assign_same. }
  rewrite Hl, Hs.
  destruct (nextLane_cases (property (VObj props) "lane")) as [[_ ->]|[_ ->]];
    cbn; (split; [auto|]); split; discriminate.
Qed.

(** *** Finding and deleting by id *)

Lemma findTask_step (t : value) (rest : list value) (id : string) (off : nat) :
  readable t →
  findTask (t :: rest) id off
  = if is_literal (property t "id") id then Return (Some off)
    else findTask rest id (S off).
Proof.
  intros Hr. cbn [findTask]. rewrite (get_readable _ _ Hr). reflexivity.
Qed.

(** [find] returns the first readable... the first element with the id. *)
Lemma findTask_first (tasks : list value) (id : string) :
  ∀ (off k : nat) (t : value),
    Forall (λ x, readable x ∧ ¬ hasId id x) (take k tasks) →
    tasks !! k = Some t → hasId id t →
    findTask tasks id off = Return (Some (off + k)%nat).
Proof.
  induction tasks as [|x rest IH]; intros off k t Hbefore Hk Ht; [discriminate|].
  destruct k as [|k]; cbn in Hk.
  - injection Hk as ->. destruct (hasId_object _ _ Ht) as [props ->].
    rewrite findTask_step by apply readable_object.
    rewrite (proj2 (is_literal_id _ _) Ht). f_equal. f_equal. lia.
  - cbn in Hbefore. apply Forall_cons in Hbefore as [[Hr Hn] Hbefore].
    rewrite findTask_step by done.
    destruct (is_literal (property x "id") id) eqn:E.
    { by apply is_literal_id in E. }
    rewrite (IH (S off) k t) by done. f_equal. f_equal. lia.
Qed.

Lemma findTask_sound (tasks : list value) (id : string) :
  ∀ (off n : nat),
    findTask tasks id off = Return (Some n) →
    ∃ (k : nat) (t : value),
      n = (off + k)%nat ∧ tasks !! k = Some t ∧ hasId id t
      ∧ Forall (λ x, readable x ∧ ¬ hasId id x) (take k tasks).
Proof.
  induction tasks as [|x rest IH]; intros off n H; [discriminate|].
  destruct (readable_cases x) as [Hr|Hbad].
  2:{ cbn in H. by destruct Hbad as [-> | ->]. }
  rewrite findTask_step in H by done.
  destruct (is_literal (property x "id") id) eqn:E.
  - injection H as <-. exists 0%nat, x.
    split; [lia|]. split; [reflexivity|]. split; [by apply is_literal_id|].
    constructor.
  - destruct (IH _ _ H) as (k & t & -> & Hk & Ht & Hbefore).
    exists (S k), t. split; [lia|]. split; [exact Hk|]. split; [exact Ht|].
    cbn. constructor; [|exact Hbefore]. split; [exact Hr|].
    intros Hid. apply is_literal_id in Hid. congruence.
Qed.

Lemma findTask_absent (tasks : list value) (id : string) (off : nat) :
  Forall (λ x, readable x ∧ ¬ hasId id x) tasks →
  findTask tasks id off = Return None.
Proof.
  intros H. revert off. induction H as [|x rest [Hr Hn] _ IH]; intros off.
  - reflexivity.
  - rewrite findTask_step by done.
    destruct (is_literal (property x "id") id) eqn:E; [|apply IH].
    by apply is_literal_id in E.
Qed.

Lemma withoutTask_filter (tasks : list value) (id : string) :
  Forall readable tasks →
  withoutTask tasks id
  = Return (filter (λ t, is_literal (property t "id") id = false) tasks).
Proof.
  induction 1 as [|x rest Hr _ IH]; [reflexivity|].
  cbn [withoutTask]. rewrite (get_readable _ _ Hr), IH.
  cbn [mbind outcome_bind]. rewrite filter_cons.
  destruct (is_literal (property x "id") id) eqn:E.
  - by rewrite decide_False.
  - by rewrite decide_True.
Qed.

Lemma findTask_present (tasks : list value) (id : string) :
  Forall readable tasks →
  (∃ t, t ∈ tasks ∧ hasId id t) →
  ∀ off : nat, ∃ n : nat, findTask tasks id off = Return (Some n).
Proof.
  induction 1 as [|x rest Hr _ IH]; intros (t & Hin & Ht) off.
  - by apply elem_of_nil in Hin.
  - rewrite findTask_step by done.
    destruct (is_literal (property x "id") id) eqn:E; [eauto|].
    apply elem_of_cons in Hin as [->|Hin].
    + apply is_literal_id in Ht. congruence.
    + apply IH. eauto.
Qed.

(** The state a task click saves when the task is found at [k] and the
    actions leave [task'] there and [tasks'] in the list. *)
Lemma clickTask_found (action id now : string) (state : TrackerState)
    (k : nat) (props : list (string * value)) :
  id ≠ "" →
  tasks state !! k = Some (VObj props) →
  hasId id (VObj props) →
  Forall (λ x, readable x ∧ ¬ hasId id x) (take k (tasks state)) →
  clickTask action id now state
  = (task ← (if String.eqb action "advance" then advance (VObj props)
             else mret (VObj props));
     task ← (if String.eqb action "owner" then swapOwner task else mret task);
     task ← (if String.eqb action "block" then toggleBlock task else mret task);
     let tasks1 := <[k := task]> (tasks state) in
     tasks2 ← (if String.eqb action "del" then withoutTask tasks1 id
               else mret tasks1);
     mret (Some (saveState now
                   {| revision := revision state; updatedAt := updatedAt state;
                      tasks := tasks2; messages := messages state |}))).
Proof.
  intros Hid Hk Hhas Hbefore. unfold clickTask.
  assert (String.eqb id "" = false) as -> by (by apply String.eqb_neq).
  rewrite (findTask_first _ _ 0 k (VObj props)) by done.
  cbn [mbind outcome_bind Nat.add]. rewrite Hk. reflexivity.
Qed.

(** What [saveState] leaves in the view: the revision is the old one plus 1
    as a double computes it. *)
Lemma saveState_finite (now : string) (st : TrackerState) (r : Z) :
  revision st = Finite r →
  saveState now st
  = {| revision := succ (Finite r); updatedAt := now;
       tasks := tasks st; messages := messages st |}.
Proof.
  intros Hr. unfold saveState, with_revision, with_updatedAt.
  cbn [revision updatedAt tasks messages]. rewrite Hr. cbn [truthy].
  by destruct (Z.eqb_spec r 0) as [->|_].
Qed.

(** X17. A task button acts on the first task of the view's copy that carries
    the id: advance, owner and block each replace that task by the result of
    the action, leave every other task and all messages alone, and save with
    [updatedAt] set to the clock and the revision plus 1 as a double computes
    it: incremented by 1 when the revision is an integer of magnitude below
    2^53. *)
Theorem click_updates_first_task (id now : string) (state : TrackerState)
    (k : nat) (props : list (string * value)) (r : Z) :
  id ≠ "" →
  tasks state !! k = Some (VObj props) →
  hasId id (VObj props) →
  Forall (λ x, readable x ∧ ¬ hasId id x) (take k (tasks state)) →
  revision state = Finite r →
  ∃ (advanced swapped toggled : value),
    advance (VObj props) = Return advanced
    ∧ swapOwner (VObj props) = Return swapped
    ∧ toggleBlock (VObj props) = Return toggled
    ∧ clickTask "advance" id now state
      = Return (Some {| revision := succ (Finite r); updatedAt := now;
                        tasks := <[k := advanced]> (tasks state);
                        messages := messages state |})
    ∧ clickTask "owner" id now state
      = Return (Some {| revision := succ (Finite r); updatedAt := now;
                        tasks := <[k := swapped]> (tasks state);
                        messages := messages state |})
    ∧ clickTask "block" id now state
      = Return (Some {| revision := succ (Finite r); updatedAt := now;
                        tasks := <[k := toggled]> (tasks state);
                        messages := messages state |})
    ∧ (safeInteger r → succ (Finite r) = Finite (r + 1)).
Proof.
  intros Hid Hk Hhas Hbefore Hr.
  assert (Hsave : ∀ ts,
            saveState now {| revision := revision state;
                             updatedAt := updatedAt state;
                             tasks := ts; messages := messages state |}
            = {| revision := succ (Finite r); updatedAt := now;
                 tasks := ts; messages := messages state |}).
  { intros ts. by rewrite (saveState_finite now _ r). }
  eexists _, _, _.
  split; [apply advance_run|]. split; [apply swapOwner_run|].
  split; [apply toggleBlock_run|].
  rewrite !(clickTask_found _ id now state k props) by done.
  cbn [String.eqb Ascii.eqb Bool.eqb]. cbv iota.
  cbn [mbind outcome_bind mret outcome_ret].
  rewrite advance_run, swapOwner_run, toggleBlock_run.
  cbn [mbind outcome_bind mret outcome_ret]. rewrite !Hsave.
  split; [reflexivity|]. split; [reflexivity|]. split; [reflexivity|].
  apply succ_safe.
Qed.

Lemma click_updates_first_task_witness :
  ∃ toggled : value,
    toggleBlock progressTask = Return toggled
    ∧ clickTask "block" "task-2" "2026-02-18T18:00:00.000Z" boardState
      = Return (Some {| revision := Finite 8;
                        updatedAt := "2026-02-18T18:00:00.000Z";
                        tasks := [todoTask; toggled; progressTask];
                        messages := messages boardState |}).
Proof.
  destruct (click_updates_first_task "task-2" "2026-02-18T18:00:00.000Z"
              boardState 1
              [("id", VStr "task-2"); ("title", VStr "Review the parser");
               ("owner", VStr "ai"); ("lane", VStr "progress");
               ("status", VStr "progress")] 7
              ltac:(discriminate) eq_refl eq_refl
              ltac:(repeat constructor; discriminate) eq_refl)
    as (a & o & b & _ & _ & Hb & _ & _ & Hclick & _).
  exists b. split; [exact Hb | exact Hclick].
Defined.

(** X18. Delete removes every task that carries the id, not only the first: the
    saved tasks are the others, in their order, strictly fewer than before;
    messages are untouched, and the revision is the old one plus 1 as a
    double computes it (incremented by 1 below 2^53 in magnitude). *)
Theorem click_delete_removes_all (id now : string) (state : TrackerState) (r : Z) :
  id ≠ "" →
  Forall readable (tasks state) →
  (∃ t, t ∈ tasks state ∧ hasId id t) →
  revision state = Finite r →
  ∃ kept : list value,
    clickTask "del" id now state
    = Return (Some {| revision := succ (Finite r); updatedAt := now;
                      tasks := kept; messages := messages state |})
    ∧ (safeInteger r → succ (Finite r) = Finite (r + 1))
    ∧ kept = filter (λ t, is_literal (property t "id") id = false) (tasks state)
    ∧ Forall (λ t, ¬ hasId id t) kept
    ∧ (∀ t, t ∈ tasks state → ¬ hasId id t → t ∈ kept)
    ∧ (length kept < length (tasks state))%nat.
Proof.
  intros Hid Hread Hex Hr.
  destruct (findTask_present _ id Hread Hex 0) as [n Hn].
  destruct (findTask_sound _ _ _ _ Hn) as (k & t & -> & Hk & Ht & Hbefore).
  destruct (hasId_object _ _ Ht) as [props ->].
  rewrite (clickTask_found _ id now state k props) by done.
  cbn [String.eqb Ascii.eqb Bool.eqb]. cbv iota.
  cbn [mbind outcome_bind mret outcome_ret].
  rewrite list_insert_id by done.
  rewrite withoutTask_filter by done.
  cbn [mbind outcome_bind mret outcome_ret].
  rewrite (saveState_finite _ _ r) by done. cbn [tasks messages].
  eexists. split; [reflexivity|]. split; [apply succ_safe|].
  split; [reflexivity|].
  split.
  { apply Forall_forall. intros x Hx. apply list_elem_of_filter in Hx as [Hx _].
    intros Hh. apply is_literal_id in Hh. congruence. }
  split.
  { intros x Hx Hh. apply list_elem_of_filter. split; [|exact Hx].
    destruct (is_literal (property x "id") id) eqn:E; [|reflexivity].
    by apply is_literal_id in E. }
  assert (Hin : VObj props ∈ tasks state) by (by eapply list_elem_of_lookup_2).
  apply (length_filter_lt _ _ _ Hin).
  apply is_literal_id in Ht. by rewrite Ht.
Qed.

Lemma click_delete_removes_all_witness :
  clickTask "del" "task-2" "2026-02-18T18:00:00.000Z" boardState
  = Return (Some {| revision := Finite 8;
                    updatedAt := "2026-02-18T18:00:00.000Z";
                    tasks := [todoTask];
                    messages := messages boardState |}).
Proof.
  destruct (click_delete_removes_all "task-2" "2026-02-18T18:00:00.000Z"
              boardState 7 ltac:(discriminate)
              ltac:(repeat constructor; discriminate)
              (ex_intro _ progressTask
                 (conj (list_elem_of_further _ _ _ (list_elem_of_here _ _))
                       eq_refl))
              eq_refl)
    as (kept & Hclick & _ & -> & _).
  exact Hclick.
Defined.

(** X19. A click on an element whose id matches no task and no message of the
    view's copy does nothing, whatever action it carries: no state is
    changed and nothing is saved. *)
Theorem click_unknown_id (target : Dataset) (now : string) (state : TrackerState)
    (id : string) :
  data_id target = Some id →
  Forall (λ x, readable x ∧ ¬ hasId id x) (tasks state) →
  Forall (λ x, readable x ∧ ¬ hasId id x) (messages state) →
  click target now state = Return None.
Proof.
  intros Hid Ht Hm. unfold click. rewrite Hid. cbn [attribute].
  destruct (String.eqb id "") eqn:E; [reflexivity|].
  destruct (attribute (data_act target)) as [action|].
  - unfold clickTask. rewrite E. by rewrite findTask_absent.
  - destruct (attribute (data_msgAct target)) as [msgAction|]; [|reflexivity].
    unfold clickMessage. rewrite E. by rewrite findTask_absent.
Qed.

Lemma click_unknown_id_witness :
  click {| data_id := Some "task-9"; data_act := Some "del";
           data_msgAct := None |}
    "2026-02-18T18:00:00.000Z" boardState
  = Return None.
Proof.
  apply (click_unknown_id _ _ _ "task-9").
  - reflexivity.
  - repeat constructor; discriminate.
  - repeat constructor; discriminate.
Defined.

(** *** The counters and the milestone groups *)

Lemma countTask_total (acc : Counts) (t : value) :
  readable t →
  ∃ acc', countTask acc t = Return acc' ∧ total acc' = S (total acc).
Proof.
  intros Hr. unfold countTask. rewrite !(get_readable _ _ Hr).
  cbn [mbind outcome_bind].
  destruct (is_literal _ "blocked");
    [eexists; split; [reflexivity|unfold total; cbn; lia]|].
  destruct (is_literal _ "done");
    [eexists; split; [reflexivity|unfold total; cbn; lia]|].
  destruct (is_literal _ "progress");
    eexists; (split; [reflexivity|unfold total; cbn; lia]).
Qed.

Lemma countTasks_total (tasks : list value) :
  Forall readable tasks →
  ∀ acc, ∃ c, countTasks acc tasks = Return c
              ∧ total c = (total acc + length tasks)%nat.
Proof.
  induction 1 as [|t rest Hr _ IH]; intros acc.
  - exists acc. split; [reflexivity|]. cbn. lia.
  - destruct (countTask_total acc t Hr) as (acc' & Hacc & Ht).
    destruct (IH acc') as (c & Hc & Htot).
    exists c. cbn [countTasks]. rewrite Hacc. cbn [mbind outcome_bind].
    split; [exact Hc|]. cbn [length]. lia.
Qed.

Lemma countTasks_unreadable (tasks : list value) :
  ¬ Forall readable tasks →
  ∀ acc, countTasks acc tasks = Throw TypeError.
Proof.
  induction tasks as [|t rest IH]; intros Hno acc.
  - destruct Hno. constructor.
  - cbn [countTasks]. destruct (readable_cases t) as [Hr|Hbad].
    + destruct (countTask_total acc t Hr) as (acc' & -> & _).
      cbn [mbind outcome_bind]. apply IH.
      intros Hrest. apply Hno. by constructor.
    + by destruct Hbad as [-> | ->].
Qed.

(** X20. The counters of [renderStats] partition the tasks: when every task can
    be read, done + progress + todo + blocked is the number of tasks; when
    some task is [null] or [undefined] the reduction throws a TypeError. *)
Theorem taskCounts_partition (tasks : list value) :
  (Forall readable tasks →
   ∃ c : Counts,
     taskCounts tasks = Return c
     ∧ (countDone c + countProgress c + countTodo c + countBlocked c)%nat
       = length tasks)
  ∧ (¬ Forall readable tasks → taskCounts tasks = Throw TypeError).
Proof.
  split.
  - intros H. destruct (countTasks_total tasks H
                {| countDone := 0; countProgress := 0;
                   countTodo := 0; countBlocked := 0 |}) as (c & Hc & Ht).
    exists c. split; [exact Hc|]. exact Ht.
  - intros H. by apply countTasks_unreadable.
Qed.

Lemma taskCounts_partition_witness :
  ∃ c : Counts,
    taskCounts (tasks boardState) = Return c
    ∧ (countDone c + countProgress c + countTodo c + countBlocked c)%nat = 3%nat.
Proof.
  destruct (taskCounts_partition (tasks boardState)) as [H _].
  exact (H ltac:(repeat constructor; discriminate)).
Defined.

Lemma addToGroup_grouped (groups : list (value * list value)) (key task : value) :
  grouped (addToGroup groups key task) = S (grouped groups)
  ∧ (Forall (λ g, g.2 ≠ []) groups →
     Forall (λ g, g.2 ≠ []) (addToGroup groups key task)).
Proof.
  unfold grouped. induction groups as [|[k members] rest [IHs IHn]]; cbn.
  - split; [reflexivity|]. intros _. by repeat constructor.
  - destruct (same_value_zero false k key); cbn.
    + rewrite length_app. cbn. split; [lia|].
      intros Hne. apply Forall_cons in Hne as [_ Hne].
      constructor; [|exact Hne]. cbn. by destruct members.
    + rewrite IHs. split; [lia|].
      intros Hne. apply Forall_cons in Hne as [Hm Hne].
      constructor; [exact Hm | by apply IHn].
Qed.

Lemma groupInto_grouped (tasks : list value) :
  Forall readable tasks →
  ∀ groups, Forall (λ g, g.2 ≠ []) groups →
    ∃ result, groupInto groups tasks = Return result
              ∧ grouped result = (grouped groups + length tasks)%nat
              ∧ Forall (λ g, g.2 ≠ []) result.
Proof.
  induction 1 as [|t rest Hr _ IH]; intros groups Hne.
  - exists groups. split; [reflexivity|]. split; [cbn; lia | exact Hne].
  - cbn [groupInto]. unfold milestoneKey. rewrite (get_readable _ _ Hr).
    cbn [mbind outcome_bind mret outcome_ret].
    set (key := if truthy (property t "milestone")
                then property t "milestone" else VStr "Unassigned").
    destruct (addToGroup_grouped groups key t) as [Hs Hn].
    destruct (IH (addToGroup groups key t) (Hn Hne)) as (result & Hres & Hsum & Hnon).
    exists result. split; [exact Hres|]. split; [|exact Hnon].
    rewrite Hsum, Hs. cbn [length]. lia.
Qed.

(** X21. The milestone groups partition the tasks: when every task can be read,
    the loop of [groupedMilestones] returns groups whose sizes add up to the
    number of tasks, and no group is empty. *)
Theorem milestoneGroups_partition (tasks : list value) :
  Forall readable tasks →
  ∃ groups : list (value * list value),
    milestoneGroups tasks = Return groups
    ∧ sum_list (length <$> groups.*2) = length tasks
    ∧ Forall (λ g, g.2 ≠ []) groups.
Proof.
  intros H. destruct (groupInto_grouped tasks H [] (Forall_nil_2 _))
    as (result & Hres & Hsum & Hnon).
  exists result. split; [exact Hres|]. split; [exact Hsum | exact Hnon].
Qed.

Lemma milestoneGroups_partition_witness :
  ∃ groups : list (value * list value),
    milestoneGroups (tasks boardState) = Return groups
    ∧ sum_list (length <$> groups.*2) = 3%nat.
Proof.
  destruct (milestoneGroups_partition (tasks boardState)
              ltac:(repeat constructor; discriminate))
    as (groups & Hrun & Hsum & _).
  exists groups. split; [exact Hrun | exact Hsum].
Defined.

(** *** The forms and the message buttons *)

Lemma filterPending_app_pending (msgs : list value) (x : value) :
  isPending x = Return true →
  ∀ (i : nat) (pending : list (nat * value)),
    filterPending msgs i = Return pending →
    filterPending (msgs ++ [x]) i
    = Return (pending ++ [((i + length msgs)%nat, x)])%list.
Proof.
  intros Hx. induction msgs as [|m rest IH]; intros i pending Hp.
  - cbn in Hp. injection Hp as <-. cbn. rewrite Hx. cbn.
    by rewrite Nat.add_0_r.
  - cbn in Hp. cbn [app filterPending].
    destruct (isPending m) as [keep|]; cbn in Hp; [|discriminate].
    destruct (filterPending rest (S i)) as [kept|] eqn:Hkept; cbn in Hp;
      [|discriminate].
    injection Hp as <-. cbn [mbind outcome_bind].
    rewrite (IH (S i) kept Hkept). cbn [mbind outcome_bind mret outcome_ret].
    replace (S i + length rest)%nat with (i + length (m :: rest))%nat
      by (cbn; lia).
    by destruct keep.
Qed.

(** X22. A message sent from the view is pending for the workflow. With a title
    and a body, the send form appends one message from human to ai with
    resolved=false, leaves tasks alone and adds 1 to the revision as a double
    does (an increment below 2^53 in magnitude); the workflow's filter then
    returns what it returned before followed by the new message. *)
Theorem sent_message_is_pending (type title body suffix created now : string)
    (state : TrackerState) (pending : list (nat * value)) (r : Z) :
  title ≠ "" →
  body ≠ "" →
  revision state = Finite r →
  filterPending (messages state) 0 = Return pending →
  let sent := composedMessage type title body suffix created in
  sendMessage type title body suffix created now state
  = Some {| revision := succ (Finite r); updatedAt := now;
            tasks := tasks state;
            messages := (messages state ++ [sent])%list |}
  ∧ (safeInteger r → succ (Finite r) = Finite (r + 1))
  ∧ pendingMessage sent
  ∧ filterPending (messages state ++ [sent]) 0
    = Return (pending ++ [(length (messages state), sent)])%list.
Proof.
  intros Ht Hb Hr Hp sent. unfold sendMessage.
  apply String.eqb_neq in Ht, Hb. rewrite Ht, Hb. cbn [orb].
  rewrite (saveState_finite _ _ r) by done.
  split; [reflexivity|]. split; [apply succ_safe|]. split; [by repeat split|].
  by rewrite (filterPending_app_pending _ sent eq_refl 0 pending Hp).
Qed.

Lemma sent_message_is_pending_witness :
  filterPending
    (messages boardState
       ++ [composedMessage "note" "Next step" "What comes after M1?" "k3j9x2m1"
             "2026-02-18T18:00:00.000Z"])
    0
  = Return [(0%nat, question "msg-q1" "Order of work");
            (1%nat, composedMessage "note" "Next step" "What comes after M1?"
                      "k3j9x2m1" "2026-02-18T18:00:00.000Z")].
Proof.
  destruct (sent_message_is_pending "note" "Next step" "What comes after M1?"
              "k3j9x2m1" "2026-02-18T18:00:00.000Z" "2026-02-18T18:00:00.001Z"
              boardState [(0%nat, question "msg-q1" "Order of work")] 7
              ltac:(discriminate) ltac:(discriminate) eq_refl eq_refl)
    as (_ & _ & _ & H).
  exact H.
Defined.

(** X23. The task form appends exactly one task, last, with the id built from
    the random suffix, and saves with the revision plus 1 as a double
    computes it (incremented by 1 below 2^53 in magnitude). Its status is
    done when it is added to lane done and todo otherwise, so a task added
    to lane progress starts with status todo, never progress. *)
Theorem addTask_appends (form : TaskForm) (suffix created now : string)
    (state : TrackerState) (r : Z) :
  taskTitle form ≠ "" →
  revision state = Finite r →
  ∃ task : value,
    addTask form suffix created now state
    = Some {| revision := succ (Finite r); updatedAt := now;
              tasks := (tasks state ++ [task])%list;
              messages := messages state |}
    ∧ (safeInteger r → succ (Finite r) = Finite (r + 1))
    ∧ hasId ("task-" ++ suffix) task
    ∧ property task "title" = VStr (taskTitle form)
    ∧ property task "lane" = VStr (taskLane form)
    ∧ property task "status"
      = VStr (if String.eqb (taskLane form) "done" then "done" else "todo")
    ∧ property task "status" ≠ VStr "progress".
Proof.
  intros Ht Hr. unfold addTask.
  apply String.eqb_neq in Ht. rewrite Ht.
  rewrite (saveState_finite _ _ r) by done.
  eexists. split; [reflexivity|]. split; [apply succ_safe|].
  split; [reflexivity|]. split; [reflexivity|]. split; [reflexivity|].
  cbn. by destruct (String.eqb (taskLane form) "done").
Qed.

Lemma addTask_appends_witness :
  ∃ task : value,
    addTask exampleForm "k3j9x2m1" "2026-02-18T18:00:00.000Z"
      "2026-02-18T18:00:00.001Z" boardState
    = Some {| revision := Finite 8; updatedAt := "2026-02-18T18:00:00.001Z";
              tasks := (tasks boardState ++ [task])%list;
              messages := messages boardState |}
    ∧ property task "lane" = VStr "progress"
    ∧ property task "status" = VStr "todo".
Proof.
  destruct (addTask_appends exampleForm "k3j9x2m1" "2026-02-18T18:00:00.000Z"
              "2026-02-18T18:00:00.001Z" boardState 7
              ltac:(discriminate) eq_refl)
    as (task & Hrun & _ & _ & _ & Hl & Hs & _).
  exists task. split; [exact Hrun|]. split; [exact Hl | exact Hs].
Defined.




Lemma openMessages_readable (msgs : list value) :
  Forall readable msgs →
  ∃ n : nat, openMessages msgs = Return n ∧ (n ≤ length msgs)%nat.
Proof.
  induction 1 as [|m rest Hr _ (n & Hn & Hle)].
  - exists 0%nat. by split.
  - cbn [openMessages]. rewrite (get_readable _ _ Hr), Hn.
    cbn [mbind outcome_bind mret outcome_ret].
    destruct (truthy _); eexists; (split; [reflexivity|]); cbn; lia.
Qed.

(** X25. What the workflow offers is within what the dashboard counts as open:
    whenever the workflow's filter returns, the open-message counter of
    [renderStats] returns too, and the number of pending messages is at most
    that counter, which is at most the number of messages. *)
Theorem pending_within_open (msgs : list value) (pending : list (nat * value)) :
  filterPending msgs 0 = Return pending →
  ∃ n : nat,
    openMessages msgs = Return n
    ∧ (length pending ≤ n)%nat
    ∧ (n ≤ length msgs)%nat.
Proof.
  generalize 0%nat. revert pending.
  induction msgs as [|m rest IH]; intros pending i Hp.
  - cbn in Hp. injection Hp as <-. exists 0%nat. by repeat split.
  - cbn in Hp.
    destruct (isPending m) as [keep|] eqn:Hkeep; cbn in Hp; [|discriminate].
    destruct (filterPending rest (S i)) as [kept|] eqn:Hkept; cbn in Hp;
      [|discriminate].
    injection Hp as <-.
    destruct (IH _ _ Hkept) as (n & Hn & Hle & Hlen).
    assert (Hr : readable m).
    { destruct (readable_cases m) as [?|[-> | ->]]; [done|discriminate..]. }
    cbn [openMessages]. rewrite (get_readable _ _ Hr), Hn.
    cbn [mbind outcome_bind mret outcome_ret].
    destruct keep.
    + destruct (isPending_object _ Hkeep) as (_ & _ & _ & Hres).
      rewrite Hres. exists (S n). split; [reflexivity|]. cbn. lia.
    + destruct (truthy _); eexists; (split; [reflexivity|]); cbn; lia.
Qed.

Lemma pending_within_open_witness :
  ∃ n : nat,
    openMessages (messages boardState) = Return n
    ∧ (1 ≤ n)%nat.
Proof.
  destruct (pending_within_open (messages boardState)
              [(0%nat, question "msg-q1" "Order of work")] eq_refl)
    as (n & Hn & Hle & _).
  exists n. split; [exact Hn | exact Hle].
Defined.

Lemma boardCell_filter (lane owner : string) (tasks : list value) :
  Forall readable tasks →
  boardCell lane owner tasks
  = Return (filter (λ t, is_literal (property t "lane") lane
                         && is_literal (property t "owner") owner = true) tasks).
Proof.
  induction 1 as [|t rest Hr _ IH]; [reflexivity|].
  cbn [boardCell]. rewrite !(get_readable _ _ Hr), IH.
  cbn [mbind outcome_bind mret outcome_ret]. rewrite filter_cons.
  destruct (is_literal (property t "lane") lane);
    cbn [mbind outcome_bind mret outcome_ret andb].
  - destruct (is_literal (property t "owner") owner).
    + by rewrite decide_True.
    + by rewrite decide_False.
  - by rewrite decide_False.
Qed.

Lemma decide_bool {A} (b : bool) (x y : A) :
  (if decide (b = true) then x else y) = if b then x else y.
Proof. by destruct b. Qed.

Lemma is_literal_exclusive (v : value) (a b : string) :
  a ≠ b → is_literal v a = true → is_literal v b = false.
Proof.
  intros Hab Ha. apply is_literal_true in Ha. subst v.
  apply is_literal_false. congruence.
Qed.

(** X26. The board shows exactly the tasks it has a cell for: when every task
    can be read, the six cells (three lanes, two owners) together hold as
    many cards as there are tasks whose lane is todo, progress or done and
    whose owner is human or ai, so tasks with any other lane or owner are
    not among the cards. *)
Theorem board_shows_placed_tasks (tasks : list value) :
  Forall readable tasks →
  ∃ todoHuman todoAi progressHuman progressAi doneHuman doneAi : list value,
    boardCell "todo" "human" tasks = Return todoHuman
    ∧ boardCell "todo" "ai" tasks = Return todoAi
    ∧ boardCell "progress" "human" tasks = Return progressHuman
    ∧ boardCell "progress" "ai" tasks = Return progressAi
    ∧ boardCell "done" "human" tasks = Return doneHuman
    ∧ boardCell "done" "ai" tasks = Return doneAi
    ∧ (length todoHuman + length todoAi + length progressHuman
       + length progressAi + length doneHuman + length doneAi)%nat
      = length (filter (λ t, onBoard t = true) tasks)
    ∧ (length (filter (λ t, onBoard t = true) tasks) ≤ length tasks)%nat.
Proof.
  intros Hr. rewrite !boardCell_filter by done.
  eexists _, _, _, _, _, _. do 6 (split; [reflexivity|]).
  split; [|apply length_filter].
  clear Hr. induction tasks as [|t rest IH]; [reflexivity|].
  rewrite !filter_cons, !decide_bool. unfold onBoard at 1.
  pose proof (is_literal_exclusive (property t "lane") "todo" "progress"
                ltac:(discriminate)) as E1.
  pose proof (is_literal_exclusive (property t "lane") "todo" "done"
                ltac:(discriminate)) as E2.
  pose proof (is_literal_exclusive (property t "lane") "progress" "done"
                ltac:(discriminate)) as E3.
  pose proof (is_literal_exclusive (property t "owner") "human" "ai"
                ltac:(discriminate)) as E4.
  destruct (is_literal (property t "lane") "todo"),
           (is_literal (property t "lane") "progress"),
           (is_literal (property t "lane") "done"),
           (is_literal (property t "owner") "human"),
           (is_literal (property t "owner") "ai");
    try discriminate (E1 eq_refl); try discriminate (E2 eq_refl);
    try discriminate (E3 eq_refl); try discriminate (E4 eq_refl);
    cbn [andb orb length]; lia.
Qed.

Lemma board_shows_placed_tasks_witness :
  ∃ todoHuman progressAi : list value,
    boardCell "todo" "human" (tasks boardState) = Return todoHuman
    ∧ boardCell "progress" "ai" (tasks boardState) = Return progressAi.
Proof.
  destruct (board_shows_placed_tasks (tasks boardState)
              ltac:(repeat constructor; discriminate))
    as (th & ta & ph & pa & dh & da & H1 & _ & _ & H4 & _).
  exists th, pa. split; [exact H1 | exact H4].
Defined.

(** *** A save followed by a refresh *)

(** X27. A save followed by a refresh. When the view, once resolved, saves a
    copy at revision [r] into a writable folder, the state the controller
    posts back has the revision the view computed ([r + 1] as a double
    computes it, an increment below 2^53 in magnitude) and the controller's
    clock reading as [updatedAt] (not the view's); a [requestState] message
    handled next posts, without changing anything else, the same revision and
    [updatedAt] and the JSON images of the view's tasks and messages, and
    that is the view's copy after it has received both. *)
Theorem save_then_refresh (view : TrackerState) (now : string) (op : Operator)
    (w : World) (r : Z) :
  canWrite w = true →
  viewResolved w = true →
  revision view = Finite r →
  ∃ (echo refreshed : TrackerState) (w1 : World),
    handleMessage (saveMessage (saveState now view)) op w = (Return (), w1)
    ∧ posted w1 = StateMessage echo :: posted w
    ∧ revision echo = succ (Finite r)
    ∧ (safeInteger r → revision echo = Finite (r + 1))
    ∧ updatedAt echo = reading w
    ∧ handleMessage (VObj [("type", VStr "requestState")]) op w1
      = (Return (), posting (StateMessage refreshed) w1)
    ∧ posted (posting (StateMessage refreshed) w1)
      = StateMessage refreshed :: posted w1
    ∧ revision refreshed = revision echo
    ∧ updatedAt refreshed = reading w
    ∧ tasks refreshed = to_json <$> tasks view
    ∧ messages refreshed = to_json <$> messages view
    ∧ receive (StateMessage refreshed) (receive (StateMessage echo) (saveState now view))
      = refreshed.
Proof.
  intros Hw Hview Hr.
  set (d := with_updatedAt (saveState now view) (reading w)).
  assert (Hd : d = {| revision := succ (Finite r); updatedAt := reading w;
                      tasks := tasks view; messages := messages view |}).
  { unfold d. by rewrite (saveState_finite now view r Hr). }
  assert (Hz : revision d = Finite (nearest_double (r + 1))) by (by rewrite Hd).
  exists d, {| revision := revision d; updatedAt := updatedAt d;
               tasks := to_json <$> tasks d; messages := to_json <$> messages d |},
    (posting (StateMessage d) (committed (state_object d) (tick w))).
  split; [exact (save_run view now op w r Hw Hr)|].
  split; [cbn [posted posting committed viewResolved tick]; by rewrite Hview|].
  split; [by rewrite Hd|].
  split; [intros Hsafe; rewrite Hd; by apply succ_safe|].
  split; [by rewrite Hd|].
  split.
  { rewrite handleMessage_dispatch. cbv zeta.
    change (property (VObj [("type", VStr "requestState")]) "type")
      with (VStr "requestState").
    cbn [truthy negb].
    change (is_literal (VStr "requestState") "requestState") with true.
    cbv beta iota.
    rewrite (pushState_stored _ (to_json (state_object d))) by reflexivity.
    rewrite (normalized_to_json_state d _ _ Hz).
    unfold afterNormalize. rewrite (to_json_state d _ Hz).
    reflexivity. }
  split; [cbn [posted posting committed viewResolved tick]; by rewrite Hview|].
  rewrite Hd. cbn. by repeat split.
Qed.

Lemma save_then_refresh_witness :
  ∃ (echo refreshed : TrackerState) (w1 : World),
    handleMessage (saveMessage (saveState "2026-02-18T17:30:00.000Z" boardState))
      cancelling (worldWith (Some (folderWith pendingDocument)))
    = (Return (), w1)
    ∧ posted w1 = [StateMessage echo]
    ∧ handleMessage (VObj [("type", VStr "requestState")]) cancelling w1
      = (Return (), posting (StateMessage refreshed) w1)
    ∧ revision refreshed = Finite 8
    ∧ updatedAt refreshed = "2026-02-18T18:00:00.000Z".
Proof.
  destruct (save_then_refresh boardState "2026-02-18T17:30:00.000Z" cancelling
              (worldWith (Some (folderWith pendingDocument))) 7
              eq_refl eq_refl eq_refl)
    as (echo & refreshed & w1 & Hs & Hp & He & _ & _ & Hq & _ & Hr & Hu & _).
  exists echo, refreshed, w1.
  split; [exact Hs|]. split; [exact Hp|]. split; [exact Hq|].
  split; [by rewrite Hr, He | exact Hu].
Defined.

(** *** The progress of the milestones *)

Lemma doneCount_readable (tasks : list value) :
  Forall readable tasks → doneCount tasks = Return (doneOf tasks).
Proof.
  induction 1 as [|t rest Hr _ IH]; [reflexivity|].
  cbn [doneCount]. rewrite (get_readable _ _ Hr), IH.
  cbn [mbind outcome_bind mret outcome_ret].
  unfold doneOf. rewrite filter_cons.
  destruct (is_literal (property t "lane") "done") eqn:E.
  - rewrite decide_True by reflexivity. reflexivity.
  - rewrite decide_False by discriminate. reflexivity.
Qed.

Lemma doneOf_le (tasks : list value) : (doneOf tasks ≤ length tasks)%nat.
Proof. apply length_filter. Qed.

Lemma doneOf_snoc (tasks : list value) (t : value) :
  doneOf (tasks ++ [t]) = (doneOf tasks + doneOf [t])%nat.
Proof. unfold doneOf. by rewrite filter_app, length_app. Qed.

Lemma addToGroup_done (groups : list (value * list value)) (key task : value) :
  doneIn (addToGroup groups key task) = (doneIn groups + doneOf [task])%nat
  ∧ (readable task →
     Forall (λ g, Forall readable g.2) groups →
     Forall (λ g, Forall readable g.2) (addToGroup groups key task)).
Proof.
  unfold doneIn. induction groups as [|[k members] rest [IHs IHr]]; cbn [addToGroup].
  - split; [cbn; lia|]. intros Ht _.
    constructor; [|constructor]. cbn. constructor; [exact Ht | constructor].
  - destruct (same_value_zero false k key).
    + split.
      * cbn [fmap list_fmap sum_list snd]. rewrite doneOf_snoc. unfold Datatypes.id. lia.
      * intros Ht Hg. apply Forall_cons in Hg as [Hm Hg].
        constructor; [|exact Hg]. cbn. apply Forall_app. split; [exact Hm|].
        constructor; [exact Ht | constructor].
    + split.
      * cbn [fmap list_fmap sum_list snd]. cbn [fmap] in IHs. rewrite IHs.
        unfold Datatypes.id. lia.
      * intros Ht Hg. apply Forall_cons in Hg as [Hm Hg].
        constructor; [exact Hm | by apply IHr].
Qed.

Lemma groupInto_done (tasks : list value) :
  Forall readable tasks →
  ∀ groups, Forall (λ g, Forall readable g.2) groups →
    ∃ result, groupInto groups tasks = Return result
              ∧ doneIn result = (doneIn groups + doneOf tasks)%nat
              ∧ Forall (λ g, Forall readable g.2) result.
Proof.
  induction 1 as [|t rest Hr _ IH]; intros groups Hg.
  - exists groups. split; [reflexivity|]. split; [cbn; lia | exact Hg].
  - cbn [groupInto]. unfold milestoneKey. rewrite (get_readable _ _ Hr).
    cbn [mbind outcome_bind mret outcome_ret].
    set (key := if truthy (property t "milestone")
                then property t "milestone" else VStr "Unassigned").
    destruct (addToGroup_done groups key t) as [Hs Hn].
    destruct (IH (addToGroup groups key t) (Hn Hr Hg)) as (result & Hres & Hsum & Hread).
    exists result. split; [exact Hres|]. split; [|exact Hread].
    rewrite Hsum, Hs. change (t :: rest) with ([t] ++ rest)%list.
    unfold doneOf. rewrite filter_app, length_app. lia.
Qed.

Lemma countTasks_done (tasks : list value) :
  Forall readable tasks →
  ∀ acc c, countTasks acc tasks = Return c →
    (countDone c ≤ countDone acc + doneOf tasks)%nat.
Proof.
  induction 1 as [|t rest Hr _ IH]; intros acc c Hc.
  - cbn in Hc. injection Hc as <-. lia.
  - cbn [countTasks] in Hc. unfold countTask in Hc.
    rewrite !(get_readable _ _ Hr) in Hc.
    cbn [mbind outcome_bind mret outcome_ret] in Hc.
    change (t :: rest) with ([t] ++ rest)%list.
    unfold doneOf. rewrite filter_app, length_app.
    fold (doneOf rest). rewrite filter_cons, filter_nil.
    destruct (is_literal (property t "status") "blocked").
    { apply IH in Hc. cbn [countDone] in Hc.
      destruct (decide _); cbn [length]; lia. }
    destruct (is_literal (property t "lane") "done") eqn:E.
    { apply IH in Hc. cbn [countDone] in Hc.
      rewrite decide_True by reflexivity. cbn [length]. lia. }
    rewrite decide_False by discriminate. cbn [length].
    destruct (is_literal (property t "lane") "progress");
      apply IH in Hc; cbn [countDone] in Hc; lia.
Qed.

Lemma doneIn_permutation (entries groups : list (value * list value)) :
  entries ≡ₚ groups → doneIn entries = doneIn groups.
Proof.
  unfold doneIn.
  induction 1 as [|g l l' _ IH|g g' l|l l' l'' _ IH1 _ IH2];
    cbn [fmap list_fmap sum_list sum_list_with] in *; unfold Datatypes.id in *;
    [reflexivity | lia | lia | congruence].
Qed.

(** X28. The progress of the milestones adds up. When every task can be read,
    the loop of [groupedMilestones] returns groups such that, in whatever
    order the sort that follows leaves them when it returns, the done count
    of line 85 of [renderMilestones] is, for each group, at most the size of
    the group, and the done counts of the groups add up to the number of
    tasks in lane done; the done counter of [renderStats] is at most that
    number (a blocked task in lane done is done for its milestone only). *)
Theorem milestone_progress_adds_up (tasks : list value) :
  Forall readable tasks →
  ∃ groups : list (value * list value),
    milestoneGroups tasks = Return groups
    ∧ doneCount tasks = Return (doneOf tasks)
    ∧ (∀ c : Counts,
         taskCounts tasks = Return c → (countDone c ≤ doneOf tasks)%nat)
    ∧ ∀ entries : list (value * list value),
        entries ≡ₚ groups →
        Forall (λ g, doneCount g.2 = Return (doneOf g.2)
                     ∧ (doneOf g.2 ≤ length g.2)%nat) entries
        ∧ doneIn entries = doneOf tasks.
Proof.
  intros H.
  destruct (groupInto_done tasks H [] (Forall_nil_2 _))
    as (result & Hres & Hsum & Hread).
  exists result. split; [exact Hres|].
  split; [by apply doneCount_readable|].
  split.
  { intros c Hc. apply (countTasks_done tasks H _ c) in Hc. cbn in Hc. lia. }
  intros entries Hperm. split.
  - rewrite Hperm. eapply Forall_impl; [exact Hread|]. intros g Hg. cbn beta.
    split; [by apply doneCount_readable | apply doneOf_le].
  - by rewrite (doneIn_permutation _ _ Hperm).
Qed.

Lemma milestone_progress_adds_up_witness :
  ∃ groups : list (value * list value),
    milestoneGroups (tasks boardState) = Return groups
    ∧ doneCount (tasks boardState) = Return 0%nat
    ∧ doneIn (reverse groups) = 0%nat.
Proof.
  destruct (milestone_progress_adds_up (tasks boardState)
              ltac:(repeat constructor; discriminate))
    as (groups & Hrun & Hd & _ & Hall).
  exists groups. split; [exact Hrun|]. split; [exact Hd|].
  exact (proj2 (Hall (reverse groups) (reverse_Permutation groups))).
Defined.
